(** * The Ceph kernel OSD client ([src/kernel/osd_client.c])

    A shallow embedding of the request builder, the request index, the
    daemon-session registry, the dispatcher, the reply handler, the map
    handler and [sync], with the properties the design document states
    about them. *)

From Stdlib Require Import ZArith Lia Ascii.
From Stdlib Require String.
From stdpp Require Import base option list sorting gmap strings.

Local Open Scope Z_scope.

(** ** Machine integers

    The C code computes on [u16], [u32], [u64] and [int]; values are kept
    in [Z] and every operation that can wrap says so. *)

Definition u16 (z : Z) : Z := z mod 2 ^ 16.
Definition u32 (z : Z) : Z := z mod 2 ^ 32.
Definition u64 (z : Z) : Z := z mod 2 ^ 64.
(** [size_t] of an LP64 kernel. *)
Definition size_t (z : Z) : Z := z mod 2 ^ 64.
(** conversion of a 32-bit pattern to [int] *)
Definition s32 (z : Z) : Z :=
  let w := z mod 2 ^ 32 in if w <? 2 ^ 31 then w else w - 2 ^ 32.

(** C truth value of an integer. *)
Definition truthy (z : Z) : bool := negb (z =? 0).
Definition Z_of_bool (b : bool) : Z := if b then 1 else 0.

(** ** [sprintf("%llx.%08llx", ino, bno)] *)

Definition hex_digit (d : Z) : ascii :=
  match d with
  | 0 => "0" | 1 => "1" | 2 => "2" | 3 => "3" | 4 => "4" | 5 => "5"
  | 6 => "6" | 7 => "7" | 8 => "8" | 9 => "9" | 10 => "a" | 11 => "b"
  | 12 => "c" | 13 => "d" | 14 => "e" | _ => "f"
  end%char.

(** The digits of [n], most significant first; [fuel] bounds their number
    (16 for an [unsigned long long]). *)
Fixpoint hex_digits (fuel : nat) (n : Z) (acc : list ascii) : list ascii :=
  match fuel with
  | O => acc
  | S fuel' =>
      let acc' := hex_digit (n mod 16) :: acc in
      if n / 16 =? 0 then acc' else hex_digits fuel' (n / 16) acc'
  end.

(** [%llx] *)
Definition fmt_llx (n : Z) : list ascii := hex_digits 16 (u64 n) [].

(** [%08llx]: zero padded on the left to a width of at least 8. *)
Definition fmt_08llx (n : Z) : list ascii :=
  let d := fmt_llx n in
  replicate (8 - length d)%nat "0"%char ++ d.

Definition fmt_oid (ino bno : Z) : list ascii :=
  fmt_llx ino ++ "."%char :: fmt_08llx bno.

(** ** Data model *)

(** Address of a [struct ceph_osd_request]. *)
Definition ptr := nat.

Record ceph_file_layout := {
  fl_stripe_unit : Z;
  fl_stripe_count : Z;
  fl_object_size : Z;
  fl_pg_pool : Z
}.

Record ceph_vino := { ino : Z; snap : Z }.

Record ceph_snap_context := {
  snapc_seq : Z;
  num_snaps : Z;
  snaps : list Z
}.

(** The osd map is opaque to the client beyond its epoch.  [map_obj]
    names the allocated object, so that [newmap != osdc->osdmap] can be
    told from an update in place. *)
Record ceph_osdmap := {
  map_obj : nat;
  epoch : Z;
  map_body : list Z
}.

(** One [struct ceph_osd_op] of the outgoing message. *)
Record ceph_osd_op := {
  op_op : Z;
  op_offset : Z;
  op_length : Z;
  op_payload_len : Z;
  op_truncate_seq : Z;
  op_truncate_size : Z
}.

Definition zero_op : ceph_osd_op :=
  {| op_op := 0; op_offset := 0; op_length := 0; op_payload_len := 0;
     op_truncate_seq := 0; op_truncate_size := 0 |}.

Record ceph_osd_request_head := {
  h_client_inc : Z;
  h_tid : Z;
  h_layout_pgid : Z;
  h_snapid : Z;
  h_snap_seq : Z;
  h_num_snaps : Z;
  h_object_len : Z;
  h_ticket_len : Z;
  h_osdmap_epoch : Z;
  h_flags : Z;
  h_mtime : option Z;
  h_reassert_version : Z;
  h_num_ops : Z
}.

(** The outgoing [struct ceph_msg]: its front is the head, the ops, and
    the oid, ticket and snapshot ids that follow them. *)
Record ceph_msg := {
  front_len : Z;
  hdr_data_off : Z;
  hdr_data_len : Z;
  m_head : ceph_osd_request_head;
  m_ops : list ceph_osd_op;
  m_pages : option nat;
  m_nr_pages : Z;
  m_ref : Z
}.

Record ceph_osd_request := {
  r_tid : Z;
  r_flags : Z;
  r_result : Z;
  r_aborted : bool;
  r_got_reply : bool;
  r_prepared_pages : bool;
  r_resend : bool;
  r_osd : option Z;
  r_reply : option nat;
  r_ref : Z;
  r_callback : bool;
  r_safe_callback : bool;
  r_reassert_version : Z;
  r_timeout_stamp : Z;
  r_oid : list ascii;
  r_oid_len : Z;
  r_pages : option nat;
  r_num_pages : Z;
  r_file_layout : ceph_file_layout;
  r_snapc : option ceph_snap_context;
  r_mempool : bool;
  r_request : ceph_msg
}.

(** The request index: the kernel's [struct rb_root] over the [r_node]
    embedded in each request.  A node carries its colour, which only the
    rbtree library reads. *)
Inductive rb_root :=
| rb_nil
| rb_node (red : bool) (rb_left : rb_root) (entry : ptr) (rb_right : rb_root).

(** What the file calls but does not define: constants of [rados.h] and
    [errno.h], structure sizes, the placement and osd-map functions of
    [osdmap.c], and [lib/rbtree.c]. *)
Record externs := {
  CEPH_OSD_FLAG_ONDISK : Z;
  CEPH_OSD_FLAG_READ : Z;
  CEPH_OSD_FLAG_WRITE : Z;
  CEPH_OSD_OP_READ : Z;
  CEPH_OSD_OP_WRITE : Z;
  CEPH_OSD_OP_MASKTRUNC : Z;
  CEPH_OSD_OP_SETTRUNC : Z;
  CEPH_OSD_OP_STARTSYNC : Z;
  ENOMEM : Z;
  HZ : Z;
  sizeof_request_head : Z;
  sizeof_osd_op : Z;
  sizeof_reply_head : Z;
  (** [(off, plen)] to [(plen', bno, objoff, objlen)] *)
  ceph_calc_file_object_mapping :
    ceph_file_layout -> Z -> Z -> Z * Z * Z * Z;
  calc_pages_for : Z -> Z -> Z;
  (** error code and placement group id *)
  ceph_calc_object_layout :
    list ascii -> ceph_file_layout -> option ceph_osdmap -> Z * Z;
  ceph_calc_pg_primary : option ceph_osdmap -> Z -> Z;
  osdmap_apply_incremental : list Z -> ceph_osdmap -> Z + ceph_osdmap;
  osdmap_decode : list Z -> Z + ceph_osdmap;
  rb_insert_color : ptr -> rb_root -> rb_root;
  rb_erase : ptr -> rb_root -> rb_root
}.

(** ** Building a request: [calc_layout] and [ceph_osdc_new_request] *)

Inductive build_result :=
| Built (req : ceph_osd_request) (plen : Z)
| BuildErr (err : Z)
| BuildBug.

Section Build.
Context (K : externs).

Definition flag_set (flags bit : Z) : bool := negb (Z.land flags bit =? 0).

(** [int do_trunc = truncate_seq && (off + *plen > truncate_size)] *)
Definition do_trunc_of (off plen truncate_seq truncate_size : Z) : bool :=
  truthy truncate_seq && (truncate_size <? u64 (off + plen)).

(** [int num_op = 1 + do_sync + do_trunc] *)
Definition num_op_of (do_sync : Z) (do_trunc : bool) : Z :=
  1 + do_sync + Z_of_bool do_trunc.

(** The size handed to [ceph_msg_new]. *)
Definition msg_size_of (num_op signed_ticket_len : Z)
    (snapc : option ceph_snap_context) : Z :=
  let msg_size :=
    size_t (sizeof_request_head K + size_t (num_op * sizeof_osd_op K)) in
  let msg_size := size_t (msg_size + (40 + signed_ticket_len)) in
  match snapc with
  | Some sc => size_t (msg_size + size_t (8 * num_snaps sc))
  | None => msg_size
  end.

(** Offset from the start of the front of the write pointer [p] when
    the body is complete. *)
Definition body_end (num_op oid_len signed_ticket_len : Z)
    (snapc : option ceph_snap_context) : Z :=
  let p := sizeof_request_head K + num_op * sizeof_osd_op K in
  let p := p + oid_len in
  let p := p + signed_ticket_len in
  match snapc with
  | Some sc => p + 8 * num_snaps sc
  | None => p
  end.

(** The truncate op written at [op[1]]. *)
Definition trunc_op (opcode off truncate_seq truncate_size prevofs : Z)
    : ceph_osd_op :=
  {| op_op := u16 (if opcode =? CEPH_OSD_OP_READ K
                   then CEPH_OSD_OP_MASKTRUNC K
                   else CEPH_OSD_OP_SETTRUNC K);
     op_offset := 0; op_length := 0; op_payload_len := 0;
     op_truncate_seq := u32 truncate_seq;
     op_truncate_size := u64 (truncate_size - u64 (off - prevofs)) |}.

Definition sync_op : ceph_osd_op :=
  {| op_op := u16 (CEPH_OSD_OP_STARTSYNC K);
     op_offset := 0; op_length := 0; op_payload_len := 0;
     op_truncate_seq := 0; op_truncate_size := 0 |}.

Definition ceph_osdc_new_request
    (signed_ticket_len : Z) (kzalloc_ok : bool) (msg_new_err : option Z)
    (layout : ceph_file_layout) (vino : ceph_vino) (off plen : Z)
    (opcode flags : Z) (snapc : option ceph_snap_context)
    (do_sync truncate_seq truncate_size : Z) (mtime : Z)
    (use_mempool : bool) : build_result :=
  let do_trunc := do_trunc_of off plen truncate_seq truncate_size in
  let num_op := num_op_of do_sync do_trunc in
  if negb (use_mempool || kzalloc_ok) then BuildErr (- ENOMEM K) else
  let msg_size := msg_size_of num_op signed_ticket_len snapc in
  match msg_new_err with
  | Some err => BuildErr err
  | None =>
      (* calc_layout *)
      let '(plen', bno, objoff, objlen) :=
        ceph_calc_file_object_mapping K layout off plen in
      let oid := fmt_oid (ino vino) bno in
      let oid_len := Z.of_nat (length oid) in
      let num_pages := calc_pages_for K off plen' in
      let is_write := flag_set flags (CEPH_OSD_FLAG_WRITE K) in
      let op0 :=
        {| op_op := u16 opcode;
           op_offset := u64 objoff;
           op_length := u64 objlen;
           op_payload_len := if is_write then u32 plen' else 0;
           op_truncate_seq := 0; op_truncate_size := 0 |} in
      let ops := replicate (Z.to_nat num_op) zero_op in
      let ops := <[0%nat := op0]> ops in
      (* additional ops *)
      let prevofs := op_offset op0 in
      let ops :=
        if do_trunc
        then <[1%nat := trunc_op opcode off truncate_seq truncate_size
                          prevofs]> ops
        else ops in
      let ops :=
        if truthy do_sync
        then <[(if do_trunc then 2 else 1)%nat := sync_op]> ops
        else ops in
      let head :=
        {| h_client_inc := 1;
           h_tid := 0;
           h_layout_pgid := 0;
           h_snapid := u64 (snap vino);
           h_snap_seq := match snapc with
                         | Some sc => u64 (snapc_seq sc) | None => 0 end;
           h_num_snaps := match snapc with
                          | Some sc => u32 (num_snaps sc) | None => 0 end;
           h_object_len := u32 oid_len;
           h_ticket_len := u32 signed_ticket_len;
           h_osdmap_epoch := 0;
           h_flags := u32 flags;
           h_mtime := if is_write then Some mtime else None;
           h_reassert_version := 0;
           h_num_ops := u16 num_op |} in
      let msg :=
        {| front_len := msg_size;
           hdr_data_off := if is_write then u16 off else 0;
           hdr_data_len := if is_write then u32 plen' else 0;
           m_head := head;
           m_ops := ops;
           m_pages := None;
           m_nr_pages := 0;
           m_ref := 1 |} in
      let req :=
        {| r_tid := 0; r_flags := flags; r_result := 0;
           r_aborted := false; r_got_reply := false;
           r_prepared_pages := false; r_resend := false;
           r_osd := None; r_reply := None; r_ref := 1;
           r_callback := false; r_safe_callback := false;
           r_reassert_version := 0; r_timeout_stamp := 0;
           r_oid := oid; r_oid_len := oid_len;
           r_pages := None; r_num_pages := num_pages;
           r_file_layout := layout; r_snapc := snapc;
           r_mempool := use_mempool; r_request := msg |} in
      if msg_size <? body_end num_op oid_len signed_ticket_len snapc
      then BuildBug
      else Built req plen'
  end.

End Build.

(** What the absent headers are taken to guarantee: opcodes are distinct
    16-bit values, structure sizes are small, [ENOMEM] is an errno. *)
Record abi_ok (K : externs) : Prop := {
  op_read_range : 0 <= CEPH_OSD_OP_READ K < 2 ^ 16;
  op_write_range : 0 <= CEPH_OSD_OP_WRITE K < 2 ^ 16;
  op_masktrunc_range : 0 <= CEPH_OSD_OP_MASKTRUNC K < 2 ^ 16;
  op_settrunc_range : 0 <= CEPH_OSD_OP_SETTRUNC K < 2 ^ 16;
  op_startsync_range : 0 <= CEPH_OSD_OP_STARTSYNC K < 2 ^ 16;
  op_read_write : CEPH_OSD_OP_READ K <> CEPH_OSD_OP_WRITE K;
  sizeof_request_head_range : 0 <= sizeof_request_head K < 2 ^ 16;
  sizeof_osd_op_range : 0 <= sizeof_osd_op K < 2 ^ 16;
  sizeof_reply_head_range : 0 <= sizeof_reply_head K < 2 ^ 16;
  enomem_pos : 0 < ENOMEM K < 2 ^ 12
}.

(** A snapshot context as the C type has it: [u32 num_snaps]. *)
Definition snapc_ok (snapc : option ceph_snap_context) : Prop :=
  match snapc with
  | Some sc => 0 <= num_snaps sc < 2 ^ 32
  | None => True
  end.

(** Field updates ([x->f = v]). *)
Definition set_h_tid (v : _) (x : ceph_osd_request_head) : ceph_osd_request_head :=
  {| h_client_inc := h_client_inc x; h_tid := v;
     h_layout_pgid := h_layout_pgid x; h_snapid := h_snapid x;
     h_snap_seq := h_snap_seq x; h_num_snaps := h_num_snaps x;
     h_object_len := h_object_len x; h_ticket_len := h_ticket_len x;
     h_osdmap_epoch := h_osdmap_epoch x; h_flags := h_flags x;
     h_mtime := h_mtime x; h_reassert_version := h_reassert_version x;
     h_num_ops := h_num_ops x |}.
Definition set_h_layout_pgid (v : _) (x : ceph_osd_request_head) : ceph_osd_request_head :=
  {| h_client_inc := h_client_inc x; h_tid := h_tid x; h_layout_pgid := v;
     h_snapid := h_snapid x; h_snap_seq := h_snap_seq x;
     h_num_snaps := h_num_snaps x; h_object_len := h_object_len x;
     h_ticket_len := h_ticket_len x; h_osdmap_epoch := h_osdmap_epoch x;
     h_flags := h_flags x; h_mtime := h_mtime x;
     h_reassert_version := h_reassert_version x;
     h_num_ops := h_num_ops x |}.
Definition set_h_osdmap_epoch (v : _) (x : ceph_osd_request_head) : ceph_osd_request_head :=
  {| h_client_inc := h_client_inc x; h_tid := h_tid x;
     h_layout_pgid := h_layout_pgid x; h_snapid := h_snapid x;
     h_snap_seq := h_snap_seq x; h_num_snaps := h_num_snaps x;
     h_object_len := h_object_len x; h_ticket_len := h_ticket_len x;
     h_osdmap_epoch := v; h_flags := h_flags x; h_mtime := h_mtime x;
     h_reassert_version := h_reassert_version x;
     h_num_ops := h_num_ops x |}.
Definition set_h_flags (v : _) (x : ceph_osd_request_head) : ceph_osd_request_head :=
  {| h_client_inc := h_client_inc x; h_tid := h_tid x;
     h_layout_pgid := h_layout_pgid x; h_snapid := h_snapid x;
     h_snap_seq := h_snap_seq x; h_num_snaps := h_num_snaps x;
     h_object_len := h_object_len x; h_ticket_len := h_ticket_len x;
     h_osdmap_epoch := h_osdmap_epoch x; h_flags := v;
     h_mtime := h_mtime x; h_reassert_version := h_reassert_version x;
     h_num_ops := h_num_ops x |}.
Definition set_h_reassert_version (v : _) (x : ceph_osd_request_head) : ceph_osd_request_head :=
  {| h_client_inc := h_client_inc x; h_tid := h_tid x;
     h_layout_pgid := h_layout_pgid x; h_snapid := h_snapid x;
     h_snap_seq := h_snap_seq x; h_num_snaps := h_num_snaps x;
     h_object_len := h_object_len x; h_ticket_len := h_ticket_len x;
     h_osdmap_epoch := h_osdmap_epoch x; h_flags := h_flags x;
     h_mtime := h_mtime x; h_reassert_version := v;
     h_num_ops := h_num_ops x |}.
Definition set_m_head (v : _) (x : ceph_msg) : ceph_msg :=
  {| front_len := front_len x; hdr_data_off := hdr_data_off x;
     hdr_data_len := hdr_data_len x; m_head := v; m_ops := m_ops x;
     m_pages := m_pages x; m_nr_pages := m_nr_pages x; m_ref := m_ref x |}.
Definition set_m_pages (v : _) (x : ceph_msg) : ceph_msg :=
  {| front_len := front_len x; hdr_data_off := hdr_data_off x;
     hdr_data_len := hdr_data_len x; m_head := m_head x; m_ops := m_ops x;
     m_pages := v; m_nr_pages := m_nr_pages x; m_ref := m_ref x |}.
Definition set_m_nr_pages (v : _) (x : ceph_msg) : ceph_msg :=
  {| front_len := front_len x; hdr_data_off := hdr_data_off x;
     hdr_data_len := hdr_data_len x; m_head := m_head x; m_ops := m_ops x;
     m_pages := m_pages x; m_nr_pages := v; m_ref := m_ref x |}.
Definition set_m_ref (v : _) (x : ceph_msg) : ceph_msg :=
  {| front_len := front_len x; hdr_data_off := hdr_data_off x;
     hdr_data_len := hdr_data_len x; m_head := m_head x; m_ops := m_ops x;
     m_pages := m_pages x; m_nr_pages := m_nr_pages x; m_ref := v |}.
Definition set_r_tid (v : _) (x : ceph_osd_request) : ceph_osd_request :=
  {| r_tid := v; r_flags := r_flags x; r_result := r_result x;
     r_aborted := r_aborted x; r_got_reply := r_got_reply x;
     r_prepared_pages := r_prepared_pages x; r_resend := r_resend x;
     r_osd := r_osd x; r_reply := r_reply x; r_ref := r_ref x;
     r_callback := r_callback x; r_safe_callback := r_safe_callback x;
     r_reassert_version := r_reassert_version x;
     r_timeout_stamp := r_timeout_stamp x; r_oid := r_oid x;
     r_oid_len := r_oid_len x; r_pages := r_pages x;
     r_num_pages := r_num_pages x; r_file_layout := r_file_layout x;
     r_snapc := r_snapc x; r_mempool := r_mempool x;
     r_request := r_request x |}.
Definition set_r_flags (v : _) (x : ceph_osd_request) : ceph_osd_request :=
  {| r_tid := r_tid x; r_flags := v; r_result := r_result x;
     r_aborted := r_aborted x; r_got_reply := r_got_reply x;
     r_prepared_pages := r_prepared_pages x; r_resend := r_resend x;
     r_osd := r_osd x; r_reply := r_reply x; r_ref := r_ref x;
     r_callback := r_callback x; r_safe_callback := r_safe_callback x;
     r_reassert_version := r_reassert_version x;
     r_timeout_stamp := r_timeout_stamp x; r_oid := r_oid x;
     r_oid_len := r_oid_len x; r_pages := r_pages x;
     r_num_pages := r_num_pages x; r_file_layout := r_file_layout x;
     r_snapc := r_snapc x; r_mempool := r_mempool x;
     r_request := r_request x |}.
Definition set_r_result (v : _) (x : ceph_osd_request) : ceph_osd_request :=
  {| r_tid := r_tid x; r_flags := r_flags x; r_result := v;
     r_aborted := r_aborted x; r_got_reply := r_got_reply x;
     r_prepared_pages := r_prepared_pages x; r_resend := r_resend x;
     r_osd := r_osd x; r_reply := r_reply x; r_ref := r_ref x;
     r_callback := r_callback x; r_safe_callback := r_safe_callback x;
     r_reassert_version := r_reassert_version x;
     r_timeout_stamp := r_timeout_stamp x; r_oid := r_oid x;
     r_oid_len := r_oid_len x; r_pages := r_pages x;
     r_num_pages := r_num_pages x; r_file_layout := r_file_layout x;
     r_snapc := r_snapc x; r_mempool := r_mempool x;
     r_request := r_request x |}.
Definition set_r_aborted (v : _) (x : ceph_osd_request) : ceph_osd_request :=
  {| r_tid := r_tid x; r_flags := r_flags x; r_result := r_result x;
     r_aborted := v; r_got_reply := r_got_reply x;
     r_prepared_pages := r_prepared_pages x; r_resend := r_resend x;
     r_osd := r_osd x; r_reply := r_reply x; r_ref := r_ref x;
     r_callback := r_callback x; r_safe_callback := r_safe_callback x;
     r_reassert_version := r_reassert_version x;
     r_timeout_stamp := r_timeout_stamp x; r_oid := r_oid x;
     r_oid_len := r_oid_len x; r_pages := r_pages x;
     r_num_pages := r_num_pages x; r_file_layout := r_file_layout x;
     r_snapc := r_snapc x; r_mempool := r_mempool x;
     r_request := r_request x |}.
Definition set_r_got_reply (v : _) (x : ceph_osd_request) : ceph_osd_request :=
  {| r_tid := r_tid x; r_flags := r_flags x; r_result := r_result x;
     r_aborted := r_aborted x; r_got_reply := v;
     r_prepared_pages := r_prepared_pages x; r_resend := r_resend x;
     r_osd := r_osd x; r_reply := r_reply x; r_ref := r_ref x;
     r_callback := r_callback x; r_safe_callback := r_safe_callback x;
     r_reassert_version := r_reassert_version x;
     r_timeout_stamp := r_timeout_stamp x; r_oid := r_oid x;
     r_oid_len := r_oid_len x; r_pages := r_pages x;
     r_num_pages := r_num_pages x; r_file_layout := r_file_layout x;
     r_snapc := r_snapc x; r_mempool := r_mempool x;
     r_request := r_request x |}.
Definition set_r_prepared_pages (v : _) (x : ceph_osd_request) : ceph_osd_request :=
  {| r_tid := r_tid x; r_flags := r_flags x; r_result := r_result x;
     r_aborted := r_aborted x; r_got_reply := r_got_reply x;
     r_prepared_pages := v; r_resend := r_resend x; r_osd := r_osd x;
     r_reply := r_reply x; r_ref := r_ref x; r_callback := r_callback x;
     r_safe_callback := r_safe_callback x;
     r_reassert_version := r_reassert_version x;
     r_timeout_stamp := r_timeout_stamp x; r_oid := r_oid x;
     r_oid_len := r_oid_len x; r_pages := r_pages x;
     r_num_pages := r_num_pages x; r_file_layout := r_file_layout x;
     r_snapc := r_snapc x; r_mempool := r_mempool x;
     r_request := r_request x |}.
Definition set_r_resend (v : _) (x : ceph_osd_request) : ceph_osd_request :=
  {| r_tid := r_tid x; r_flags := r_flags x; r_result := r_result x;
     r_aborted := r_aborted x; r_got_reply := r_got_reply x;
     r_prepared_pages := r_prepared_pages x; r_resend := v;
     r_osd := r_osd x; r_reply := r_reply x; r_ref := r_ref x;
     r_callback := r_callback x; r_safe_callback := r_safe_callback x;
     r_reassert_version := r_reassert_version x;
     r_timeout_stamp := r_timeout_stamp x; r_oid := r_oid x;
     r_oid_len := r_oid_len x; r_pages := r_pages x;
     r_num_pages := r_num_pages x; r_file_layout := r_file_layout x;
     r_snapc := r_snapc x; r_mempool := r_mempool x;
     r_request := r_request x |}.
Definition set_r_osd (v : _) (x : ceph_osd_request) : ceph_osd_request :=
  {| r_tid := r_tid x; r_flags := r_flags x; r_result := r_result x;
     r_aborted := r_aborted x; r_got_reply := r_got_reply x;
     r_prepared_pages := r_prepared_pages x; r_resend := r_resend x;
     r_osd := v; r_reply := r_reply x; r_ref := r_ref x;
     r_callback := r_callback x; r_safe_callback := r_safe_callback x;
     r_reassert_version := r_reassert_version x;
     r_timeout_stamp := r_timeout_stamp x; r_oid := r_oid x;
     r_oid_len := r_oid_len x; r_pages := r_pages x;
     r_num_pages := r_num_pages x; r_file_layout := r_file_layout x;
     r_snapc := r_snapc x; r_mempool := r_mempool x;
     r_request := r_request x |}.
Definition set_r_reply (v : _) (x : ceph_osd_request) : ceph_osd_request :=
  {| r_tid := r_tid x; r_flags := r_flags x; r_result := r_result x;
     r_aborted := r_aborted x; r_got_reply := r_got_reply x;
     r_prepared_pages := r_prepared_pages x; r_resend := r_resend x;
     r_osd := r_osd x; r_reply := v; r_ref := r_ref x;
     r_callback := r_callback x; r_safe_callback := r_safe_callback x;
     r_reassert_version := r_reassert_version x;
     r_timeout_stamp := r_timeout_stamp x; r_oid := r_oid x;
     r_oid_len := r_oid_len x; r_pages := r_pages x;
     r_num_pages := r_num_pages x; r_file_layout := r_file_layout x;
     r_snapc := r_snapc x; r_mempool := r_mempool x;
     r_request := r_request x |}.
Definition set_r_ref (v : _) (x : ceph_osd_request) : ceph_osd_request :=
  {| r_tid := r_tid x; r_flags := r_flags x; r_result := r_result x;
     r_aborted := r_aborted x; r_got_reply := r_got_reply x;
     r_prepared_pages := r_prepared_pages x; r_resend := r_resend x;
     r_osd := r_osd x; r_reply := r_reply x; r_ref := v;
     r_callback := r_callback x; r_safe_callback := r_safe_callback x;
     r_reassert_version := r_reassert_version x;
     r_timeout_stamp := r_timeout_stamp x; r_oid := r_oid x;
     r_oid_len := r_oid_len x; r_pages := r_pages x;
     r_num_pages := r_num_pages x; r_file_layout := r_file_layout x;
     r_snapc := r_snapc x; r_mempool := r_mempool x;
     r_request := r_request x |}.
Definition set_r_reassert_version (v : _) (x : ceph_osd_request) : ceph_osd_request :=
  {| r_tid := r_tid x; r_flags := r_flags x; r_result := r_result x;
     r_aborted := r_aborted x; r_got_reply := r_got_reply x;
     r_prepared_pages := r_prepared_pages x; r_resend := r_resend x;
     r_osd := r_osd x; r_reply := r_reply x; r_ref := r_ref x;
     r_callback := r_callback x; r_safe_callback := r_safe_callback x;
     r_reassert_version := v; r_timeout_stamp := r_timeout_stamp x;
     r_oid := r_oid x; r_oid_len := r_oid_len x; r_pages := r_pages x;
     r_num_pages := r_num_pages x; r_file_layout := r_file_layout x;
     r_snapc := r_snapc x; r_mempool := r_mempool x;
     r_request := r_request x |}.
Definition set_r_timeout_stamp (v : _) (x : ceph_osd_request) : ceph_osd_request :=
  {| r_tid := r_tid x; r_flags := r_flags x; r_result := r_result x;
     r_aborted := r_aborted x; r_got_reply := r_got_reply x;
     r_prepared_pages := r_prepared_pages x; r_resend := r_resend x;
     r_osd := r_osd x; r_reply := r_reply x; r_ref := r_ref x;
     r_callback := r_callback x; r_safe_callback := r_safe_callback x;
     r_reassert_version := r_reassert_version x; r_timeout_stamp := v;
     r_oid := r_oid x; r_oid_len := r_oid_len x; r_pages := r_pages x;
     r_num_pages := r_num_pages x; r_file_layout := r_file_layout x;
     r_snapc := r_snapc x; r_mempool := r_mempool x;
     r_request := r_request x |}.
Definition set_r_pages (v : _) (x : ceph_osd_request) : ceph_osd_request :=
  {| r_tid := r_tid x; r_flags := r_flags x; r_result := r_result x;
     r_aborted := r_aborted x; r_got_reply := r_got_reply x;
     r_prepared_pages := r_prepared_pages x; r_resend := r_resend x;
     r_osd := r_osd x; r_reply := r_reply x; r_ref := r_ref x;
     r_callback := r_callback x; r_safe_callback := r_safe_callback x;
     r_reassert_version := r_reassert_version x;
     r_timeout_stamp := r_timeout_stamp x; r_oid := r_oid x;
     r_oid_len := r_oid_len x; r_pages := v; r_num_pages := r_num_pages x;
     r_file_layout := r_file_layout x; r_snapc := r_snapc x;
     r_mempool := r_mempool x; r_request := r_request x |}.
Definition set_r_num_pages (v : _) (x : ceph_osd_request) : ceph_osd_request :=
  {| r_tid := r_tid x; r_flags := r_flags x; r_result := r_result x;
     r_aborted := r_aborted x; r_got_reply := r_got_reply x;
     r_prepared_pages := r_prepared_pages x; r_resend := r_resend x;
     r_osd := r_osd x; r_reply := r_reply x; r_ref := r_ref x;
     r_callback := r_callback x; r_safe_callback := r_safe_callback x;
     r_reassert_version := r_reassert_version x;
     r_timeout_stamp := r_timeout_stamp x; r_oid := r_oid x;
     r_oid_len := r_oid_len x; r_pages := r_pages x; r_num_pages := v;
     r_file_layout := r_file_layout x; r_snapc := r_snapc x;
     r_mempool := r_mempool x; r_request := r_request x |}.
Definition set_r_request (v : _) (x : ceph_osd_request) : ceph_osd_request :=
  {| r_tid := r_tid x; r_flags := r_flags x; r_result := r_result x;
     r_aborted := r_aborted x; r_got_reply := r_got_reply x;
     r_prepared_pages := r_prepared_pages x; r_resend := r_resend x;
     r_osd := r_osd x; r_reply := r_reply x; r_ref := r_ref x;
     r_callback := r_callback x; r_safe_callback := r_safe_callback x;
     r_reassert_version := r_reassert_version x;
     r_timeout_stamp := r_timeout_stamp x; r_oid := r_oid x;
     r_oid_len := r_oid_len x; r_pages := r_pages x;
     r_num_pages := r_num_pages x; r_file_layout := r_file_layout x;
     r_snapc := r_snapc x; r_mempool := r_mempool x; r_request := v |}.
Definition set_r_callback (v : _) (x : ceph_osd_request) : ceph_osd_request :=
  {| r_tid := r_tid x; r_flags := r_flags x; r_result := r_result x;
     r_aborted := r_aborted x; r_got_reply := r_got_reply x;
     r_prepared_pages := r_prepared_pages x; r_resend := r_resend x;
     r_osd := r_osd x; r_reply := r_reply x; r_ref := r_ref x;
     r_callback := v; r_safe_callback := r_safe_callback x;
     r_reassert_version := r_reassert_version x;
     r_timeout_stamp := r_timeout_stamp x; r_oid := r_oid x;
     r_oid_len := r_oid_len x; r_pages := r_pages x;
     r_num_pages := r_num_pages x; r_file_layout := r_file_layout x;
     r_snapc := r_snapc x; r_mempool := r_mempool x;
     r_request := r_request x |}.
Definition set_r_safe_callback (v : _) (x : ceph_osd_request) : ceph_osd_request :=
  {| r_tid := r_tid x; r_flags := r_flags x; r_result := r_result x;
     r_aborted := r_aborted x; r_got_reply := r_got_reply x;
     r_prepared_pages := r_prepared_pages x; r_resend := r_resend x;
     r_osd := r_osd x; r_reply := r_reply x; r_ref := r_ref x;
     r_callback := r_callback x; r_safe_callback := v;
     r_reassert_version := r_reassert_version x;
     r_timeout_stamp := r_timeout_stamp x; r_oid := r_oid x;
     r_oid_len := r_oid_len x; r_pages := r_pages x;
     r_num_pages := r_num_pages x; r_file_layout := r_file_layout x;
     r_snapc := r_snapc x; r_mempool := r_mempool x;
     r_request := r_request x |}.

(** ** The client *)

(** A daemon session, [struct ceph_osd].  Sessions are named by their
    ordinal: the registry never holds two with the same one, and a
    request's [r_osd] only ever points at a session of the registry.
    [o_con] is [None] when [init_osd] could not allocate the
    connection. *)
Record ceph_osd := {
  o_osd : Z;
  o_requests : list ptr;
  o_con : option Z
}.

(** Calls that leave the file: the transport, the monitor client, the
    completion signals and callbacks, the timeout work item, the
    allocator, and the log ([pr_err], and the debug line of
    [register_request], which records the order of registration). *)
Inductive event :=
| ev_con_send (o : Z) (req : ptr)
| ev_con_put (o : Z)
| ev_monc_request_osdmap (e : Z)
| ev_monc_got_osdmap (e : Z)
| ev_callback (req : ptr)
| ev_complete (req : ptr)
| ev_safe_callback (req : ptr)
| ev_safe_complete (req : ptr)
| ev_wait_safe (req : ptr)
| ev_schedule_delayed_work (delay : Z)
| ev_cancel_delayed_work
| ev_osdmap_destroy (obj : nat)
| ev_msg_put (m : nat)
| ev_free_request (req : ptr)
| ev_pr_err (what : string)
| ev_dout_register_request (req : ptr) (tid : Z).

(** [struct ceph_osd_client], with the fields of [osdc->client] the file
    reads, and three components of the model: the memory holding the
    request objects, the clock, and the log of outgoing calls.
    [request_mutex] is [true] while the mutex is held.  ([map_sem] is
    not tracked.) *)
Record ceph_osd_client := {
  osdmap : option ceph_osdmap;
  last_tid : Z;
  requests : rb_root;
  num_requests : Z;
  timeout_tid : Z;
  osds : gmap Z ceph_osd;
  request_mutex : bool;
  signed_ticket_len : Z;
  osd_timeout : Z;
  monmap_fsid : list Z;
  mem : gmap ptr ceph_osd_request;
  jiffies : Z;
  trace : list event
}.

(** Field updates of the client. *)
Definition set_osdmap (v : _) (x : ceph_osd_client) : ceph_osd_client :=
  {| osdmap := v; last_tid := last_tid x; requests := requests x;
     num_requests := num_requests x; timeout_tid := timeout_tid x;
     osds := osds x; request_mutex := request_mutex x;
     signed_ticket_len := signed_ticket_len x;
     osd_timeout := osd_timeout x; monmap_fsid := monmap_fsid x;
     mem := mem x; jiffies := jiffies x; trace := trace x |}.
Definition set_last_tid (v : _) (x : ceph_osd_client) : ceph_osd_client :=
  {| osdmap := osdmap x; last_tid := v; requests := requests x;
     num_requests := num_requests x; timeout_tid := timeout_tid x;
     osds := osds x; request_mutex := request_mutex x;
     signed_ticket_len := signed_ticket_len x;
     osd_timeout := osd_timeout x; monmap_fsid := monmap_fsid x;
     mem := mem x; jiffies := jiffies x; trace := trace x |}.
Definition set_requests (v : _) (x : ceph_osd_client) : ceph_osd_client :=
  {| osdmap := osdmap x; last_tid := last_tid x; requests := v;
     num_requests := num_requests x; timeout_tid := timeout_tid x;
     osds := osds x; request_mutex := request_mutex x;
     signed_ticket_len := signed_ticket_len x;
     osd_timeout := osd_timeout x; monmap_fsid := monmap_fsid x;
     mem := mem x; jiffies := jiffies x; trace := trace x |}.
Definition set_num_requests (v : _) (x : ceph_osd_client) : ceph_osd_client :=
  {| osdmap := osdmap x; last_tid := last_tid x; requests := requests x;
     num_requests := v; timeout_tid := timeout_tid x; osds := osds x;
     request_mutex := request_mutex x;
     signed_ticket_len := signed_ticket_len x;
     osd_timeout := osd_timeout x; monmap_fsid := monmap_fsid x;
     mem := mem x; jiffies := jiffies x; trace := trace x |}.
Definition set_timeout_tid (v : _) (x : ceph_osd_client) : ceph_osd_client :=
  {| osdmap := osdmap x; last_tid := last_tid x; requests := requests x;
     num_requests := num_requests x; timeout_tid := v; osds := osds x;
     request_mutex := request_mutex x;
     signed_ticket_len := signed_ticket_len x;
     osd_timeout := osd_timeout x; monmap_fsid := monmap_fsid x;
     mem := mem x; jiffies := jiffies x; trace := trace x |}.
Definition set_osds (v : _) (x : ceph_osd_client) : ceph_osd_client :=
  {| osdmap := osdmap x; last_tid := last_tid x; requests := requests x;
     num_requests := num_requests x; timeout_tid := timeout_tid x;
     osds := v; request_mutex := request_mutex x;
     signed_ticket_len := signed_ticket_len x;
     osd_timeout := osd_timeout x; monmap_fsid := monmap_fsid x;
     mem := mem x; jiffies := jiffies x; trace := trace x |}.
Definition set_request_mutex (v : _) (x : ceph_osd_client) : ceph_osd_client :=
  {| osdmap := osdmap x; last_tid := last_tid x; requests := requests x;
     num_requests := num_requests x; timeout_tid := timeout_tid x;
     osds := osds x; request_mutex := v;
     signed_ticket_len := signed_ticket_len x;
     osd_timeout := osd_timeout x; monmap_fsid := monmap_fsid x;
     mem := mem x; jiffies := jiffies x; trace := trace x |}.
Definition set_mem (v : _) (x : ceph_osd_client) : ceph_osd_client :=
  {| osdmap := osdmap x; last_tid := last_tid x; requests := requests x;
     num_requests := num_requests x; timeout_tid := timeout_tid x;
     osds := osds x; request_mutex := request_mutex x;
     signed_ticket_len := signed_ticket_len x;
     osd_timeout := osd_timeout x; monmap_fsid := monmap_fsid x; mem := v;
     jiffies := jiffies x; trace := trace x |}.
Definition set_jiffies (v : _) (x : ceph_osd_client) : ceph_osd_client :=
  {| osdmap := osdmap x; last_tid := last_tid x; requests := requests x;
     num_requests := num_requests x; timeout_tid := timeout_tid x;
     osds := osds x; request_mutex := request_mutex x;
     signed_ticket_len := signed_ticket_len x;
     osd_timeout := osd_timeout x; monmap_fsid := monmap_fsid x;
     mem := mem x; jiffies := v; trace := trace x |}.
Definition set_trace (v : _) (x : ceph_osd_client) : ceph_osd_client :=
  {| osdmap := osdmap x; last_tid := last_tid x; requests := requests x;
     num_requests := num_requests x; timeout_tid := timeout_tid x;
     osds := osds x; request_mutex := request_mutex x;
     signed_ticket_len := signed_ticket_len x;
     osd_timeout := osd_timeout x; monmap_fsid := monmap_fsid x;
     mem := mem x; jiffies := jiffies x; trace := v |}.

(** ** Outcomes of a call *)

Inductive fault :=
| null_deref      (* a NULL pointer is dereferenced *)
| bad_pointer     (* an address that holds no object is accessed *)
| bug.            (* BUG() or BUG_ON() *)

(** A call returns, or stops the kernel thread with an oops, or sleeps
    for ever on a mutex that is never released, or (for a loop run with
    fuel) is still running when the fuel is spent. *)
Inductive outcome (A : Type) :=
| Ok (a : A) (s : ceph_osd_client)
| Oops (f : fault) (s : ceph_osd_client)
| Blocked (s : ceph_osd_client)
| Running (s : ceph_osd_client).
Arguments Ok {A}.
Arguments Oops {A}.
Arguments Blocked {A}.
Arguments Running {A}.

Definition M (A : Type) : Type := ceph_osd_client -> outcome A.

#[global] Instance M_ret : MRet M := fun A a s => Ok a s.
#[global] Instance M_bind : MBind M := fun A B f m s =>
  match m s with
  | Ok a s' => f a s'
  | Oops e s' => Oops e s'
  | Blocked s' => Blocked s'
  | Running s' => Running s'
  end.

Definition oops {A} (f : fault) : M A := fun s => Oops f s.
Definition gets {A} (f : ceph_osd_client -> A) : M A := fun s => Ok (f s) s.
Definition modify (f : ceph_osd_client -> ceph_osd_client) : M unit :=
  fun s => Ok tt (f s).
Definition emit (e : event) : M unit :=
  modify (fun s => set_trace (trace s ++ [e]) s).

(** The state an outcome ends in, and what it returned. *)
Definition final {A} (o : outcome A) : ceph_osd_client :=
  match o with Ok _ s | Oops _ s | Blocked s | Running s => s end.
Definition returned {A} (o : outcome A) : option A :=
  match o with Ok a _ => Some a | _ => None end.

(** The state a call leaves behind. *)
Definition after {A} (m : M A) (s : ceph_osd_client) : ceph_osd_client :=
  final (m s).

(** [req->f] *)
Definition deref (req : ptr) : M ceph_osd_request := fun s =>
  match mem s !! req with
  | Some r => Ok r s
  | None => Oops bad_pointer s
  end.

(** [req->f = v] *)
Definition update (req : ptr) (f : ceph_osd_request -> ceph_osd_request)
  : M unit := fun s =>
  match mem s !! req with
  | Some r => Ok tt (set_mem (<[req := f r]> (mem s)) s)
  | None => Oops bad_pointer s
  end.

Definition mutex_lock : M unit := fun s =>
  if request_mutex s then Blocked s else Ok tt (set_request_mutex true s).
Definition mutex_unlock : M unit := modify (set_request_mutex false).

(** ** The request index

    [requests] is a red-black tree sorted by [r_tid]; the three searches
    descend it comparing against the [r_tid] of the request each node is
    embedded in. *)

(** [req->r_tid], read from memory. *)
Definition tid_in (m : gmap ptr ceph_osd_request) (req : ptr) : Z :=
  match m !! req with
  | Some r => r_tid r
  | None => 0
  end.

Definition tid_of (s : ceph_osd_client) : ptr -> Z := tid_in (mem s).

Section Index.
Context (key : ptr -> Z).

(** The descent of [__insert_request] and its [rb_link_node]: the new
    node becomes a red leaf; [None] is [BUG()]. *)
Fixpoint rb_link_node (new : ptr) (t : rb_root) : option rb_root :=
  match t with
  | rb_nil => Some (rb_node true rb_nil new rb_nil)
  | rb_node c l req r =>
      if key new <? key req then
        match rb_link_node new l with
        | Some l' => Some (rb_node c l' req r)
        | None => None
        end
      else if key req <? key new then
        match rb_link_node new r with
        | Some r' => Some (rb_node c l req r')
        | None => None
        end
      else None
  end.

Fixpoint __lookup_request (t : rb_root) (tid : Z) : option ptr :=
  match t with
  | rb_nil => None
  | rb_node _ l req r =>
      if tid <? key req then __lookup_request l tid
      else if key req <? tid then __lookup_request r tid
      else Some req
  end.

Fixpoint __lookup_request_ge (t : rb_root) (tid : Z) : option ptr :=
  match t with
  | rb_nil => None
  | rb_node _ l req r =>
      if tid <? key req then
        match l with
        | rb_nil => Some req
        | rb_node _ _ _ _ => __lookup_request_ge l tid
        end
      else if key req <? tid then __lookup_request_ge r tid
      else Some req
  end.

End Index.

(** [rb_first]: the leftmost node. *)
Fixpoint rb_first (t : rb_root) : option ptr :=
  match t with
  | rb_nil => None
  | rb_node _ rb_nil req _ => Some req
  | rb_node _ l _ _ => rb_first l
  end.

(** The requests of the index, in order. *)
Fixpoint inorder (t : rb_root) : list ptr :=
  match t with
  | rb_nil => []
  | rb_node _ l req r => inorder l ++ req :: inorder r
  end.

(** ** Reference counts *)

Definition ceph_osdc_get_request (req : ptr) : M unit :=
  update req (fun r => set_r_ref (r_ref r + 1) r).

(** [BUG_ON(ref <= 0)]; the last reference frees the request.  The model
    never reuses memory: a freed request stays readable, as stale
    memory. *)
Definition ceph_osdc_put_request (req : ptr) : M unit :=
  r ← deref req;
  if r_ref r <=? 0 then oops bug
  else
    update req (set_r_ref (r_ref r - 1));;
    if r_ref r - 1 =? 0 then emit (ev_free_request req) else mret tt.

(** ** The daemon registry *)

Definition deref_osd (o : Z) : M ceph_osd := fun s =>
  match osds s !! o with
  | Some osd => Ok osd s
  | None => Oops bad_pointer s
  end.

(** Whether [kmalloc] of a session and [kzalloc] of its connection
    succeed. *)
Record allocs := {
  kmalloc_osd : bool;
  kzalloc_con : bool
}.

Definition init_osd (a : allocs) (o : Z) : ceph_osd :=
  {| o_osd := o; o_requests := [];
     o_con := if kzalloc_con a then Some o else None |}.

Definition destroy_osd (o : Z) : M unit :=
  osd ← deref_osd o;
  modify (fun s => set_osds (delete o (osds s)) s);;
  match o_con osd with
  | Some c => emit (ev_con_put c)
  | None => oops null_deref
  end.

Definition __insert_osd (new : ceph_osd) : M unit := fun s =>
  match osds s !! o_osd new with
  | Some _ => Oops bug s
  | None => Ok tt (set_osds (<[o_osd new := new]> (osds s)) s)
  end.

Definition __lookup_osd (o : Z) : M (option Z) :=
  gets (fun s => match osds s !! o with Some _ => Some o | None => None end).

(** [list_del_init(&req->r_osd_item)] for a request on the list of
    session [o], then
    [if (list_empty(&req->r_osd->o_requests)) destroy_osd(osdc, req->r_osd)]. *)
Definition list_del_init_r_osd_item (req : ptr) (o : Z) : M unit :=
  osd ← deref_osd o;
  let rest := filter (fun q => q <> req) (o_requests osd) in
  modify (fun s =>
    set_osds (<[o := {| o_osd := o_osd osd; o_requests := rest;
                        o_con := o_con osd |}]> (osds s)) s);;
  match rest with
  | [] => destroy_osd o
  | _ :: _ => mret tt
  end.

(** [list_add(&req->r_osd_item, &req->r_osd->o_requests)] *)
Definition list_add_r_osd_item (req : ptr) (o : Z) : M unit :=
  osd ← deref_osd o;
  modify (fun s =>
    set_osds (<[o := {| o_osd := o_osd osd;
                        o_requests := req :: o_requests osd;
                        o_con := o_con osd |}]> (osds s)) s).

(** ** The dispatcher *)

Section Dispatch.
Context (K : externs).

Definition __insert_request (new : ptr) : M unit := fun s =>
  match rb_link_node (tid_of s) new (requests s) with
  | Some t => Ok tt (set_requests (rb_insert_color K new t) s)
  | None => Oops bug s
  end.

Definition set_head (f : ceph_osd_request_head -> ceph_osd_request_head)
    (r : ceph_osd_request) : ceph_osd_request :=
  set_r_request (set_m_head (f (m_head (r_request r))) (r_request r)) r.

(** Register request, assign tid.  If this is the first request, set up
    the timeout event. *)
Definition register_request (req : ptr) : M unit :=
  mutex_lock;;
  tid ← gets (fun s => u64 (last_tid s + 1));
  modify (set_last_tid tid);;
  update req (fun r => set_head (set_h_tid tid) (set_r_tid tid r));;
  emit (ev_dout_register_request req tid);;
  __insert_request req;;
  ceph_osdc_get_request req;;
  modify (fun s => set_num_requests (s32 (num_requests s + 1)) s);;
  stamp ← gets (fun s => u64 (jiffies s + osd_timeout s * HZ K));
  update req (set_r_timeout_stamp stamp);;
  n ← gets num_requests;
  now ← gets jiffies;
  (if n =? 1 then
     modify (set_timeout_tid tid);;
     emit (ev_schedule_delayed_work (u64 (stamp - now)))
   else mret tt);;
  mutex_unlock.

(** Called under [osdc->request_mutex]. *)
Definition __unregister_request (req : ptr) : M unit :=
  modify (fun s => set_requests (rb_erase K req (requests s)) s);;
  modify (fun s => set_num_requests (s32 (num_requests s - 1)) s);;
  r ← deref req;
  match r_osd r with
  | None => oops null_deref
  | Some o =>
      list_del_init_r_osd_item req o;;
      update req (set_r_osd None);;
      ceph_osdc_put_request req;;
      r ← deref req;
      ttid ← gets timeout_tid;
      if r_tid r =? ttid then
        n ← gets num_requests;
        if n =? 0 then
          modify (set_timeout_tid 0);;
          emit ev_cancel_delayed_work
        else
          first ← gets (fun s => rb_first (requests s));
          match first with
          | None => oops null_deref
          | Some req' =>
              r' ← deref req';
              now ← gets jiffies;
              modify (set_timeout_tid (r_tid r'));;
              emit (ev_schedule_delayed_work
                      (u64 (r_timeout_stamp r' - now)))
          end
      else mret tt
  end.

(** Pick an osd (the first 'up' osd in the pg).  Returns 0 if unchanged,
    1 if changed, or an error. *)
Definition map_osds (a : allocs) (req : ptr) : M Z :=
  r ← deref req;
  om ← gets osdmap;
  let '(err, pgid) :=
    ceph_calc_object_layout K (r_oid r) (r_file_layout r) om in
  if negb (err =? 0) then mret err else
  update req (set_head (set_h_layout_pgid pgid));;
  let o := ceph_calc_pg_primary K om pgid in
  same ← match r_osd r with
         | Some o' => osd ← deref_osd o'; mret (o_osd osd =? o)
         | None => mret false
         end;
  if (same : bool) then mret 0 else
  match r_osd r with
  | Some o' =>
      list_del_init_r_osd_item req o';;
      update req (set_r_osd None)
  | None => mret tt
  end;;
  found ← __lookup_osd o;
  update req (set_r_osd found);;
  match found with
  | Some _ =>
      list_add_r_osd_item req o;;
      mret 1
  | None =>
      if kmalloc_osd a then
        update req (set_r_osd (Some o));;
        __insert_osd (init_osd a o);;
        list_add_r_osd_item req o;;
        mret 1
      else mret (- ENOMEM K)
  end.

(** Caller should hold [map_sem] (for read) and [request_mutex]. *)
Definition send_request (a : allocs) (req : ptr) : M Z :=
  err ← map_osds a req;
  if err =? - ENOMEM K then mret err else
  r ← deref req;
  om ← gets osdmap;
  match r_osd r with
  | None =>
      match om with
      | None => oops null_deref
      | Some m =>
          emit (ev_monc_request_osdmap (u32 (epoch m + 1)));;
          mret 0
      end
  | Some o =>
      match om with
      | None => oops null_deref
      | Some m =>
          stamp ← gets (fun s => u64 (jiffies s + osd_timeout s * HZ K));
          update req (fun r =>
            set_r_timeout_stamp stamp
              (set_head (fun h =>
                 set_h_reassert_version (r_reassert_version r)
                   (set_h_flags (Z.lor (h_flags h) (u32 (r_flags r)))
                      (set_h_osdmap_epoch (epoch m) h))) r));;
          (* ceph_msg_get(req->r_request): send consumes a ref *)
          update req (fun r =>
            set_r_request
              (set_m_ref (m_ref (r_request r) + 1) (r_request r)) r);;
          osd ← deref_osd o;
          match o_con osd with
          | None => oops null_deref
          | Some c => emit (ev_con_send c req);; mret 0
          end
      end
  end.

(** Register request, send initial attempt. *)
Definition ceph_osdc_start_request (a : allocs) (req : ptr) (nofail : bool)
    : M Z :=
  update req (fun r =>
    set_r_request
      (set_m_nr_pages (r_num_pages r)
         (set_m_pages (r_pages r) (r_request r))) r);;
  register_request req;;
  mutex_lock;;
  rc ← send_request a req;
  rc ← (if negb (rc =? 0) then
          if nofail then
            update req (set_r_resend true);;
            mret 0
          else
            __unregister_request req;;
            mret rc
        else mret rc);
  mutex_unlock;;
  mret rc.

(** The bodies of [handle_timeout] and [kick_requests] are compiled out
    ([#if 0]). *)
Definition handle_timeout : M unit := mret tt.
Definition kick_requests (who : option Z) : M unit := mret tt.

Definition ceph_osdc_handle_reset (addr : Z) : M unit :=
  kick_requests (Some addr).

End Dispatch.

(** ** The reply handler *)

(** An incoming [CEPH_MSG_OSD_OPREPLY]: the length of its front, the
    fields of its [struct ceph_osd_reply_head] as 32- and 64-bit
    patterns, and [hdr.data_len]. *)
Record osd_reply := {
  rm_obj : nat;
  rm_front_len : Z;
  rm_tid : Z;
  rm_flags : Z;
  rm_result : Z;
  rm_object_len : Z;
  rm_num_ops : Z;
  rm_reassert_version : Z;
  rm_data_len : Z
}.

Section Handlers.
Context (K : externs).

(** The two length checks at the head of the handler. *)
Definition reply_well_formed (msg : osd_reply) : bool :=
  negb (rm_front_len msg <? sizeof_reply_head K)
  && (rm_front_len msg
      =? size_t (sizeof_reply_head K + s32 (rm_object_len msg)
                 + s32 (rm_num_ops msg) * sizeof_osd_op K)).

(** Handle osd op reply.  Either call the callback if it is specified,
    or do the completion to wake up the waiting thread. *)
Definition ceph_osdc_handle_reply (msg : osd_reply) : M unit :=
  if negb (reply_well_formed msg) then emit (ev_pr_err "corrupt osd_op_reply")
  else
  let tid := u64 (rm_tid msg) in
  mutex_lock;;
  found ← gets (fun s => __lookup_request (tid_of s) (requests s) tid);
  match found with
  | None => mutex_unlock
  | Some req =>
      ceph_osdc_get_request req;;
      let flags := s32 (rm_flags msg) in
      r ← deref req;
      match r_reply r with
      | Some m => emit (ev_msg_put m);; update req (set_r_reply None)
      | None => mret tt
      end;;
      if r_aborted r then
        (* goto done *)
        ceph_osdc_put_request req
      else
      dup_ack ←
        (if negb (r_got_reply r) then
           let result := s32 (rm_result msg) in
           let bytes := u32 (rm_data_len msg) in
           update req (fun r =>
             set_r_got_reply true
               (set_r_reassert_version (rm_reassert_version msg)
                  (set_r_result (if result =? 0 then s32 bytes else result)
                     r)));;
           mret false
         else mret (negb (flag_set flags (CEPH_OSD_FLAG_ONDISK K))));
      if (dup_ack : bool) then
        (* goto done *)
        ceph_osdc_put_request req
      else
      (* either this is a read, or we got the safe response *)
      (if flag_set flags (CEPH_OSD_FLAG_ONDISK K)
          || negb (flag_set flags (CEPH_OSD_FLAG_WRITE K))
       then __unregister_request K req
       else mret tt);;
      mutex_unlock;;
      r ← deref req;
      (if r_callback r then emit (ev_callback req)
       else emit (ev_complete req));;
      (if flag_set flags (CEPH_OSD_FLAG_ONDISK K) then
         (if r_safe_callback r then emit (ev_safe_callback req)
          else mret tt);;
         emit (ev_safe_complete req)
       else mret tt);;
      (* done: *)
      ceph_osdc_put_request req
  end.

(** To abort an in-progress request, take pages away from outgoing or
    incoming message. *)
Definition ceph_osdc_abort_request (req : ptr) : M unit :=
  emit (ev_pr_err "abort_request");;
  update req (set_r_aborted true);;
  update req (fun r => set_r_request (set_m_pages None (r_request r)) r);;
  r ← deref req;
  match r_reply r with
  | Some m => emit (ev_msg_put m);; update req (set_r_reply None)
  | None => mret tt
  end.

(** ** [sync]

    [while_waiting req] is what the other contexts do to the client while
    the caller sleeps in [wait_for_completion(&req->r_safe_completion)];
    [fuel] bounds the number of turns of [while (1)]. *)
Fixpoint sync_loop (while_waiting : ptr -> ceph_osd_client -> ceph_osd_client)
    (fuel : nat) (last next_tid : Z) : M unit :=
  match fuel with
  | O => fun s => Running s
  | S fuel' =>
      found ← gets (fun s =>
        __lookup_request_ge (tid_of s) (requests s) next_tid);
      match found with
      | None => mret tt
      | Some req =>
          r ← deref req;
          if last <? r_tid r then mret tt
          else
            let next_tid := u64 (r_tid r + 1) in
            if negb (flag_set (r_flags r) (CEPH_OSD_FLAG_WRITE K)) then
              sync_loop while_waiting fuel' last next_tid
            else
              ceph_osdc_get_request req;;
              mutex_unlock;;
              emit (ev_wait_safe req);;
              modify (while_waiting req);;
              mutex_lock;;
              ceph_osdc_put_request req;;
              sync_loop while_waiting fuel' last next_tid
      end
  end.

(** sync - wait for all in-flight requests to flush.  avoid starvation. *)
Definition ceph_osdc_sync
    (while_waiting : ptr -> ceph_osd_client -> ceph_osd_client)
    (fuel : nat) : M unit :=
  mutex_lock;;
  last ← gets last_tid;
  sync_loop while_waiting fuel last 0;;
  mutex_unlock.

End Handlers.

(** [ceph_osdc_init], for a client with the given ticket length, timeout
    and filesystem identifier. *)
Definition ceph_osdc_init (ticket_len timeout : Z) (fsid : list Z)
    : ceph_osd_client :=
  {| osdmap := None; last_tid := 0; requests := rb_nil; num_requests := 0;
     timeout_tid := 0; osds := ∅; request_mutex := false;
     signed_ticket_len := ticket_len; osd_timeout := timeout;
     monmap_fsid := fsid; mem := ∅; jiffies := 0; trace := [] |}.

(** ** The map handler *)

(** Modelled from the spec: the decoding macros of [decode.h], which is
    not part of the sources.  Messages are little-endian on the wire;
    [ceph_decode_need] is the bounds check before a read, and a read
    advances the cursor.  The cursor [p] is kept as the bytes from [p] to
    [end]. *)
Definition byte (b : Z) : Z := b mod 256.

Definition get_unaligned_le32 (p : list Z) : Z :=
  byte (nth 0 p 0) + 2 ^ 8 * byte (nth 1 p 0) + 2 ^ 16 * byte (nth 2 p 0)
  + 2 ^ 24 * byte (nth 3 p 0).

Definition ceph_decode_need (p : list Z) (n : Z) : bool :=
  n <=? Z.of_nat (length p).

Definition ceph_decode_32 (p : list Z) : Z * list Z :=
  (get_unaligned_le32 p, drop 4 p).

(** [sizeof(ceph_fsid_t)] *)
Definition sizeof_fsid : nat := 16.

Section MapHandler.
Context (K : externs).

(** [goto bad] *)
Definition bad : M unit := emit (ev_pr_err "corrupt msg").

(** The loop over the incremental maps; [None] is [goto bad].  It
    returns the cursor and [newmap]. *)
Fixpoint incremental_maps (nr_maps : nat) (p : list Z)
    (newmap : option ceph_osdmap)
    : M (option (list Z * option ceph_osdmap)) :=
  match nr_maps with
  | O => mret (Some (p, newmap))
  | S nr_maps' =>
      if negb (ceph_decode_need p 8) then mret None else
      let '(e, p) := ceph_decode_32 p in
      let '(maplen, p) := ceph_decode_32 p in
      if negb (ceph_decode_need p maplen) then mret None else
      let next := drop (Z.to_nat maplen) p in
      om ← gets osdmap;
      match om with
      | Some cur =>
          if u32 (epoch cur + 1) =? e then
            match osdmap_apply_incremental K (take (Z.to_nat maplen) p) cur
            with
            | inl err => mret None
            | inr new =>
                (if bool_decide (map_obj new = map_obj cur) then mret tt
                 else emit (ev_osdmap_destroy (map_obj cur)));;
                modify (set_osdmap (Some new));;
                incremental_maps nr_maps' next (Some new)
            end
          else incremental_maps nr_maps' next newmap
      | None => incremental_maps nr_maps' next newmap
      end
  end.

(** The loop over the full maps; [None] is [goto bad]. *)
Fixpoint full_maps (nr_maps : nat) (p : list Z)
    (newmap : option ceph_osdmap) : M (option (option ceph_osdmap)) :=
  match nr_maps with
  | O => mret (Some newmap)
  | S nr_maps' =>
      if negb (ceph_decode_need p 8) then mret None else
      let '(e, p) := ceph_decode_32 p in
      let '(maplen, p) := ceph_decode_32 p in
      if negb (ceph_decode_need p maplen) then mret None else
      let next := drop (Z.to_nat maplen) p in
      om ← gets osdmap;
      match nr_maps' with
      | S _ =>
          (* skipping non-latest full map *)
          full_maps nr_maps' next newmap
      | O =>
          if match om with Some cur => e <=? epoch cur | None => false end
          then
            (* skipping full map, older than ours *)
            full_maps nr_maps' next newmap
          else
            match osdmap_decode K (take (Z.to_nat maplen) p) with
            | inl err => mret None
            | inr new =>
                modify (set_osdmap (Some new));;
                match om with
                | Some old => emit (ev_osdmap_destroy (map_obj old))
                | None => mret tt
                end;;
                full_maps nr_maps' next (Some new)
            end
      end
  end.

(** [done:] *)
Definition handle_map_done (newmap : option ceph_osdmap) : M unit :=
  om ← gets osdmap;
  match om with
  | None => oops null_deref
  | Some m =>
      emit (ev_monc_got_osdmap (epoch m));;
      match newmap with
      | Some _ => kick_requests None
      | None => mret tt
      end
  end.

(** Process updated osd map.  The message contains any number of
    incremental and full maps. *)
Definition ceph_osdc_handle_map (front : list Z) : M unit :=
  if negb (ceph_decode_need front (Z.of_nat sizeof_fsid)) then bad else
  let fsid := take sizeof_fsid front in
  let p := drop sizeof_fsid front in
  mine ← gets monmap_fsid;
  if negb (bool_decide (fsid = mine)) then emit (ev_pr_err "wrong fsid")
  else
  (* incremental maps *)
  if negb (ceph_decode_need p 4) then bad else
  let '(nr_maps, p) := ceph_decode_32 p in
  r ← incremental_maps (Z.to_nat nr_maps) p None;
  match r with
  | None => bad
  | Some (_, Some new) => handle_map_done (Some new)
  | Some (p, None) =>
      (* full maps *)
      if negb (ceph_decode_need p 4) then bad else
      let '(nr_maps, p) := ceph_decode_32 p in
      r ← full_maps (Z.to_nat nr_maps) p None;
      match r with
      | None => bad
      | Some newmap => handle_map_done newmap
      end
  end.

End MapHandler.

(** The allocator puts a request at an address. *)
Definition place (req : ptr) (r : ceph_osd_request) (s : ceph_osd_client)
    : ceph_osd_client :=
  set_mem (<[req := r]> (mem s)) s.

(** ** Runs of the client

    [reach K s s'] when [s'] is what [s] becomes after some calls: a
    request is allocated at an unused address and started, a reply or a
    map arrives, a request is aborted, a reference is taken or dropped,
    the clock advances, or [sync] runs while the other contexts make
    calls of their own.  A call that stops with an oops, or sleeps for
    ever, leaves the state it had reached.  No request is started once
    the 64-bit tid counter stands at its maximum. *)
Inductive reach (K : externs) : ceph_osd_client -> ceph_osd_client -> Prop :=
| reach_refl s : reach K s s
| reach_start s s1 req r a nofail :
    reach K s s1 -> mem s1 !! req = None -> last_tid s1 < 2 ^ 64 - 1 ->
    reach K s
      (after (ceph_osdc_start_request K a req nofail) (place req r s1))
| reach_reply s s1 msg :
    reach K s s1 -> reach K s (after (ceph_osdc_handle_reply K msg) s1)
| reach_abort s s1 req :
    reach K s s1 -> reach K s (after (ceph_osdc_abort_request req) s1)
| reach_map s s1 front :
    reach K s s1 -> reach K s (after (ceph_osdc_handle_map K front) s1)
| reach_reset s s1 addr :
    reach K s s1 -> reach K s (after (ceph_osdc_handle_reset addr) s1)
| reach_timeout s s1 :
    reach K s s1 -> reach K s (after handle_timeout s1)
| reach_get s s1 req :
    reach K s s1 -> reach K s (after (ceph_osdc_get_request req) s1)
| reach_put s s1 req :
    reach K s s1 -> reach K s (after (ceph_osdc_put_request req) s1)
| reach_tick s s1 now :
    reach K s s1 -> reach K s (set_jiffies now s1)
| reach_sync s s1 w fuel :
    reach K s s1 -> (forall req s', reach K s' (w req s')) ->
    reach K s (after (ceph_osdc_sync K w fuel) s1).

(** The registrations the log shows, oldest first. *)
Fixpoint registered (evs : list event) : list (ptr * Z) :=
  match evs with
  | [] => []
  | ev_dout_register_request req tid :: evs => (req, tid) :: registered evs
  | _ :: evs => registered evs
  end.

(** Strictly increasing keys along a list of requests. *)
Definition ascending (key : ptr -> Z) (l : list ptr) : Prop :=
  StronglySorted (fun p q => key p < key q) l.

(** What holds of the tids in every state a run reaches. *)
Record tid_inv (s : ceph_osd_client) : Prop := {
  inv_sorted : ascending (tid_of s) (inorder (requests s));
  inv_index :
    forall p, p ∈ inorder (requests s) -> 1 <= tid_of s p <= last_tid s;
  inv_log_sorted : StronglySorted Z.lt (registered (trace s)).*2;
  inv_log :
    forall p t, (p, t) ∈ registered (trace s) ->
      tid_of s p = t /\ 1 <= t <= last_tid s;
  inv_last : 0 <= last_tid s < 2 ^ 64
}.

(** Weakest precondition: [m] run from [s] returns in a state and with a
    value that satisfy [Q], or stops in a state that satisfies [E]. *)
Definition wp {A} (m : M A) (Q : A -> ceph_osd_client -> Prop)
    (E : ceph_osd_client -> Prop) (s : ceph_osd_client) : Prop :=
  match m s with
  | Ok a s' => Q a s'
  | Oops _ s' | Blocked s' | Running s' => E s'
  end.

(** [m] keeps [I], however it ends. *)
Definition preserves {A} (I : ceph_osd_client -> Prop) (m : M A) : Prop :=
  forall s, I s -> I (final (m s)).

(** ** Assumptions on the rbtree library

    Rebalancing after an insertion keeps the order of the nodes, and
    [rb_erase] takes out the node it is given and keeps the order of the
    others. *)
Record rbtree_ok (K : externs) : Prop := {
  rb_insert_color_inorder :
    forall p t, inorder (rb_insert_color K p t) = inorder t;
  rb_erase_inorder :
    forall p t, NoDup (inorder t) ->
      inorder (rb_erase K p t) = filter (fun q => q <> p) (inorder t)
}.

(** ** A sample platform

    One choice of the constants and external functions, for the
    examples: objects are not striped, the primary of every placement
    group is the first entry of the map body (or -1), an incremental
    updates the map in place, and the tree is a search tree rebalanced
    on insertion, whose [rb_erase] puts the successor in the place of a
    node with two children. *)
Fixpoint rb_extract_min (t : rb_root) : option (ptr * rb_root) :=
  match t with
  | rb_nil => None
  | rb_node c l q r =>
      match rb_extract_min l with
      | None => Some (q, r)
      | Some (m, l') => Some (m, rb_node c l' q r)
      end
  end.

Fixpoint plain_rb_erase (p : ptr) (t : rb_root) : rb_root :=
  match t with
  | rb_nil => rb_nil
  | rb_node c l q r =>
      if bool_decide (q = p) then
        match rb_extract_min r with
        | None => l
        | Some (m, r') => rb_node c l m r'
        end
      else rb_node c (plain_rb_erase p l) q (plain_rb_erase p r)
  end.

(** Rebalancing after a red leaf has been linked in: a red node with a
    red child under a black node is rotated into a red node with two
    black children, bottom-up, and the root is painted black. *)
Definition rb_balance (red : bool) (l : rb_root) (x : ptr) (r : rb_root)
    : rb_root :=
  match red, l, r with
  | false, rb_node true (rb_node true a x1 b) x2 c, d =>
      rb_node true (rb_node false a x1 b) x2 (rb_node false c x d)
  | false, rb_node true a x1 (rb_node true b x2 c), d =>
      rb_node true (rb_node false a x1 b) x2 (rb_node false c x d)
  | false, a, rb_node true (rb_node true b x1 c) x2 d =>
      rb_node true (rb_node false a x b) x1 (rb_node false c x2 d)
  | false, a, rb_node true b x1 (rb_node true c x2 d) =>
      rb_node true (rb_node false a x b) x1 (rb_node false c x2 d)
  | _, _, _ => rb_node red l x r
  end.

Fixpoint rb_fix (t : rb_root) : rb_root :=
  match t with
  | rb_nil => rb_nil
  | rb_node c l x r => rb_balance c (rb_fix l) x (rb_fix r)
  end.

Definition rb_blacken (t : rb_root) : rb_root :=
  match t with
  | rb_nil => rb_nil
  | rb_node _ l x r => rb_node false l x r
  end.

Definition plain_rb_insert_color (node : ptr) (t : rb_root) : rb_root :=
  rb_blacken (rb_fix t).

Definition plain_file_object_mapping (layout : ceph_file_layout)
    (off plen : Z) : Z * Z * Z * Z :=
  let osize := fl_object_size layout in
  let bno := off / osize in
  let objoff := off mod osize in
  let objlen := Z.min plen (osize - objoff) in
  (objlen, bno, objoff, objlen).

Definition sample : externs :=
  {| CEPH_OSD_FLAG_ONDISK := 4;
     CEPH_OSD_FLAG_READ := 1;
     CEPH_OSD_FLAG_WRITE := 2;
     CEPH_OSD_OP_READ := 4609;
     CEPH_OSD_OP_WRITE := 8705;
     CEPH_OSD_OP_MASKTRUNC := 4612;
     CEPH_OSD_OP_SETTRUNC := 8712;
     CEPH_OSD_OP_STARTSYNC := 8711;
     ENOMEM := 12;
     HZ := 250;
     sizeof_request_head := 118;
     sizeof_osd_op := 42;
     sizeof_reply_head := 38;
     ceph_calc_file_object_mapping := plain_file_object_mapping;
     calc_pages_for := fun off len =>
       (off + len + 4095) / 4096 - off / 4096;
     ceph_calc_object_layout := fun oid layout om => (0, fl_pg_pool layout);
     ceph_calc_pg_primary := fun om pgid =>
       match om with
       | Some m => nth 0 (map_body m) (-1)
       | None => -1
       end;
     osdmap_apply_incremental := fun bytes cur =>
       inr {| map_obj := map_obj cur; epoch := u32 (epoch cur + 1);
              map_body := bytes |};
     osdmap_decode := fun bytes =>
       inr {| map_obj := length bytes; epoch := get_unaligned_le32 bytes;
              map_body := drop 4 bytes |};
     rb_insert_color := plain_rb_insert_color;
     rb_erase := plain_rb_erase |}.

(** A layout with 4 MiB objects. *)
Definition layout_4M : ceph_file_layout :=
  {| fl_stripe_unit := 4194304; fl_stripe_count := 1;
     fl_object_size := 4194304; fl_pg_pool := 0 |}.

Definition vino_1234 : ceph_vino := {| ino := 4660; snap := 0 |}.

Definition faulted {A} (o : outcome A) : option fault :=
  match o with Oops f _ => Some f | _ => None end.
Definition is_blocked {A} (o : outcome A) : bool :=
  match o with Blocked _ => true | _ => false end.

(** The request of a successful build. *)
Definition zero_head : ceph_osd_request_head :=
  {| h_client_inc := 0; h_tid := 0; h_layout_pgid := 0; h_snapid := 0;
     h_snap_seq := 0; h_num_snaps := 0; h_object_len := 0;
     h_ticket_len := 0; h_osdmap_epoch := 0; h_flags := 0; h_mtime := None;
     h_reassert_version := 0; h_num_ops := 0 |}.

Definition zero_request : ceph_osd_request :=
  {| r_tid := 0; r_flags := 0; r_result := 0; r_aborted := false;
     r_got_reply := false; r_prepared_pages := false; r_resend := false;
     r_osd := None; r_reply := None; r_ref := 0; r_callback := false;
     r_safe_callback := false; r_reassert_version := 0;
     r_timeout_stamp := 0; r_oid := []; r_oid_len := 0; r_pages := None;
     r_num_pages := 0;
     r_file_layout := {| fl_stripe_unit := 0; fl_stripe_count := 0;
                         fl_object_size := 0; fl_pg_pool := 0 |};
     r_snapc := None; r_mempool := false;
     r_request := {| front_len := 0; hdr_data_off := 0; hdr_data_len := 0;
                     m_head := zero_head; m_ops := []; m_pages := None;
                     m_nr_pages := 0; m_ref := 0 |} |}.

Definition request_of (b : build_result) : ceph_osd_request :=
  match b with
  | Built req _ => req
  | _ => zero_request
  end.

(** The request [ceph_osdc_readpages] builds for 4 KiB at [off], and the
    one [ceph_osdc_writepages] builds (flags [ONDISK | WRITE]). *)
Definition sample_read (off : Z) : ceph_osd_request :=
  request_of
    (ceph_osdc_new_request sample 0 true None layout_4M vino_1234 off 4096
       (CEPH_OSD_OP_READ sample) (CEPH_OSD_FLAG_READ sample) None 0 0 0 0
       false).

Definition sample_write (off : Z) : ceph_osd_request :=
  request_of
    (ceph_osdc_new_request sample 0 true None layout_4M vino_1234 off 4096
       (CEPH_OSD_OP_WRITE sample)
       (Z.lor (CEPH_OSD_FLAG_ONDISK sample) (CEPH_OSD_FLAG_WRITE sample))
       None 0 0 0 0 false).

(** A map at epoch 5 whose placement groups have primary osd3, and one
    whose placement groups have no up osd. *)
Definition osdmap_osd3 : ceph_osdmap :=
  {| map_obj := 0; epoch := 5; map_body := [3] |}.
Definition osdmap_none_up : ceph_osdmap :=
  {| map_obj := 0; epoch := 5; map_body := [] |}.

Definition sample_client (om : ceph_osdmap) : ceph_osd_client :=
  set_osdmap (Some om) (ceph_osdc_init 0 30 (replicate 16 0)).

Definition all_ok : allocs := {| kmalloc_osd := true; kzalloc_con := true |}.
Definition no_memory : allocs :=
  {| kmalloc_osd := false; kzalloc_con := true |}.

(** A well-formed reply with one op and a 13-byte object name. *)
Definition sample_reply (tid flags result : Z) : osd_reply :=
  {| rm_obj := 0; rm_front_len := 38 + 13 + 42; rm_tid := tid;
     rm_flags := flags; rm_result := result; rm_object_len := 13;
     rm_num_ops := 1; rm_reassert_version := 0; rm_data_len := 0 |}.

(** ** Scenarios *)

(** A request for a placement group with no up osd, registered. *)
Definition scenario_no_primary : ceph_osd_client :=
  after (register_request sample 1%nat)
    (place 1%nat (sample_write 0) (sample_client osdmap_none_up)).

(** A fresh read, about to be started when [kmalloc] fails. *)
Definition scenario_fresh_read : ceph_osd_client :=
  place 1%nat (sample_read 0) (sample_client osdmap_osd3).

(** A write (tid 1) that has been started and has received its first
    ack, without [ONDISK]. *)
Definition write_ack : osd_reply :=
  sample_reply 1 (CEPH_OSD_FLAG_WRITE sample) 0.

Definition scenario_write_started : ceph_osd_client :=
  after (ceph_osdc_start_request sample all_ok 1%nat false)
    (place 1%nat (sample_write 0) (sample_client osdmap_osd3)).

Definition scenario_write_acked : ceph_osd_client :=
  after (ceph_osdc_handle_reply sample write_ack) scenario_write_started.

(** Reads at tid 1 and 2 and a write at tid 3 are started, and the read
    at tid 2 completes. *)
Definition scenario_three_started : ceph_osd_client :=
  after (ceph_osdc_start_request sample all_ok 3%nat false)
    (after (ceph_osdc_start_request sample all_ok 2%nat false)
       (after (ceph_osdc_start_request sample all_ok 1%nat false)
          (place 3%nat (sample_write 8192)
             (place 2%nat (sample_read 4096)
                (place 1%nat (sample_read 0)
                   (sample_client osdmap_osd3)))))).

Definition scenario_gap : ceph_osd_client :=
  after (ceph_osdc_handle_reply sample
           (sample_reply 2 (CEPH_OSD_FLAG_READ sample) 0))
    scenario_three_started.

(** Nothing else runs while [sync] sleeps. *)
Definition quiet (req : ptr) (s : ceph_osd_client) : ceph_osd_client := s.

(** ** Consistency of the index

    The index is ordered by tid, holds allocated requests only, and
    [num_requests] counts them. *)
Record index_ok (s : ceph_osd_client) : Prop := {
  index_sorted : ascending (tid_of s) (inorder (requests s));
  index_alloc :
    forall p, p ∈ inorder (requests s) -> is_Some (mem s !! p);
  index_count :
    num_requests s = Z.of_nat (length (inorder (requests s)));
  index_small : num_requests s < 2 ^ 31
}.

(** ** An aborted request

    The calls that concern [req] on the way out: its message handed to
    the transport, its callbacks and its completions. *)
Definition signal_for (req : ptr) (e : event) : bool :=
  match e with
  | ev_con_send _ q | ev_callback q | ev_complete q | ev_safe_callback q
  | ev_safe_complete q => bool_decide (q = req)
  | _ => false
  end.

(** Since [sa], nothing was signalled or sent for [req], and it is still
    aborted, with the result, the routing and the registration it had. *)
Record silent_since (req : ptr) (sa s : ceph_osd_client) : Prop := {
  silent_request :
    exists ra r,
      mem sa !! req = Some ra /\ mem s !! req = Some r
      /\ r_aborted r = true /\ r_result r = r_result ra
      /\ r_osd r = r_osd ra;
  silent_index :
    req ∈ inorder (requests s) <-> req ∈ inorder (requests sa);
  silent_trace :
    exists t, trace s = trace sa ++ t
              /\ Forall (fun e => signal_for req e = false) t
}.

(** What a run keeps once [req] is aborted. *)
Definition aborted_inv (req : ptr) (sa s : ceph_osd_client) : Prop :=
  tid_inv s /\ silent_since req sa s.

(** ** The osd-map message, and what the specification says of it

    The front of a [CEPH_MSG_OSD_MAP] as the handler reads it: the fsid,
    then two lists (incremental maps, full maps), each a 32-bit count
    followed by that many blobs; a blob is a 32-bit epoch, a 32-bit
    length and that many bytes. *)
Definition le32 (v : Z) : list Z :=
  [v mod 256; v / 2 ^ 8 mod 256; v / 2 ^ 16 mod 256; v / 2 ^ 24 mod 256].

Record map_blob := { mb_epoch : Z; mb_bytes : list Z }.

Definition blob_ok (b : map_blob) : Prop :=
  0 <= mb_epoch b < 2 ^ 32 /\ Z.of_nat (length (mb_bytes b)) < 2 ^ 32.

Definition encode_blob (b : map_blob) : list Z :=
  le32 (mb_epoch b) ++ le32 (Z.of_nat (length (mb_bytes b))) ++ mb_bytes b.

Definition encode_blobs (l : list map_blob) : list Z :=
  le32 (Z.of_nat (length l)) ++ concat (encode_blob <$> l).

Definition encode_map_msg (fsid : list Z) (incs fulls : list map_blob)
    (rest : list Z) : list Z :=
  fsid ++ encode_blobs incs ++ encode_blobs fulls ++ rest.

Section MapSpec.
Context (K : externs).

(** The specification, in its words: for each incremental, if its epoch
    equals the current epoch + 1, apply it; if the result is a new
    object, swap and destroy the old; otherwise ignore.  The result is
    the last map applied, or [None] when an incremental does not
    apply cleanly. *)
Fixpoint spec_incrementals (incs : list map_blob)
    (applied : option ceph_osdmap) : M (option (option ceph_osdmap)) :=
  match incs with
  | [] => mret (Some applied)
  | inc :: incs' =>
      om ← gets osdmap;
      match om with
      | Some cur =>
          if mb_epoch inc =? u32 (epoch cur + 1) then
            match osdmap_apply_incremental K (mb_bytes inc) cur with
            | inl err => mret None
            | inr new =>
                (if bool_decide (map_obj new = map_obj cur) then mret tt
                 else emit (ev_osdmap_destroy (map_obj cur)));;
                modify (set_osdmap (Some new));;
                spec_incrementals incs' (Some new)
            end
          else spec_incrementals incs' applied
      | None => spec_incrementals incs' applied
      end
  end.

(** For each full map: ignore all but the last, and that one only if
    its epoch exceeds ours; decode and swap. *)
Definition spec_full_maps (fulls : list map_blob)
    : M (option (option ceph_osdmap)) :=
  match last fulls with
  | None => mret (Some None)
  | Some full =>
      om ← gets osdmap;
      if match om with
         | Some cur => epoch cur <? mb_epoch full
         | None => true
         end
      then
        match osdmap_decode K (mb_bytes full) with
        | inl err => mret None
        | inr new =>
            modify (set_osdmap (Some new));;
            match om with
            | Some old => emit (ev_osdmap_destroy (map_obj old))
            | None => mret tt
            end;;
            mret (Some (Some new))
        end
      else mret (Some None)
  end.

(** If any incremental was applied, skip the full-map list. *)
Definition spec_handle_map (incs fulls : list map_blob) : M unit :=
  r ← spec_incrementals incs None;
  match r with
  | None => bad
  | Some (Some new) => handle_map_done (Some new)
  | Some None =>
      r ← spec_full_maps fulls;
      match r with
      | None => bad
      | Some newmap => handle_map_done newmap
      end
  end.

End MapSpec.

(** A message with one full map, at epoch 5 with primary osd3, and the
    run in which it arrives, a write is started and then aborted. *)
Definition full_map_osd3 : list Z :=
  encode_map_msg (replicate 16 0) []
    [{| mb_epoch := 5; mb_bytes := le32 5 ++ [3] |}] [].

Definition scenario_mapped : ceph_osd_client :=
  after (ceph_osdc_handle_map sample full_map_osd3)
    (ceph_osdc_init 0 30 (replicate 16 0)).

Definition scenario_started : ceph_osd_client :=
  after (ceph_osdc_start_request sample all_ok 1%nat false)
    (place 1%nat (sample_write 0) scenario_mapped).

Definition scenario_aborted : ceph_osd_client :=
  after (ceph_osdc_abort_request 1%nat) scenario_started.

(** * Further definitions *)

(** ** What a reply signals *)

(** A call that signals something about a request: its message handed
    to the transport, a callback or a completion. *)
Definition any_signal (e : event) : bool :=
  match e with
  | ev_con_send _ _ | ev_callback _ | ev_complete _ | ev_safe_callback _
  | ev_safe_complete _ => true
  | _ => false
  end.

(** The calls logged since the log was [t0] signal nothing. *)
Definition no_signal_since (t0 : list event) (s : ceph_osd_client) : Prop :=
  exists t, trace s = t0 ++ t /\ Forall (fun e => any_signal e = false) t.

(** The signals of [ceph_osdc_handle_reply] for a reply with [flags] to
    a request with the given callbacks. *)
Definition reply_signals (K : externs) (req : ptr) (r : ceph_osd_request)
    (flags : Z) : list event :=
  (if r_callback r then ev_callback req else ev_complete req)
  :: (if flag_set flags (CEPH_OSD_FLAG_ONDISK K)
      then (if r_safe_callback r then [ev_safe_callback req] else [])
           ++ [ev_safe_complete req]
      else []).

(** ** What the map handler leaves alone *)

(** Everything but the map, the clock and the log is as in [s0]. *)
Definition same_requests (s0 s : ceph_osd_client) : Prop :=
  requests s = requests s0 /\ mem s = mem s0 /\ osds s = osds s0
  /\ last_tid s = last_tid s0 /\ num_requests s = num_requests s0
  /\ timeout_tid s = timeout_tid s0 /\ request_mutex s = request_mutex s0.

(** What the map handler keeps of [s0]. *)
Definition map_frame (s0 s : ceph_osd_client) : Prop :=
  same_requests s0 s /\ no_signal_since (trace s0) s.

(** ** Reading an object name back

    The value of a hexadecimal digit and of a string of them, used to
    show that [fmt_oid] loses nothing. *)
Definition hex_val (c : ascii) : Z :=
  match c with
  | "0" => 0 | "1" => 1 | "2" => 2 | "3" => 3 | "4" => 4 | "5" => 5
  | "6" => 6 | "7" => 7 | "8" => 8 | "9" => 9 | "a" => 10 | "b" => 11
  | "c" => 12 | "d" => 13 | "e" => 14 | _ => 15
  end%char.

Definition parse_hex (l : list ascii) : Z :=
  fold_left (fun acc c => 16 * acc + hex_val c) l 0.

(** The parts of an object name before and after the first ['.']. *)
Fixpoint split_oid (l : list ascii) : list ascii * list ascii :=
  match l with
  | [] => ([], [])
  | c :: l' =>
      if Ascii.eqb c "."%char then ([], l')
      else let '(a, b) := split_oid l' in (c :: a, b)
  end.

Definition parse_oid (l : list ascii) : Z * Z :=
  let '(a, b) := split_oid l in (parse_hex a, parse_hex b).

(** ** Starting a request *)

(** The session [map_osds] attaches a request to: the one registered for
    the ordinal, or a new one. *)
Definition session_for (a : allocs) (s : ceph_osd_client) (o : Z)
    : ceph_osd :=
  match osds s !! o with
  | Some osd => osd
  | None => init_osd a o
  end.

(** ** [ceph_osdc_prepare_pages]

    A message being read off the wire, as far as the function reads and
    writes it: its type and the tid of its reply head (as they are on
    the wire), and its page vector, page count and reference count. *)
Record incoming_msg := {
  im_obj : nat;
  im_type : Z;
  im_tid : Z;
  im_pages : option nat;
  im_nr_pages : Z;
  im_ref : Z
}.

Section PreparePages.
Context (K : externs) (CEPH_MSG_OSD_OPREPLY : Z).

(** A read request prepares specific pages that data is to be read
    into.  When a message is being read off the wire, we call
    prepare_pages to find those pages.  0 = success, -1 failure.  The
    message is returned as the call leaves it. *)
Definition ceph_osdc_prepare_pages (m : incoming_msg) (want : Z)
    : M (Z * incoming_msg) :=
  let type := u16 (im_type m) in
  if negb (type =? CEPH_MSG_OSD_OPREPLY) then mret (-1, m) else
  let tid := u64 (im_tid m) in
  mutex_lock;;
  found ← gets (fun s => __lookup_request (tid_of s) (requests s) tid);
  res ← match found with
        | None => mret (-1, m)
        | Some req =>
            r ← deref req;
            if (want <=? r_num_pages r) && negb (r_prepared_pages r)
               && negb (r_aborted r)
            then
              update req (set_r_reply (Some (im_obj m)));;
              (* ceph_msg_get(m) *)
              update req (set_r_prepared_pages true);;
              mret (0, {| im_obj := im_obj m; im_type := im_type m;
                          im_tid := im_tid m; im_pages := r_pages r;
                          im_nr_pages := r_num_pages r;
                          im_ref := im_ref m + 1 |})
            else mret (-1, m)
        end;
  mutex_unlock;;
  mret res.

End PreparePages.

(** ** Requests whose pages are not for taking *)

(** [req] has handed its pages to an incoming message already, or is
    aborted. *)
Definition refused (req : ptr) (s : ceph_osd_client) : Prop :=
  exists r, mem s !! req = Some r
            /\ (r_prepared_pages r = true \/ r_aborted r = true).

(** Runs of the client in which incoming messages also ask for pages:
    the calls of [reach], and [ceph_osdc_prepare_pages]. *)
Inductive reach_pages (K : externs) (CEPH_MSG_OSD_OPREPLY : Z)
    : ceph_osd_client -> ceph_osd_client -> Prop :=
| reach_pages_refl s : reach_pages K CEPH_MSG_OSD_OPREPLY s s
| reach_pages_calls s s1 s2 :
    reach_pages K CEPH_MSG_OSD_OPREPLY s s1 -> reach K s1 s2 ->
    reach_pages K CEPH_MSG_OSD_OPREPLY s s2
| reach_pages_prepare s s1 m want :
    reach_pages K CEPH_MSG_OSD_OPREPLY s s1 ->
    reach_pages K CEPH_MSG_OSD_OPREPLY s
      (after (ceph_osdc_prepare_pages CEPH_MSG_OSD_OPREPLY m want) s1).

(** ** Synchronous reads and writes *)

Section Synchronous.
Context (K : externs) (CEPH_NOSNAP : Z).

(** [ceph_osdc_new_request] as its callers see it: the request is built
    from the ticket length of the client and put at the address [new]
    the allocator returns; the error of a failed allocation is returned
    as [inl], the length that fits the object as [inr].  A null [mtime]
    is read (after the allocations) when the flags include [WRITE]. *)
Definition osdc_new_request (kzalloc_ok : bool) (msg_new_err : option Z)
    (new : ptr) (layout : ceph_file_layout) (vino : ceph_vino)
    (off plen : Z) (opcode flags : Z) (snapc : option ceph_snap_context)
    (do_sync truncate_seq truncate_size : Z) (mtime : option Z)
    (use_mempool : bool) : M (Z + Z) :=
  tl ← gets signed_ticket_len;
  match ceph_osdc_new_request K tl kzalloc_ok msg_new_err layout vino off
          plen opcode flags snapc do_sync truncate_seq truncate_size
          (default 0 mtime) use_mempool with
  | BuildErr err => mret (inl err)
  | built =>
      if flag_set flags (CEPH_OSD_FLAG_WRITE K) && bool_decide (mtime = None)
      then oops null_deref
      else
        match built with
        | Built r plen' => modify (place new r);; mret (inr plen')
        | _ => oops bug
        end
  end.

(** wait for a request to complete.  [wait] stands for
    [wait_for_completion_interruptible(&req->r_completion)]: what the
    other contexts do to the client while the caller sleeps, and the
    value the wait returns (negative when a signal ends it). *)
Definition ceph_osdc_wait_request (wait : ptr -> M Z) (req : ptr) : M Z :=
  rc ← wait req;
  let rc := s32 rc in
  if rc <? 0 then
    ceph_osdc_abort_request req;;
    mret rc
  else
    r ← deref req;
    mret (r_result r).

(** Read some contiguous pages.  If we cross a stripe boundary, shorten
    *plen.  Return number of bytes read, or error; with it, the final
    [*plen]. *)
Definition ceph_osdc_readpages (a : allocs) (kzalloc_ok : bool)
    (msg_new_err : option Z) (new : ptr) (wait : ptr -> M Z)
    (vino : ceph_vino) (layout : ceph_file_layout) (off plen : Z)
    (truncate_seq truncate_size : Z) (pages : option nat) (num_pages : Z)
    : M (Z * Z) :=
  built ← osdc_new_request kzalloc_ok msg_new_err new layout vino off plen
            (CEPH_OSD_OP_READ K) (CEPH_OSD_FLAG_READ K) None 0
            truncate_seq truncate_size None false;
  match built with
  | inl err => mret (s32 err, plen)
  | inr plen =>
      (* it may be a short read due to an object boundary *)
      update new (set_r_pages pages);;
      let num_pages := calc_pages_for K off plen in
      update new (set_r_num_pages num_pages);;
      rc ← ceph_osdc_start_request K a new false;
      rc ← (if rc =? 0 then ceph_osdc_wait_request wait new else mret rc);
      ceph_osdc_put_request new;;
      mret (rc, plen)
  end.

(** do a synchronous write on N pages *)
Definition ceph_osdc_writepages (a : allocs) (kzalloc_ok : bool)
    (msg_new_err : option Z) (new : ptr) (wait : ptr -> M Z)
    (vino : ceph_vino) (layout : ceph_file_layout)
    (snapc : option ceph_snap_context) (off len : Z)
    (truncate_seq truncate_size : Z) (mtime : option Z)
    (pages : option nat) (num_pages : Z) (flags do_sync : Z)
    (nofail : bool) : M Z :=
  if negb (snap vino =? CEPH_NOSNAP) then oops bug else
  built ← osdc_new_request kzalloc_ok msg_new_err new layout vino off len
            (CEPH_OSD_OP_WRITE K)
            (Z.lor (Z.lor flags (CEPH_OSD_FLAG_ONDISK K))
               (CEPH_OSD_FLAG_WRITE K))
            snapc do_sync truncate_seq truncate_size mtime nofail;
  match built with
  | inl err => mret (s32 err)
  | inr len =>
      (* it may be a short write due to an object boundary *)
      update new (set_r_pages pages);;
      update new (set_r_num_pages (calc_pages_for K off len));;
      rc ← ceph_osdc_start_request K a new nofail;
      rc ← (if rc =? 0 then ceph_osdc_wait_request wait new else mret rc);
      ceph_osdc_put_request new;;
      mret (if rc =? 0 then s32 len else rc)
  end.

End Synchronous.

(** Two things that can happen while a caller waits: the reply is
    handled and wakes it, or a signal ends the wait at once. *)
Definition reply_arrives (K : externs) (msg : osd_reply) (req : ptr) : M Z :=
  ceph_osdc_handle_reply K msg;;
  mret 0.

Definition interrupted (rc : Z) (req : ptr) : M Z := mret rc.

(** A reply to tid 1 being read off the wire (the message type is 43). *)
Definition sample_incoming : incoming_msg :=
  {| im_obj := 7; im_type := 43; im_tid := 1; im_pages := None;
     im_nr_pages := 0; im_ref := 1 |}.
(** * Properties *)

Lemma u64_small z : 0 <= z < 2 ^ 64 -> u64 z = z.
Proof. intros H. unfold u64. apply Z.mod_small; lia. Qed.

Lemma u64_range z : 0 <= u64 z < 2 ^ 64.
Proof. unfold u64. apply Z.mod_pos_bound; lia. Qed.

Lemma u32_range z : 0 <= u32 z < 2 ^ 32.
Proof. unfold u32. apply Z.mod_pos_bound; lia. Qed.

Lemma hex_digits_length fuel n acc :
  (length (hex_digits fuel n acc) <= fuel + length acc)%nat.
Proof.
  revert n acc. induction fuel as [|fuel IH]; intros n acc; simpl; [lia|].
  destruct (n / 16 =? 0); simpl; [lia|].
  specialize (IH (n / 16) (hex_digit (n mod 16) :: acc)). simpl in IH. lia.
Qed.

Lemma fmt_llx_length n : (length (fmt_llx n) <= 16)%nat.
Proof.
  unfold fmt_llx. pose proof (hex_digits_length 16 (u64 n) []) as H.
  change (length (@nil ascii)) with 0%nat in H. lia.
Qed.

Lemma fmt_08llx_length n : (length (fmt_08llx n) <= 16)%nat.
Proof.
  unfold fmt_08llx. rewrite length_app, length_replicate.
  pose proof (fmt_llx_length n). lia.
Qed.

Lemma fmt_oid_length ino bno : (length (fmt_oid ino bno) <= 33)%nat.
Proof.
  unfold fmt_oid. rewrite length_app. simpl.
  pose proof (fmt_llx_length ino). pose proof (fmt_08llx_length bno). lia.
Qed.

Example fmt_oid_ex :
  String.string_of_list_ascii (fmt_oid 4660 2) = "1234.00000002".
Proof. reflexivity. Qed.

Example fmt_oid_max :
  String.string_of_list_ascii (fmt_oid (2 ^ 64 - 1) (2 ^ 64 - 1))
  = "ffffffffffffffff.ffffffffffffffff".
Proof. vm_compute. reflexivity. Qed.

Section BuildFacts.
Context (K : externs) (HK : abi_ok K).

Lemma msg_size_exact num_op tl snapc :
  0 <= num_op < 2 ^ 31 -> 0 <= tl < 2 ^ 32 -> snapc_ok snapc ->
  msg_size_of K num_op tl snapc
  = sizeof_request_head K + num_op * sizeof_osd_op K + 40 + tl
    + match snapc with Some sc => 8 * num_snaps sc | None => 0 end.
Proof.
  intros Hn Ht Hs. destruct HK. unfold msg_size_of, size_t.
  assert (0 <= num_op * sizeof_osd_op K < 2 ^ 47) by nia.
  rewrite (Z.mod_small (num_op * sizeof_osd_op K)) by lia.
  rewrite (Z.mod_small (sizeof_request_head K + _)) by lia.
  rewrite (Z.mod_small (_ + (40 + tl))) by lia.
  destruct snapc as [sc|]; simpl in Hs; [|lia].
  rewrite (Z.mod_small (8 * num_snaps sc)) by lia.
  rewrite Z.mod_small by lia. lia.
Qed.

Lemma body_end_le_msg_size num_op oid_len tl snapc :
  0 <= num_op < 2 ^ 31 -> 0 <= tl < 2 ^ 32 -> snapc_ok snapc ->
  oid_len <= 40 ->
  body_end K num_op oid_len tl snapc <= msg_size_of K num_op tl snapc.
Proof.
  intros Hn Ht Hs Ho. rewrite msg_size_exact by assumption.
  unfold body_end. destruct snapc; lia.
Qed.

Lemma num_op_range do_sync b :
  0 <= do_sync < 2 ^ 31 - 2 -> 0 <= num_op_of do_sync b < 2 ^ 31.
Proof. unfold num_op_of, Z_of_bool. destruct b; lia. Qed.

Lemma insert_ops_length (i : nat) (o : ceph_osd_op) (l : list ceph_osd_op) :
  length (<[i := o]> l) = length l.
Proof. apply length_insert. Qed.

End BuildFacts.

(** ** The request builder *)

Section BuildTheorems.
Context (K : externs) (HK : abi_ok K).

(** What a successful build returns, field by field. *)
Lemma new_request_built tl kz me layout vino off plen opcode flags snapc
    do_sync tseq tsize mtime pool req plen' :
  ceph_osdc_new_request K tl kz me layout vino off plen opcode flags snapc
    do_sync tseq tsize mtime pool = Built req plen' ->
  let do_trunc := do_trunc_of off plen tseq tsize in
  let num_op := num_op_of do_sync do_trunc in
  let '(pl, bno, objoff, objlen) :=
    ceph_calc_file_object_mapping K layout off plen in
  plen' = pl
  /\ r_oid req = fmt_oid (ino vino) bno
  /\ r_oid_len req = Z.of_nat (length (fmt_oid (ino vino) bno))
  /\ front_len (r_request req) = msg_size_of K num_op tl snapc
  /\ h_num_ops (m_head (r_request req)) = u16 num_op
  /\ body_end K num_op (r_oid_len req) tl snapc
     <= front_len (r_request req)
  /\ exists op0 ops1,
       op_op op0 = u16 opcode /\ op_offset op0 = u64 objoff
       /\ op_length op0 = u64 objlen
       /\ ops1 = (if do_trunc
                  then <[1%nat := trunc_op K opcode off tseq tsize
                                    (op_offset op0)]>
                         (<[0%nat := op0]>
                            (replicate (Z.to_nat num_op) zero_op))
                  else <[0%nat := op0]>
                         (replicate (Z.to_nat num_op) zero_op))
       /\ m_ops (r_request req)
          = (if truthy do_sync
             then <[(if do_trunc then 2 else 1)%nat := sync_op K]> ops1
             else ops1).
Proof.
  unfold ceph_osdc_new_request. intros H.
  destruct (negb (pool || kz)); [discriminate|].
  destruct me as [err|]; [discriminate|].
  destruct (ceph_calc_file_object_mapping K layout off plen)
    as [[[pl bno] objoff] objlen].
  match type of H with
  | (if ?c then _ else _) = _ => destruct c eqn:Hc; [discriminate|]
  end.
  injection H as <- <-.
  cbn [r_oid r_oid_len r_request front_len m_head h_num_ops m_ops].
  apply Z.ltb_ge in Hc.
  do 5 (split; [reflexivity|]). split; [exact Hc|].
  exists {| op_op := u16 opcode; op_offset := u64 objoff;
            op_length := u64 objlen;
            op_payload_len :=
              if flag_set flags (CEPH_OSD_FLAG_WRITE K) then u32 pl else 0;
            op_truncate_seq := 0; op_truncate_size := 0 |}.
  eexists. do 4 (split; [reflexivity|]). reflexivity.
Qed.

(** The builder never reaches its [BUG_ON]. *)
Lemma new_request_no_bug tl kz me layout vino off plen opcode flags snapc
    do_sync tseq tsize mtime pool :
  0 <= tl < 2 ^ 32 -> snapc_ok snapc -> 0 <= do_sync < 2 ^ 31 - 2 ->
  ceph_osdc_new_request K tl kz me layout vino off plen opcode flags snapc
    do_sync tseq tsize mtime pool <> BuildBug.
Proof.
  intros Htl Hs Hd. unfold ceph_osdc_new_request.
  destruct (negb (pool || kz)); [discriminate|].
  destruct me as [err|]; [discriminate|].
  destruct (ceph_calc_file_object_mapping K layout off plen)
    as [[[pl bno] objoff] objlen].
  match goal with
  | |- (if ?c then _ else _) <> _ => destruct c eqn:Hc; [|discriminate]
  end.
  exfalso. apply Z.ltb_lt in Hc.
  pose proof (body_end_le_msg_size K HK
    (num_op_of do_sync (do_trunc_of off plen tseq tsize))
    (Z.of_nat (length (fmt_oid (ino vino) bno))) tl snapc
    (num_op_range do_sync _ Hd) Htl Hs) as Hle.
  pose proof (fmt_oid_length (ino vino) bno). lia.
Qed.

End BuildTheorems.

(** ** The sample platform meets the assumptions *)

Lemma sample_abi_ok : abi_ok sample.
Proof. split; cbn; lia. Qed.

Lemma rb_extract_min_inorder t :
  match rb_extract_min t with
  | None => t = rb_nil
  | Some (m, t') => inorder t = m :: inorder t'
  end.
Proof.
  induction t as [|c l IHl q r IHr]; [reflexivity|]. cbn.
  destruct (rb_extract_min l) as [[m l']|].
  - cbn. rewrite IHl. reflexivity.
  - subst l. reflexivity.
Qed.

Lemma filter_ne_notin (p : ptr) (l : list ptr) :
  p ∉ l -> filter (fun q => q <> p) l = l.
Proof.
  induction l as [|x l IH]; intros Hn; [reflexivity|].
  rewrite not_elem_of_cons in Hn. destruct Hn as [Hne Hn].
  rewrite filter_cons_True by congruence. f_equal. auto.
Qed.

Lemma plain_rb_erase_inorder p t :
  NoDup (inorder t) ->
  inorder (plain_rb_erase p t) = filter (fun q => q <> p) (inorder t).
Proof.
  induction t as [|c l IHl q r IHr]; intros Hnd; [reflexivity|].
  cbn in Hnd. apply NoDup_app in Hnd as (Hl & Hlr & Hr).
  apply NoDup_cons in Hr as [Hq Hr].
  cbn. rewrite filter_app. case_bool_decide as Hqp.
  - subst q. rewrite filter_cons_False by (intros ?; congruence).
    rewrite !filter_ne_notin; [|assumption|].
    + pose proof (rb_extract_min_inorder r) as Hm.
      destruct (rb_extract_min r) as [[m r']|].
      * cbn. rewrite Hm. reflexivity.
      * subst r. cbn. rewrite app_nil_r. reflexivity.
    + intros Hin. apply (Hlr p Hin). left.
  - rewrite filter_cons_True by assumption. cbn.
    rewrite IHl, IHr by assumption. reflexivity.
Qed.

Lemma rb_balance_inorder c l x r :
  inorder (rb_balance c l x r) = inorder l ++ x :: inorder r.
Proof.
  unfold rb_balance.
  repeat match goal with
         | |- context [match ?t with _ => _ end] => destruct t
         end;
    cbn; rewrite <- ?app_assoc; cbn; rewrite <- ?app_assoc; reflexivity.
Qed.

Lemma rb_fix_inorder t : inorder (rb_fix t) = inorder t.
Proof.
  induction t as [|c l IHl x r IHr]; [reflexivity|].
  cbn. rewrite rb_balance_inorder, IHl, IHr. reflexivity.
Qed.

Lemma rb_blacken_inorder t : inorder (rb_blacken t) = inorder t.
Proof. destruct t; reflexivity. Qed.

Lemma sample_rbtree_ok : rbtree_ok sample.
Proof.
  split; cbn.
  - intros p t. unfold plain_rb_insert_color.
    rewrite rb_blacken_inorder. apply rb_fix_inorder.
  - intros p t. apply plain_rb_erase_inorder.
Qed.

Section TruncateOp.
Context (K : externs) (HK : abi_ok K).

Lemma u16_opcode_trunc opcode :
  u16 (if opcode =? CEPH_OSD_OP_READ K
       then CEPH_OSD_OP_MASKTRUNC K else CEPH_OSD_OP_SETTRUNC K)
  = if opcode =? CEPH_OSD_OP_READ K
    then CEPH_OSD_OP_MASKTRUNC K else CEPH_OSD_OP_SETTRUNC K.
Proof.
  destruct HK. unfold u16.
  destruct (opcode =? CEPH_OSD_OP_READ K); apply Z.mod_small; lia.
Qed.

Lemma u64_sub_u64 a b : u64 (a - u64 b) = u64 (a - b).
Proof. unfold u64. apply Zminus_mod_idemp_r. Qed.

(** The two ops a build with a truncate point writes first. *)
Lemma new_request_trunc_op tl kz me layout vino off plen opcode flags snapc
    do_sync tseq tsize mtime pool req plen' :
  0 <= tseq < 2 ^ 32 -> tseq <> 0 -> tsize < u64 (off + plen) ->
  0 <= do_sync < 2 ^ 31 - 2 ->
  ceph_osdc_new_request K tl kz me layout vino off plen opcode flags snapc
    do_sync tseq tsize mtime pool = Built req plen' ->
  exists primary,
    m_ops (r_request req) !! 0%nat = Some primary
    /\ op_op primary = u16 opcode
    /\ op_offset primary
       = u64 (ceph_calc_file_object_mapping K layout off plen).1.2
    /\ m_ops (r_request req) !! 1%nat
       = Some {| op_op := if opcode =? CEPH_OSD_OP_READ K
                          then CEPH_OSD_OP_MASKTRUNC K
                          else CEPH_OSD_OP_SETTRUNC K;
                 op_offset := 0; op_length := 0; op_payload_len := 0;
                 op_truncate_seq := tseq;
                 op_truncate_size :=
                   u64 (tsize - (off - op_offset primary)) |}
    /\ h_num_ops (m_head (r_request req)) = u16 (2 + do_sync).
Proof.
  intros Hseq Hnz Hpast Hsync Hb.
  apply new_request_built in Hb. cbv zeta in Hb.
  assert (Htr : do_trunc_of off plen tseq tsize = true).
  { unfold do_trunc_of, truthy. apply andb_true_iff. split.
    - apply negb_true_iff, Z.eqb_neq. assumption.
    - apply Z.ltb_lt. assumption. }
  rewrite Htr in Hb.
  destruct (ceph_calc_file_object_mapping K layout off plen)
    as [[[pl bno] objoff] objlen].
  destruct Hb as (_ & _ & _ & _ & Hn & _ & op0 & ops1 & Hop & Hoff & _
                  & Hops1 & Hops).
  assert (Hlen : (2 <= length (replicate (Z.to_nat
                     (num_op_of do_sync true)) zero_op))%nat).
  { rewrite length_replicate. unfold num_op_of, Z_of_bool. lia. }
  assert (H0 : ops1 !! 0%nat = Some op0).
  { subst ops1. rewrite list_lookup_insert_ne by lia.
    apply list_lookup_insert_eq. lia. }
  assert (H1 : ops1 !! 1%nat
               = Some (trunc_op K opcode off tseq tsize (op_offset op0))).
  { subst ops1. apply list_lookup_insert_eq. rewrite length_insert. lia. }
  exists op0. cbn [fst snd].
  assert (Hsame : forall i, (i < 2)%nat ->
            m_ops (r_request req) !! i = ops1 !! i).
  { intros i Hi. rewrite Hops. destruct (truthy do_sync); [|reflexivity].
    apply list_lookup_insert_ne. lia. }
  rewrite !Hsame by lia.
  split; [exact H0|]. split; [exact Hop|]. split; [exact Hoff|].
  split.
  - rewrite H1. unfold trunc_op. rewrite u16_opcode_trunc, u64_sub_u64.
    f_equal. f_equal. unfold u32. apply Z.mod_small. lia.
  - rewrite Hn. unfold num_op_of, Z_of_bool. f_equal. lia.
Qed.

End TruncateOp.

(** C2: a request built with a non-zero [truncate_seq] and with
    [off + plen] (as computed in 64 bits) past [truncate_size] carries,
    right after its primary op, one truncate op: [MASKTRUNC] when the
    primary op is a read and [SETTRUNC] when it is a write, with the given
    [truncate_seq] and with [truncate_size - (off - offset of the primary
    op)] in 64-bit arithmetic.  In particular a write at [off] = 2 MiB of
    4 KiB, mapped to object offset 2 MiB, with [truncate_seq] = 7 and
    [truncate_size] = 1 MiB, gets [SETTRUNC] with 7 and 1 MiB. *)
Theorem C2_truncate_op (K : externs) :
  abi_ok K ->
  (forall tl kz me layout vino off plen opcode flags snapc do_sync tseq tsize
          mtime pool req plen',
     0 <= tseq < 2 ^ 32 -> tseq <> 0 -> tsize < u64 (off + plen) ->
     0 <= do_sync < 2 ^ 31 - 2 ->
     ceph_osdc_new_request K tl kz me layout vino off plen opcode flags snapc
       do_sync tseq tsize mtime pool = Built req plen' ->
     exists primary trunc,
       m_ops (r_request req) !! 0%nat = Some primary
       /\ op_op primary = u16 opcode
       /\ m_ops (r_request req) !! 1%nat = Some trunc
       /\ (opcode = CEPH_OSD_OP_READ K ->
           op_op trunc = CEPH_OSD_OP_MASKTRUNC K)
       /\ (opcode = CEPH_OSD_OP_WRITE K ->
           op_op trunc = CEPH_OSD_OP_SETTRUNC K)
       /\ op_truncate_seq trunc = tseq
       /\ op_truncate_size trunc = u64 (tsize - (off - op_offset primary))
       /\ h_num_ops (m_head (r_request req)) = u16 (2 + do_sync))
  /\ (forall tl kz me layout vino flags snapc do_sync mtime pool req plen'
             pl bno objlen,
        0 <= do_sync < 2 ^ 31 - 2 ->
        ceph_calc_file_object_mapping K layout (2 * 2 ^ 20) 4096
        = (pl, bno, 2 * 2 ^ 20, objlen) ->
        ceph_osdc_new_request K tl kz me layout vino (2 * 2 ^ 20) 4096
          (CEPH_OSD_OP_WRITE K) flags snapc do_sync 7 (2 ^ 20) mtime pool
        = Built req plen' ->
        exists primary,
          m_ops (r_request req) !! 0%nat = Some primary
          /\ op_op primary = CEPH_OSD_OP_WRITE K
          /\ m_ops (r_request req) !! 1%nat
             = Some {| op_op := CEPH_OSD_OP_SETTRUNC K;
                       op_offset := 0; op_length := 0; op_payload_len := 0;
                       op_truncate_seq := 7;
                       op_truncate_size := 2 ^ 20 |}).
Proof.
  intros HK. split.
  - intros tl kz me layout vino off plen opcode flags snapc do_sync tseq
      tsize mtime pool req plen' Hseq Hnz Hpast Hsync Hb.
    destruct (new_request_trunc_op K HK _ _ _ _ _ _ _ _ _ _ _ _ _ _ _ _ _
                Hseq Hnz Hpast Hsync Hb)
      as (primary & H0 & Hop & _ & H1 & Hn).
    eexists primary, _. split; [exact H0|]. split; [exact Hop|].
    split; [exact H1|]. cbn. destruct HK.
    split; [intros ->; rewrite Z.eqb_refl; reflexivity|].
    split; [|auto].
    intros ->. destruct (Z.eqb_spec (CEPH_OSD_OP_WRITE K)
                           (CEPH_OSD_OP_READ K)); [congruence|reflexivity].
  - intros tl kz me layout vino flags snapc do_sync mtime pool req plen'
      pl bno objlen Hsync Hmap Hb.
    assert (Hpast : 2 ^ 20 < u64 (2 * 2 ^ 20 + 4096)) by (vm_compute; reflexivity).
    assert (Hseq : 0 <= 7 < 2 ^ 32) by lia.
    assert (Hnz : 7 <> 0) by lia.
    destruct (new_request_trunc_op K HK _ _ _ _ _ _ _ _ _ _ _ _ _ _ _ _ _
                Hseq Hnz Hpast Hsync Hb)
      as (primary & H0 & Hop & Hoff & H1 & _).
    rewrite Hmap in Hoff. cbn [fst snd] in Hoff.
    exists primary. split; [exact H0|]. destruct HK. split.
    + rewrite Hop. unfold u16. apply Z.mod_small. lia.
    + rewrite H1, Hoff.
      destruct (Z.eqb_spec (CEPH_OSD_OP_WRITE K) (CEPH_OSD_OP_READ K));
        [congruence|].
      reflexivity.
Qed.

(** C9: every successful build sizes the front of the message at build
    time as the head, [num_op] ops, 40 bytes for the oid
    ["%llx.%08llx"], the ticket and one [u64] per snapshot; the oid takes
    at most 33 of its 40 bytes, so the write pointer ends inside the front
    and the builder never reaches its [BUG_ON]. *)
Theorem C9_front_sized_at_build (K : externs) tl kz me layout vino off plen
    opcode flags snapc do_sync tseq tsize mtime pool :
  abi_ok K -> 0 <= tl < 2 ^ 32 -> snapc_ok snapc ->
  0 <= do_sync < 2 ^ 31 - 2 ->
  let num_op := num_op_of do_sync (do_trunc_of off plen tseq tsize) in
  let build :=
    ceph_osdc_new_request K tl kz me layout vino off plen opcode flags snapc
      do_sync tseq tsize mtime pool in
  build <> BuildBug
  /\ forall req plen', build = Built req plen' ->
       front_len (r_request req)
       = sizeof_request_head K + num_op * sizeof_osd_op K + 40 + tl
         + match snapc with Some sc => 8 * num_snaps sc | None => 0 end
       /\ length (m_ops (r_request req)) = Z.to_nat num_op
       /\ (exists bno, r_oid req = fmt_oid (ino vino) bno)
       /\ r_oid_len req = Z.of_nat (length (r_oid req))
       /\ r_oid_len req <= 33
       /\ body_end K num_op (r_oid_len req) tl snapc
          <= front_len (r_request req).
Proof.
  intros HK Htl Hs Hd num_op build. split.
  - apply new_request_no_bug; assumption.
  - intros req plen' Hb. subst build.
    apply new_request_built in Hb. cbv zeta in Hb. fold num_op in Hb.
    destruct (ceph_calc_file_object_mapping K layout off plen)
      as [[[pl bno] objoff] objlen].
    destruct Hb as (_ & Hoid & Hlen & Hfront & _ & Hend & op0 & ops1 & _ & _
                    & _ & Hops1 & Hops).
    split.
    { rewrite Hfront. apply msg_size_exact; try assumption.
      apply num_op_range. assumption. }
    split.
    { rewrite Hops, Hops1.
      destruct (truthy do_sync), (do_trunc_of off plen tseq tsize);
        rewrite ?length_insert, length_replicate; reflexivity. }
    split; [exists bno; exact Hoid|].
    split; [rewrite Hoid; exact Hlen|].
    split; [|exact Hend].
    rewrite Hlen. pose proof (fmt_oid_length (ino vino) bno). lia.
Qed.

Lemma C2_witness :
  match
    ceph_osdc_new_request sample 0 true None layout_4M vino_1234
      (2 * 2 ^ 20) 4096 (CEPH_OSD_OP_WRITE sample) 6 None 0 7 (2 ^ 20) 0 true
  with
  | Built req _ =>
      m_ops (r_request req) !! 1%nat
      = Some {| op_op := 8712; op_offset := 0; op_length := 0;
                op_payload_len := 0; op_truncate_seq := 7;
                op_truncate_size := 2 ^ 20 |}
  | _ => False
  end.
Proof.
  assert (Hsync : 0 <= 0 < 2 ^ 31 - 2) by lia.
  assert (Hmap : ceph_calc_file_object_mapping sample layout_4M
                   (2 * 2 ^ 20) 4096 = (4096, 0, 2 * 2 ^ 20, 4096))
    by reflexivity.
  destruct (ceph_osdc_new_request sample 0 true None layout_4M vino_1234
              (2 * 2 ^ 20) 4096 (CEPH_OSD_OP_WRITE sample) 6 None 0 7
              (2 ^ 20) 0 true) as [req plen'| |] eqn:Hb.
  - destruct (proj2 (C2_truncate_op sample sample_abi_ok)
                0 true None layout_4M vino_1234 6 None 0 0 true req plen'
                4096 0 4096 Hsync Hmap Hb) as (primary & _ & _ & H1).
    exact H1.
  - vm_compute in Hb. discriminate Hb.
  - vm_compute in Hb. discriminate Hb.
Defined.

Lemma C9_witness :
  (0 <= 16 < 2 ^ 32 /\ snapc_ok None /\ 0 <= 1 < 2 ^ 31 - 2)
  /\ ceph_osdc_new_request sample 16 true None layout_4M vino_1234 0 4096
       (CEPH_OSD_OP_READ sample) 1 None 1 0 0 0 false <> BuildBug.
Proof.
  assert (H1 : 0 <= 16 < 2 ^ 32) by lia.
  assert (H2 : 0 <= 1 < 2 ^ 31 - 2) by lia.
  split; [split; [exact H1 | split; [exact I | exact H2]] |].
  exact (proj1 (C9_front_sized_at_build sample 16 true None layout_4M
                  vino_1234 0 4096 (CEPH_OSD_OP_READ sample) 1 None 1 0 0 0
                  false sample_abi_ok H1 I H2)).
Defined.

(** ** Running the monad *)

Section Steps.
Context {A B : Type}.
Implicit Types (k : A -> M B) (s : ceph_osd_client).

Lemma bind_ret (a : A) k s : (mret a ≫= k) s = k a s.
Proof. reflexivity. Qed.

Lemma bind_gets (f : ceph_osd_client -> A) k s : (gets f ≫= k) s = k (f s) s.
Proof. reflexivity. Qed.

Lemma bind_oops (f : fault) k s : (oops f ≫= k) s = Oops f s.
Proof. reflexivity. Qed.

Lemma bind_assoc {C} (m : M C) (f : C -> M A) k s :
  ((m ≫= f) ≫= k) s = (m ≫= (fun x => f x ≫= k)) s.
Proof. unfold mbind, M_bind. destruct (m s); reflexivity. Qed.

End Steps.

Section UnitSteps.
Context {B : Type}.
Implicit Types (k : unit -> M B) (s : ceph_osd_client).

Lemma bind_modify f k s : (modify f ≫= k) s = k tt (f s).
Proof. reflexivity. Qed.

Lemma bind_emit e k s : (emit e ≫= k) s = k tt (set_trace (trace s ++ [e]) s).
Proof. reflexivity. Qed.

Lemma bind_update req f r k s :
  mem s !! req = Some r ->
  (update req f ≫= k) s = k tt (set_mem (<[req := f r]> (mem s)) s).
Proof. intros H. unfold mbind, M_bind, update. rewrite H. reflexivity. Qed.

Lemma bind_mutex_lock k s :
  request_mutex s = false ->
  (mutex_lock ≫= k) s = k tt (set_request_mutex true s).
Proof. intros H. unfold mbind, M_bind, mutex_lock. rewrite H. reflexivity. Qed.

Lemma bind_mutex_lock_held k s :
  request_mutex s = true -> (mutex_lock ≫= k) s = Blocked s.
Proof. intros H. unfold mbind, M_bind, mutex_lock. rewrite H. reflexivity. Qed.

Lemma bind_mutex_unlock k s :
  (mutex_unlock ≫= k) s = k tt (set_request_mutex false s).
Proof. reflexivity. Qed.

End UnitSteps.

Lemma bind_deref {B} req r (k : ceph_osd_request -> M B) s :
  mem s !! req = Some r -> (deref req ≫= k) s = k r s.
Proof. intros H. unfold mbind, M_bind, deref. rewrite H. reflexivity. Qed.

Lemma bind_deref_osd {B} o osd (k : ceph_osd -> M B) s :
  osds s !! o = Some osd -> (deref_osd o ≫= k) s = k osd s.
Proof. intros H. unfold mbind, M_bind, deref_osd. rewrite H. reflexivity. Qed.

Lemma bind_ok {A B} (m : M A) (k : A -> M B) s a s' :
  m s = Ok a s' -> (m ≫= k) s = k a s'.
Proof. intros H. unfold mbind, M_bind. rewrite H. reflexivity. Qed.

Lemma bind_fault {A B} (m : M A) (k : A -> M B) s f s' :
  m s = Oops f s' -> (m ≫= k) s = Oops f s'.
Proof. intros H. unfold mbind, M_bind. rewrite H. reflexivity. Qed.

Lemma bind_insert_osd {B} new (k : unit -> M B) s :
  osds s !! o_osd new = None ->
  (__insert_osd new ≫= k) s
  = k tt (set_osds (<[o_osd new := new]> (osds s)) s).
Proof. intros H. unfold mbind, M_bind, __insert_osd. rewrite H. reflexivity. Qed.

Arguments u16 : simpl never.
Arguments u32 : simpl never.
Arguments u64 : simpl never.
Arguments s32 : simpl never.
Arguments size_t : simpl never.
Arguments flag_set : simpl never.

(** Projections of an updated client. *)
Ltac proj_simpl :=
  cbn [mem osds trace requests osdmap last_tid num_requests timeout_tid
       request_mutex signed_ticket_len osd_timeout monmap_fsid jiffies
       set_mem set_osds set_trace set_requests set_osdmap set_last_tid
       set_num_requests set_timeout_tid set_request_mutex set_jiffies
       o_osd o_requests o_con init_osd].

(** A lookup in a map after some insertions. *)
Ltac map_lookup :=
  proj_simpl;
  first
    [ eassumption
    | rewrite lookup_insert_eq; reflexivity
    | rewrite lookup_insert_ne by congruence; map_lookup
    | rewrite lookup_delete_ne by congruence; map_lookup ].

(** One step of a computation in [M] applied to a state. *)
Ltac mstep :=
  first
    [ rewrite bind_assoc
    | rewrite bind_ret
    | rewrite bind_gets
    | rewrite bind_modify
    | rewrite bind_emit
    | rewrite bind_mutex_unlock
    | erewrite bind_update by map_lookup
    | erewrite bind_deref by map_lookup
    | erewrite bind_deref_osd by map_lookup
    | erewrite bind_insert_osd by map_lookup
    | erewrite bind_mutex_lock
        by (proj_simpl; first [eassumption | reflexivity]) ];
  proj_simpl.

Ltac mrun := repeat mstep.

(** ** The dispatcher *)

(** When the placement group has no primary (and memory is available),
    [map_osds] opens a session for ordinal -1 and [send_request] hands
    the message to it. *)
Lemma send_request_no_primary K a req s r m pgid :
  abi_ok K ->
  mem s !! req = Some r -> r_osd r = None -> osdmap s = Some m ->
  ceph_calc_object_layout K (r_oid r) (r_file_layout r) (Some m) = (0, pgid) ->
  ceph_calc_pg_primary K (Some m) pgid = -1 ->
  osds s !! (-1) = None ->
  kmalloc_osd a = true -> kzalloc_con a = true ->
  exists s',
    send_request K a req s = Ok 0 s'
    /\ trace s' = trace s ++ [ev_con_send (-1) req]
    /\ (r_osd <$> mem s' !! req) = Some (Some (-1))
    /\ osds s' !! (-1)
       = Some {| o_osd := -1; o_requests := [req]; o_con := Some (-1) |}.
Proof.
  intros HK Hm Ho Hom Hlay Hprim Hreg Hk1 Hk2.
  unfold send_request, map_osds.
  mrun. rewrite Hom, Hlay, Hprim, Ho. cbn [negb Z.eqb].
  mrun. unfold __lookup_osd. mrun. rewrite Hreg. mrun. rewrite Hk1. mrun.
  unfold list_add_r_osd_item. mrun.
  destruct (Z.eqb_spec 1 (- ENOMEM K)) as [He|_].
  { destruct HK. lia. }
  mrun. cbn [r_osd set_r_osd]. rewrite Hom. mrun. rewrite Hk2. mrun.
  eexists. split; [reflexivity|]. proj_simpl.
  split; [reflexivity|]. split.
  - rewrite lookup_insert_eq. reflexivity.
  - rewrite lookup_insert_eq. reflexivity.
Qed.

(** C3 (the code departs from it): for a registered request whose
    placement group has no primary (ordinal -1), [send_request] does not
    leave the request unrouted and does not ask the monitor for a map: it
    returns 0 having attached the request to a new session for ordinal -1
    and sent its message there. *)
Theorem C3_no_primary_is_sent :
  let s := scenario_no_primary in
  let o := send_request sample all_ok 1%nat s in
  ceph_calc_pg_primary sample (osdmap s) 0 = -1
  /\ (r_osd <$> mem s !! 1%nat) = Some None
  /\ returned o = Some 0
  /\ trace (final o) = trace s ++ [ev_con_send (-1) 1%nat]
  /\ (r_osd <$> mem (final o) !! 1%nat) = Some (Some (-1))
  /\ (o_requests <$> osds (final o) !! (-1)) = Some [1%nat]
  /\ __lookup_request (tid_of (final o)) (requests (final o)) 1
     = Some 1%nat.
Proof. vm_compute. repeat split; reflexivity. Qed.

(** Unregistering a request that is not routed dereferences its NULL
    [r_osd]. *)
Lemma unregister_unrouted_oops K req s r :
  mem s !! req = Some r -> r_osd r = None ->
  faulted (__unregister_request K req s) = Some null_deref.
Proof.
  intros Hm Ho. unfold __unregister_request.
  mrun. rewrite Ho. reflexivity.
Qed.

(** C10 (the code departs from it): a request can reach
    [__unregister_request] with a NULL [r_osd].  When [kmalloc] fails in
    [map_osds], [send_request] returns [-ENOMEM] with the request
    unrouted, and [ceph_osdc_start_request] (without [nofail]) then
    unregisters it: the kernel dereferences NULL.  No message was sent. *)
Theorem C10_unregister_unrouted :
  let s := scenario_fresh_read in
  let o := ceph_osdc_start_request sample no_memory 1%nat false s in
  returned (send_request sample no_memory 1%nat
              (after (register_request sample 1%nat) s))
  = Some (- ENOMEM sample)
  /\ faulted o = Some null_deref
  /\ (r_osd <$> mem (final o) !! 1%nat) = Some None
  /\ trace (final o)
     = [ev_dout_register_request 1%nat 1; ev_schedule_delayed_work 7500]
  /\ forall K req s r,
       mem s !! req = Some r -> r_osd r = None ->
       faulted (__unregister_request K req s) = Some null_deref.
Proof.
  split; [vm_compute; reflexivity|].
  split; [vm_compute; reflexivity|].
  split; [vm_compute; reflexivity|].
  split; [vm_compute; reflexivity|].
  apply unregister_unrouted_oops.
Qed.

(** ** The reply handler and [sync]: two runs *)

(** C4 (the code departs from it): a second ack without [ONDISK] for a
    write that already has its reply changes neither the result nor the
    registration and signals nothing, but the handler returns through
    [done] with [request_mutex] still locked: the next reply, and the
    next request to be started, sleep on the mutex for ever. *)
Theorem C4_duplicate_ack_keeps_mutex :
  let s := scenario_write_acked in
  let o := ceph_osdc_handle_reply sample write_ack s in
  let s' := final o in
  (r_got_reply <$> mem s !! 1%nat) = Some true
  /\ request_mutex s = false
  /\ returned o = Some tt
  /\ trace s' = trace s
  /\ (r_result <$> mem s' !! 1%nat) = (r_result <$> mem s !! 1%nat)
  /\ __lookup_request (tid_of s') (requests s') 1 = Some 1%nat
  /\ request_mutex s' = true
  /\ ceph_osdc_handle_reply sample write_ack s' = Blocked s'
  /\ is_blocked (ceph_osdc_start_request sample all_ok 2%nat false
                   (place 2%nat (sample_read 0) s')) = true.
Proof. vm_compute. repeat split; reflexivity. Qed.

(** C7 (the code departs from it): reads at tid 1 and 2 and a write at
    tid 3 are in flight and the read at tid 2 completes, which leaves the
    index with tid 3 at the root and tid 1 as its left child.  [sync]
    skips the read at tid 1, looks for the lowest tid >= 2, is told there
    is none, and returns without waiting for the write at tid 3. *)
Theorem C7_sync_misses_a_write :
  let s := scenario_gap in
  let o := ceph_osdc_sync sample quiet 10 s in
  requests s
  = rb_node false (rb_node false rb_nil 1%nat rb_nil) 3%nat rb_nil
  /\ last_tid s = 3
  /\ (r_tid <$> mem s !! 3%nat) = Some 3
  /\ ((fun r => flag_set (r_flags r) (CEPH_OSD_FLAG_WRITE sample))
      <$> mem s !! 3%nat) = Some true
  /\ __lookup_request (tid_of s) (requests s) 3 = Some 3%nat
  /\ __lookup_request_ge (tid_of s) (requests s) 2 = None
  /\ returned o = Some tt
  /\ trace (final o) = trace s.
Proof. vm_compute. repeat split; reflexivity. Qed.

(** ** The request index *)

Section IndexFacts.
Context (key : ptr -> Z).

Lemma lookup_request_Some t tid p :
  __lookup_request key t tid = Some p -> p ∈ inorder t /\ key p = tid.
Proof.
  induction t as [|c l IHl q r IHr]; [discriminate|]. cbn.
  destruct (Z.ltb_spec tid (key q)).
  - intros H'. destruct (IHl H'). split; [|assumption]. set_solver.
  - destruct (Z.ltb_spec (key q) tid).
    + intros H'. destruct (IHr H'). split; [|assumption]. set_solver.
    + intros [= <-]. split; [set_solver|lia].
Qed.


Lemma ascending_app l1 l2 :
  ascending key (l1 ++ l2) <->
  (forall p q, p ∈ l1 -> q ∈ l2 -> key p < key q)
  /\ ascending key l1 /\ ascending key l2.
Proof. apply StronglySorted_app. Qed.

Lemma ascending_cons x l :
  ascending key (x :: l) <-> Forall (fun q => key x < key q) l /\ ascending key l.
Proof. apply StronglySorted_cons. Qed.

Lemma lookup_request_sorted t p :
  ascending key (inorder t) -> p ∈ inorder t ->
  __lookup_request key t (key p) = Some p.
Proof.
  induction t as [|c l IHl q r IHr]; cbn; [set_solver|].
  intros Hs Hin. apply ascending_app in Hs as (Hlr & Hl & Hr).
  apply ascending_cons in Hr as [Hq Hr]. rewrite Forall_forall in Hq.
  apply elem_of_app in Hin as [Hin|Hin].
  - assert (key p < key q) by (apply Hlr; set_solver).
    destruct (Z.ltb_spec (key p) (key q)); [auto|lia].
  - apply elem_of_cons in Hin as [->|Hin].
    + rewrite Z.ltb_irrefl. reflexivity.
    + assert (key q < key p) by auto.
      destruct (Z.ltb_spec (key p) (key q)); [lia|].
      destruct (Z.ltb_spec (key q) (key p)); [auto|lia].
Qed.

Lemma ascending_NoDup l : ascending key l -> NoDup l.
Proof.
  induction l as [|x l IH]; [constructor|].
  intros [Hx Hl]%ascending_cons. constructor; [|auto].
  intros Hin. rewrite Forall_forall in Hx. specialize (Hx _ Hin). lia.
Qed.

Lemma ascending_filter (P : ptr -> Prop) `{!forall x, Decision (P x)} l :
  ascending key l -> ascending key (filter P l).
Proof.
  induction l as [|x l IH]; [intros; constructor|].
  intros [Hx Hl]%ascending_cons. rewrite filter_cons.
  destruct (decide (P x)); [|auto].
  apply ascending_cons. split; [|auto].
  rewrite Forall_forall in *. intros q [_ Hq]%list_elem_of_filter. auto.
Qed.

Lemma ascending_snoc l x :
  ascending key l -> (forall p, p ∈ l -> key p < key x) ->
  ascending key (l ++ [x]).
Proof.
  intros Hl Hx. apply ascending_app. split; [|split; [assumption|]].
  - intros p q Hp Hq. apply list_elem_of_singleton in Hq as ->. auto.
  - apply ascending_cons. split; constructor.
Qed.

Lemma ascending_inj l p q :
  ascending key l -> p ∈ l -> q ∈ l -> key p = key q -> p = q.
Proof.
  induction l as [|x l IH]; [set_solver|].
  intros [Hx Hl]%ascending_cons. rewrite Forall_forall in Hx.
  intros [->|Hp]%elem_of_cons [->|Hq]%elem_of_cons Hk; auto.
  - specialize (Hx _ Hq). lia.
  - specialize (Hx _ Hp). lia.
Qed.

Lemma rb_link_node_above new t :
  (forall p, p ∈ inorder t -> key p < key new) ->
  exists t', rb_link_node key new t = Some t'
             /\ inorder t' = inorder t ++ [new].
Proof.
  induction t as [|c l IHl q r IHr]; intros Hlt.
  - eexists. split; reflexivity.
  - cbn. assert (key q < key new) by (apply Hlt; set_solver).
    destruct (Z.ltb_spec (key new) (key q)); [lia|].
    destruct (Z.ltb_spec (key q) (key new)); [|lia].
    destruct IHr as (r' & -> & Hr'); [intros; apply Hlt; set_solver|].
    eexists. split; [reflexivity|]. cbn. rewrite Hr', <- app_assoc.
    reflexivity.
Qed.

Lemma rb_link_node_inorder new t t' :
  rb_link_node key new t = Some t' -> inorder t' ≡ₚ new :: inorder t.
Proof.
  revert t'. induction t as [|c l IHl q r IHr]; intros t'; cbn.
  - intros [= <-]. reflexivity.
  - destruct (key new <? key q).
    + destruct (rb_link_node key new l) as [l'|]; [|discriminate].
      intros [= <-]. cbn. rewrite (IHl l' eq_refl). reflexivity.
    + destruct (key q <? key new); [|discriminate].
      destruct (rb_link_node key new r) as [r'|]; [|discriminate].
      intros [= <-]. cbn. rewrite (IHr r' eq_refl).
      transitivity (inorder l ++ new :: q :: inorder r).
      * apply Permutation_app_head, perm_swap.
      * symmetry. apply Permutation_middle.
Qed.

End IndexFacts.

Lemma rb_first_inorder t : rb_first t = head (inorder t).
Proof.
  induction t as [|c l IHl q r IHr]; [reflexivity|]. cbn.
  destruct l as [|c' l1 q' l2]; [reflexivity|].
  rewrite IHl. cbn. destruct (inorder l1); reflexivity.
Qed.

Section KeyChange.
Context (key key' : ptr -> Z).

Lemma lookup_request_ext t tid :
  (forall p, p ∈ inorder t -> key p = key' p) ->
  __lookup_request key t tid = __lookup_request key' t tid.
Proof.
  induction t as [|c l IHl q r IHr]; intros H; [reflexivity|]. cbn.
  rewrite <- (H q) by set_solver.
  rewrite IHl, IHr by (intros; apply H; set_solver). reflexivity.
Qed.

Lemma lookup_request_ge_ext t tid :
  (forall p, p ∈ inorder t -> key p = key' p) ->
  __lookup_request_ge key t tid = __lookup_request_ge key' t tid.
Proof.
  induction t as [|c l IHl q r IHr]; intros H; [reflexivity|]. cbn.
  rewrite <- (H q) by set_solver.
  rewrite IHl, IHr by (intros; apply H; set_solver). reflexivity.
Qed.

Lemma rb_link_node_ext new t :
  (forall p, p ∈ new :: inorder t -> key p = key' p) ->
  rb_link_node key new t = rb_link_node key' new t.
Proof.
  induction t as [|c l IHl q r IHr]; intros H; [reflexivity|]. cbn.
  rewrite <- (H q), <- (H new) by set_solver.
  rewrite IHl, IHr by (intros; apply H; set_solver). reflexivity.
Qed.

Lemma ascending_ext l :
  (forall p, p ∈ l -> key p = key' p) ->
  ascending key l -> ascending key' l.
Proof.
  induction l as [|x l IH]; [intros; constructor|].
  intros H [Hx Hl]%ascending_cons. apply ascending_cons. split.
  - rewrite Forall_forall in *. intros q Hq.
    rewrite <- (H x), <- (H q) by set_solver. auto.
  - apply IH; [|assumption]. intros; apply H; set_solver.
Qed.

End KeyChange.

(** ** Invariants along a computation *)

Section Preserves.
Context (I : ceph_osd_client -> Prop).

Lemma preserves_bind {A B} (m : M A) (k : A -> M B) :
  preserves I m -> (forall a, preserves I (k a)) -> preserves I (m ≫= k).
Proof.
  intros Hm Hk s Hs. specialize (Hm s Hs).
  unfold mbind, M_bind. destruct (m s) as [a s'| | |]; try exact Hm.
  apply Hk. exact Hm.
Qed.

Lemma preserves_ret {A} (a : A) : preserves I (mret a).
Proof. intros s Hs. exact Hs. Qed.

Lemma preserves_gets {A} (f : ceph_osd_client -> A) : preserves I (gets f).
Proof. intros s Hs. exact Hs. Qed.

Lemma preserves_oops {A} f : preserves I (oops f : M A).
Proof. intros s Hs. exact Hs. Qed.

Lemma preserves_deref req : preserves I (deref req).
Proof. intros s Hs. unfold deref. destruct (mem s !! req); exact Hs. Qed.

Lemma preserves_deref_osd o : preserves I (deref_osd o).
Proof. intros s Hs. unfold deref_osd. destruct (osds s !! o); exact Hs. Qed.

Lemma preserves_modify f :
  (forall s, I s -> I (f s)) -> preserves I (modify f).
Proof. intros Hf s Hs. apply Hf, Hs. Qed.

Lemma preserves_emit e :
  (forall s, I s -> I (set_trace (trace s ++ [e]) s)) -> preserves I (emit e).
Proof. intros Hf s Hs. apply Hf, Hs. Qed.

Lemma preserves_update req f :
  (forall s r, I s -> mem s !! req = Some r ->
     I (set_mem (<[req := f r]> (mem s)) s)) ->
  preserves I (update req f).
Proof.
  intros Hf s Hs. unfold update.
  destruct (mem s !! req) as [r|] eqn:Hr; [|exact Hs]. cbn. eauto.
Qed.

Lemma preserves_mutex_lock :
  (forall b s, I s -> I (set_request_mutex b s)) -> preserves I mutex_lock.
Proof.
  intros Hf s Hs. unfold mutex_lock. destruct (request_mutex s); cbn; auto.
Qed.

Lemma preserves_mutex_unlock :
  (forall b s, I s -> I (set_request_mutex b s)) -> preserves I mutex_unlock.
Proof. intros Hf s Hs. apply Hf, Hs. Qed.

Lemma preserves_insert_osd new :
  (forall s o, I s -> I (set_osds o s)) -> preserves I (__insert_osd new).
Proof.
  intros Hf s Hs. unfold __insert_osd.
  destruct (osds s !! o_osd new); cbn; auto.
Qed.

(** A computation that returns in [I] or stops in [I], followed by one
    that keeps [I]. *)
Lemma wp_then_preserves {A B} (m : M A) (k : A -> M B) s :
  wp m (fun _ s' => I s') I s -> (forall a, preserves I (k a)) ->
  I (final ((m ≫= k) s)).
Proof.
  unfold wp, mbind, M_bind. intros Hm Hk.
  destruct (m s) as [a s'| | |]; try exact Hm. apply Hk, Hm.
Qed.

End Preserves.

(** ** The tids along a run *)

Lemma registered_app l1 l2 :
  registered (l1 ++ l2) = registered l1 ++ registered l2.
Proof.
  induction l1 as [|e l1 IH]; [reflexivity|].
  destruct e; cbn; rewrite IH; reflexivity.
Qed.

(** [tid_inv] only reads the index, the tids in memory, the registrations
    in the log and the counter. *)
Lemma tid_inv_ext s s' :
  requests s' = requests s ->
  (forall p, tid_of s' p = tid_of s p) ->
  registered (trace s') = registered (trace s) ->
  last_tid s' = last_tid s ->
  tid_inv s -> tid_inv s'.
Proof.
  intros Hr Ht Hl Hc [H1 H2 H3 H4 H5]. split.
  - rewrite Hr. eapply ascending_ext; [|exact H1]. intros; symmetry; apply Ht.
  - rewrite Hr. intros p Hp. rewrite Ht, Hc. auto.
  - rewrite Hl. exact H3.
  - rewrite Hl. intros p t Hp. rewrite Ht, Hc. auto.
  - rewrite Hc. exact H5.
Qed.

Lemma tid_of_update s req r r' p :
  mem s !! req = Some r -> r_tid r' = r_tid r ->
  tid_of (set_mem (<[req := r']> (mem s)) s) p = tid_of s p.
Proof.
  intros Hr Hf. unfold tid_of, tid_in. cbn.
  destruct (decide (p = req)) as [->|Hne].
  - rewrite lookup_insert_eq, Hr. exact Hf.
  - rewrite lookup_insert_ne by congruence. reflexivity.
Qed.

Lemma tid_inv_update s req r r' :
  mem s !! req = Some r -> r_tid r' = r_tid r ->
  tid_inv s -> tid_inv (set_mem (<[req := r']> (mem s)) s).
Proof.
  intros Hr Hf. apply tid_inv_ext; try reflexivity.
  intros p. eapply tid_of_update; eassumption.
Qed.

Lemma tid_inv_emit s e :
  registered [e] = [] ->
  tid_inv s -> tid_inv (set_trace (trace s ++ [e]) s).
Proof.
  intros He. apply tid_inv_ext; try reflexivity.
  cbn. rewrite registered_app, He, app_nil_r. reflexivity.
Qed.

Lemma tid_inv_erase K s req :
  rbtree_ok K -> tid_inv s ->
  tid_inv (set_requests (rb_erase K req (requests s)) s).
Proof.
  intros HK [H1 H2 H3 H4 H5].
  assert (Hin : inorder (rb_erase K req (requests s))
                = filter (fun q => q <> req) (inorder (requests s))).
  { apply (rb_erase_inorder _ HK). eapply ascending_NoDup, H1. }
  split.
  - change (ascending (tid_of s) (inorder (rb_erase K req (requests s)))).
    rewrite Hin. apply ascending_filter, H1.
  - change (forall p, p ∈ inorder (rb_erase K req (requests s)) ->
              1 <= tid_of s p <= last_tid s).
    rewrite Hin. intros p [_ Hp]%list_elem_of_filter. auto.
  - exact H3.
  - exact H4.
  - exact H5.
Qed.

Lemma tid_inv_fields s s' :
  requests s' = requests s -> mem s' = mem s -> trace s' = trace s ->
  last_tid s' = last_tid s -> tid_inv s -> tid_inv s'.
Proof.
  intros Hr Hm Ht Hl. apply tid_inv_ext; try assumption.
  - intros p. unfold tid_of, tid_in. rewrite Hm. reflexivity.
  - rewrite Ht. reflexivity.
Qed.

(** One step of a proof that a computation keeps [tid_inv]. *)
Ltac tid_side :=
  first
    [ assumption
    | eapply tid_inv_update; [eassumption | reflexivity | assumption]
    | apply tid_inv_emit; [reflexivity | assumption]
    | match goal with
      | H : tid_inv ?s |- _ =>
          apply (tid_inv_fields s); [reflexivity .. | exact H]
      end ].

Ltac pres_side := cbv beta; tid_side.

Ltac pres_step :=
  lazymatch goal with
  | |- preserves _ (_ ≫= _) => apply preserves_bind; [|intros]
  | |- preserves _ (mret _) => apply preserves_ret
  | |- preserves _ (gets _) => apply preserves_gets
  | |- preserves _ (oops _) => apply preserves_oops
  | |- preserves _ (deref _) => apply preserves_deref
  | |- preserves _ (deref_osd _) => apply preserves_deref_osd
  | |- preserves _ (modify _) => apply preserves_modify; intros; pres_side
  | |- preserves _ (emit _) => apply preserves_emit; intros; pres_side
  | |- preserves _ (update _ _) => apply preserves_update; intros; pres_side
  | |- preserves _ mutex_lock =>
      apply preserves_mutex_lock; intros; pres_side
  | |- preserves _ mutex_unlock =>
      apply preserves_mutex_unlock; intros; pres_side
  | |- preserves _ (__insert_osd _) =>
      apply preserves_insert_osd; intros; pres_side
  | |- preserves _ (if ?b then _ else _) => destruct b
  | |- preserves _ (match ?x with _ => _ end) => destruct x
  end.

Ltac pres := repeat pres_step.

Lemma get_request_tid_inv req : preserves tid_inv (ceph_osdc_get_request req).
Proof. unfold ceph_osdc_get_request. pres. Qed.

Lemma put_request_tid_inv req : preserves tid_inv (ceph_osdc_put_request req).
Proof. unfold ceph_osdc_put_request. pres. Qed.

Lemma list_del_init_tid_inv req o :
  preserves tid_inv (list_del_init_r_osd_item req o).
Proof. unfold list_del_init_r_osd_item, destroy_osd. pres. Qed.

Lemma list_add_tid_inv req o : preserves tid_inv (list_add_r_osd_item req o).
Proof. unfold list_add_r_osd_item. pres. Qed.

Section RunInvariant.
Context (K : externs) (HK : rbtree_ok K).

Lemma unregister_request_tid_inv req :
  preserves tid_inv (__unregister_request K req).
Proof.
  unfold __unregister_request.
  apply preserves_bind.
  { apply preserves_modify. intros s Hs. apply tid_inv_erase; assumption. }
  intros _. pres; first [apply list_del_init_tid_inv | apply put_request_tid_inv].
Qed.

Lemma map_osds_tid_inv a req : preserves tid_inv (map_osds K a req).
Proof.
  unfold map_osds, __lookup_osd.
  pres; first [apply list_del_init_tid_inv | apply list_add_tid_inv].
Qed.

Lemma send_request_tid_inv a req : preserves tid_inv (send_request K a req).
Proof.
  unfold send_request.
  apply preserves_bind; [apply map_osds_tid_inv|]. intros err. pres.
Qed.

Lemma handle_reply_tid_inv msg :
  preserves tid_inv (ceph_osdc_handle_reply K msg).
Proof.
  unfold ceph_osdc_handle_reply.
  pres; first [apply get_request_tid_inv | apply put_request_tid_inv
              | apply unregister_request_tid_inv].
Qed.

Lemma abort_request_tid_inv req :
  preserves tid_inv (ceph_osdc_abort_request req).
Proof. unfold ceph_osdc_abort_request. pres. Qed.

Lemma sync_loop_tid_inv w fuel last next :
  (forall req s, tid_inv s -> tid_inv (w req s)) ->
  preserves tid_inv (sync_loop K w fuel last next).
Proof.
  intros Hw. revert next. induction fuel as [|fuel IH]; intros next.
  - intros s Hs. exact Hs.
  - cbn [sync_loop].
    pres; first [apply IH | apply get_request_tid_inv
                | apply put_request_tid_inv | idtac].
    apply preserves_modify. intros. apply Hw. assumption.
Qed.

Lemma sync_tid_inv w fuel :
  (forall req s, tid_inv s -> tid_inv (w req s)) ->
  preserves tid_inv (ceph_osdc_sync K w fuel).
Proof.
  intros Hw. unfold ceph_osdc_sync. pres. apply sync_loop_tid_inv, Hw.
Qed.

End RunInvariant.

Lemma elem_of_registered_fmap (p : ptr) (t : Z) l :
  (p, t) ∈ l -> t ∈ l.*2.
Proof. intros H. apply list_elem_of_fmap. exists (p, t). auto. Qed.

(** Registering [req] with the next tid. *)
Lemma tid_inv_register s s' req tid :
  tid_inv s ->
  req ∉ inorder (requests s) ->
  (forall t, (req, t) ∉ registered (trace s)) ->
  tid = last_tid s + 1 -> tid < 2 ^ 64 ->
  inorder (requests s') = inorder (requests s) ++ [req] ->
  (forall p, p <> req -> tid_of s' p = tid_of s p) ->
  tid_of s' req = tid ->
  registered (trace s') = registered (trace s) ++ [(req, tid)] ->
  last_tid s' = tid ->
  tid_inv s'.
Proof.
  intros [H1 H2 H3 H4 H5] Hni Hnl -> Hlt Hin Hother Hreq Hlog Hlast.
  assert (Hidx : forall p, p ∈ inorder (requests s) -> tid_of s' p = tid_of s p).
  { intros p Hp. apply Hother. intros ->. contradiction. }
  split.
  - rewrite Hin. apply ascending_snoc.
    + eapply ascending_ext; [|exact H1]. intros p Hp. symmetry. auto.
    + intros p Hp. rewrite Hidx, Hreq by assumption. specialize (H2 p Hp). lia.
  - rewrite Hin, Hlast. intros p [Hp|Hp]%elem_of_app.
    + rewrite Hidx by assumption. specialize (H2 p Hp). lia.
    + apply list_elem_of_singleton in Hp as ->. rewrite Hreq. lia.
  - rewrite Hlog, fmap_app. apply StronglySorted_app. split; [|split].
    + intros t1 t2 Ht1 Ht2. cbn in Ht2.
      apply list_elem_of_singleton in Ht2 as ->.
      apply list_elem_of_fmap in Ht1 as ([p t] & -> & Hpt). cbn.
      destruct (H4 p t Hpt) as [_ ?]. lia.
    + exact H3.
    + cbn. repeat constructor.
  - rewrite Hlog, Hlast. intros p t [Hp|Hp]%elem_of_app.
    + destruct (H4 p t Hp) as [Ht ?]. split; [|lia].
      rewrite Hother; [assumption|]. intros ->. exact (Hnl t Hp).
    + apply list_elem_of_singleton in Hp as [= -> ->]. split; [assumption|lia].
  - rewrite Hlast. lia.
Qed.

Lemma place_tid_inv s req r :
  tid_inv s -> mem s !! req = None ->
  tid_inv (place req r s)
  /\ (req ∉ inorder (requests s))
  /\ (forall t, (req, t) ∉ registered (trace s)).
Proof.
  intros Hs Hm.
  assert (H0 : tid_of s req = 0) by (unfold tid_of, tid_in; rewrite Hm; reflexivity).
  assert (Hni : req ∉ inorder (requests s)).
  { intros Hin. pose proof (inv_index s Hs req Hin). lia. }
  assert (Hnl : forall t, (req, t) ∉ registered (trace s)).
  { intros t Hin. destruct (inv_log s Hs req t Hin). lia. }
  split; [|split; assumption].
  assert (Hother : forall p, p <> req -> tid_of (place req r s) p = tid_of s p).
  { intros p Hp. unfold tid_of, tid_in, place. cbn.
    rewrite lookup_insert_ne by congruence. reflexivity. }
  destruct Hs as [H1 H2 H3 H4 H5]. split.
  - change (ascending (tid_of (place req r s)) (inorder (requests s))).
    eapply ascending_ext; [|exact H1]. intros p Hp. symmetry.
    apply Hother. intros ->. contradiction.
  - change (forall p, p ∈ inorder (requests s) ->
              1 <= tid_of (place req r s) p <= last_tid s).
    intros p Hp. rewrite Hother; [auto|]. intros ->. contradiction.
  - exact H3.
  - change (forall p t, (p, t) ∈ registered (trace s) ->
              tid_of (place req r s) p = t /\ 1 <= t <= last_tid s).
    intros p t Hp. rewrite Hother; [auto|]. intros ->. exact (Hnl t Hp).
  - exact H5.
Qed.

Lemma bind_insert_request {B} K new (k : unit -> M B) s t :
  rb_link_node (tid_of s) new (requests s) = Some t ->
  (__insert_request K new ≫= k) s
  = k tt (set_requests (rb_insert_color K new t) s).
Proof.
  intros H. unfold mbind, M_bind, __insert_request. rewrite H. reflexivity.
Qed.

Section Register.
Context (K : externs) (HK : rbtree_ok K).

Lemma register_request_tid_inv s req r :
  tid_inv s -> mem s !! req = Some r ->
  req ∉ inorder (requests s) ->
  (forall t, (req, t) ∉ registered (trace s)) ->
  last_tid s < 2 ^ 64 - 1 ->
  wp (register_request K req) (fun _ s' => tid_inv s') tid_inv s.
Proof.
  intros Hs Hm Hni Hnl Hlt. unfold wp, register_request.
  destruct (request_mutex s) eqn:Hmx.
  { rewrite bind_mutex_lock_held by assumption. exact Hs. }
  pose proof (inv_last s Hs) as Hl.
  assert (Htid : u64 (last_tid s + 1) = last_tid s + 1)
    by (apply u64_small; lia).
  mrun. rewrite Htid.
  match goal with
  | |- context [(__insert_request K req ≫= _) ?st] =>
      destruct (rb_link_node_above (tid_of st) req (requests st))
        as (t' & Hlink & Hin)
  end.
  { intros p Hp. unfold tid_of, tid_in. proj_simpl.
    rewrite lookup_insert_eq.
    rewrite lookup_insert_ne by (intros ->; contradiction).
    pose proof (inv_index s Hs p Hp) as Hp'. unfold tid_of, tid_in in Hp'.
    cbn. lia. }
  erewrite bind_insert_request by exact Hlink.
  unfold ceph_osdc_get_request. mrun.
  cbn [requests set_trace set_mem set_last_tid set_request_mutex] in Hin.
  match goal with
  | |- context [if ?c then _ else _] => destruct c
  end; mrun; unfold mutex_unlock, modify; cbv beta iota;
    (eapply (tid_inv_register s _ req (last_tid s + 1));
     [ exact Hs | exact Hni | exact Hnl | reflexivity | lia
     | proj_simpl; rewrite (rb_insert_color_inorder _ HK); exact Hin
     | intros p Hp; unfold tid_of, tid_in; proj_simpl;
       rewrite !lookup_insert_ne by congruence; reflexivity
     | unfold tid_of, tid_in; proj_simpl; rewrite lookup_insert_eq; reflexivity
     | proj_simpl; rewrite !registered_app; cbn [registered];
       rewrite ?app_nil_r; reflexivity
     | reflexivity ]).
Qed.

(** Starting a request allocated at an unused address. *)
Lemma start_request_tid_inv s req r a nofail :
  tid_inv s -> mem s !! req = None -> last_tid s < 2 ^ 64 - 1 ->
  tid_inv (after (ceph_osdc_start_request K a req nofail) (place req r s)).
Proof.
  intros Hs Hm Hlt.
  destruct (place_tid_inv s req r Hs Hm) as (Hp & Hni & Hnl).
  unfold after, ceph_osdc_start_request.
  assert (Hmp : mem (place req r s) !! req = Some r)
    by (unfold place; proj_simpl; apply lookup_insert_eq).
  erewrite bind_update by exact Hmp.
  match goal with
  | |- tid_inv (final ((_ ≫= _) ?st)) => set (s2 := st)
  end.
  assert (Hs2 : tid_inv s2).
  { subst s2. eapply tid_inv_update; [exact Hmp|reflexivity|exact Hp]. }
  apply wp_then_preserves.
  - eapply register_request_tid_inv; try eassumption.
    subst s2. proj_simpl. apply lookup_insert_eq.
  - intros _. pres;
      first [apply send_request_tid_inv | apply unregister_request_tid_inv];
      assumption.
Qed.

Lemma incremental_maps_tid_inv n p newmap :
  preserves tid_inv (incremental_maps K n p newmap).
Proof.
  revert p newmap. induction n as [|n IH]; intros p newmap; cbn [incremental_maps].
  - pres.
  - unfold ceph_decode_32. pres; apply IH.
Qed.

Lemma full_maps_tid_inv n p newmap :
  preserves tid_inv (full_maps K n p newmap).
Proof.
  revert p newmap. induction n as [|n IH]; intros p newmap; cbn [full_maps].
  - pres.
  - unfold ceph_decode_32. pres; apply IH.
Qed.

Lemma handle_map_tid_inv front :
  preserves tid_inv (ceph_osdc_handle_map K front).
Proof.
  unfold ceph_osdc_handle_map, bad, handle_map_done, kick_requests,
    ceph_decode_32.
  pres; first [apply incremental_maps_tid_inv | apply full_maps_tid_inv].
Qed.

Lemma init_tid_inv tl timeout fsid : tid_inv (ceph_osdc_init tl timeout fsid).
Proof.
  split.
  - constructor.
  - cbn. intros q Hq. inversion Hq.
  - constructor.
  - cbn. intros q t Hq. inversion Hq.
  - cbn. lia.
Qed.

(** Every state a run reaches from a state with [tid_inv] has it. *)
Lemma reach_tid_inv s s' : reach K s s' -> tid_inv s -> tid_inv s'.
Proof.
  induction 1 as [s| s s1 req r a nofail _ IH Hm Hlt
                  | s s1 msg _ IH | s s1 req _ IH | s s1 front _ IH
                  | s s1 addr _ IH | s s1 _ IH | s s1 req _ IH
                  | s s1 req _ IH | s s1 now _ IH
                  | s s1 w fuel _ IH _ IHw];
    intros Hs.
  - exact Hs.
  - apply start_request_tid_inv; auto.
  - apply handle_reply_tid_inv; auto.
  - apply abort_request_tid_inv; auto.
  - apply handle_map_tid_inv; auto.
  - apply IH, Hs.
  - apply IH, Hs.
  - apply get_request_tid_inv; auto.
  - apply put_request_tid_inv; auto.
  - apply (tid_inv_fields s1); try reflexivity. auto.
  - apply sync_tid_inv; auto.
Qed.

End Register.




(** ** Unregistering *)

Lemma s32_small z : - 2 ^ 31 <= z < 2 ^ 31 -> s32 z = z.
Proof.
  intros H. unfold s32.
  destruct (Z.leb_spec 0 z).
  - rewrite Z.mod_small by lia. destruct (Z.ltb_spec z (2 ^ 31)); lia.
  - replace (z mod 2 ^ 32) with (z + 2 ^ 32).
    + destruct (Z.ltb_spec (z + 2 ^ 32) (2 ^ 31)); lia.
    + apply Z.mod_unique with (q := -1); lia.
Qed.

Lemma filter_ne_length (l : list ptr) req :
  NoDup l -> req ∈ l ->
  length l = S (length (filter (fun q => q <> req) l)).
Proof.
  induction l as [|x l IH]; intros Hnd Hin; [inversion Hin|].
  apply NoDup_cons in Hnd as [Hx Hnd]. rewrite filter_cons.
  destruct (decide (x <> req)) as [Hne|Heq].
  - cbn. f_equal. apply IH; [assumption|].
    apply elem_of_cons in Hin as [->|Hin]; [contradiction|assumption].
  - assert (x = req) as -> by (destruct (decide (x = req)); [assumption|contradiction]).
    cbn. f_equal. rewrite filter_ne_notin; [reflexivity|assumption].
Qed.

Section Unregister.
Context (K : externs) (HK : rbtree_ok K).

(** [__unregister_request] on a routed, indexed request of a consistent
    client. *)
Lemma unregister_request_ok s req r o osd :
  index_ok s ->
  req ∈ inorder (requests s) ->
  mem s !! req = Some r -> 2 <= r_ref r ->
  r_osd r = Some o -> osds s !! o = Some osd ->
  (filter (fun q => q <> req) (o_requests osd) = [] -> is_Some (o_con osd)) ->
  exists s',
    __unregister_request K req s = Ok tt s'
    /\ requests s' = rb_erase K req (requests s)
    /\ mem s' = <[req := set_r_ref (r_ref r - 1) (set_r_osd None r)]> (mem s)
    /\ osds s'
       = match filter (fun q => q <> req) (o_requests osd) with
         | [] => delete o (osds s)
         | rest =>
             <[o := {| o_osd := o_osd osd; o_requests := rest;
                       o_con := o_con osd |}]> (osds s)
         end
    /\ (filter (fun q => q <> req) (o_requests osd) = [] ->
        exists c, o_con osd = Some c /\ ev_con_put c ∈ trace s')
    /\ request_mutex s' = request_mutex s
    /\ last_tid s' = last_tid s
    /\ osdmap s' = osdmap s
    /\ num_requests s' = num_requests s - 1
    /\ registered (trace s') = registered (trace s)
    /\ (forall q, ev_callback q ∉ trace s -> ev_callback q ∉ trace s').
Proof.
  intros [Hsort Halloc Hcount Hsmall] Hin Hm Href Ho Hosd Hcon.
  pose proof (ascending_NoDup _ _ Hsort) as Hnd.
  pose proof (rb_erase_inorder K HK req (requests s) Hnd) as Herase.
  pose proof (filter_ne_length _ req Hnd Hin) as Hlen.
  destruct s as [om lt rq nr ttid os mx stl oto fsid mm jf tr].
  cbn [requests mem osds num_requests] in *.
  unfold __unregister_request, list_del_init_r_osd_item, destroy_osd,
    ceph_osdc_put_request.
  mrun. rewrite Ho. mrun.
  assert (Hrefb : (r_ref r <=? 0) = false) by (apply Z.leb_gt; lia).
  assert (Hrefz : (r_ref r - 1 =? 0) = false) by (apply Z.eqb_neq; lia).
  assert (Hn : s32 (nr - 1)
               = Z.of_nat (length (filter (fun q => q <> req) (inorder rq)))).
  { rewrite s32_small by lia. lia. }
  (* the timeout anchor *)
  assert (Hfirst : s32 (nr - 1) <> 0 ->
            exists q rq', rb_first (rb_erase K req rq) = Some q
                          /\ q <> req /\ mm !! q = Some rq').
  { intros Hnz. rewrite rb_first_inorder, Herase.
    destruct (filter (fun q => q <> req) (inorder rq)) as [|q l] eqn:Hf.
    { cbn in Hn. lia. }
    assert (Hq : q ∈ filter (fun q => q <> req) (inorder rq))
      by (rewrite Hf; left).
    apply list_elem_of_filter in Hq as [Hne Hq].
    destruct (Halloc q Hq) as [rq' Hrq']. exists q, rq'. auto. }
  assert (Hs32 : s32 (nr - 1) = nr - 1) by (apply s32_small; lia).
  destruct (filter (fun q => q <> req) (o_requests osd)) as [|q0 rest] eqn:Hrest;
    [destruct Hcon as [c Hc]; [reflexivity|]; mrun; rewrite Hc; mrun | mrun];
    cbn [r_ref set_r_osd]; rewrite Hrefb; mrun; rewrite Hrefz; mrun;
    cbn [r_tid set_r_ref set_r_osd];
    (destruct (r_tid r =? ttid); mrun;
     [ destruct (s32 (nr - 1) =? 0) eqn:Hz; mrun;
       [ | apply Z.eqb_neq in Hz;
           destruct (Hfirst Hz) as (q & rq' & -> & Hne & Hq); mrun ]
     | ]);
    (eexists; split; [reflexivity|]; proj_simpl; rewrite ?insert_insert_eq;
     split_and!;
     first
       [ reflexivity
       | apply delete_insert_eq
       | exact Hs32
       | rewrite !registered_app; cbn [registered]; rewrite ?app_nil_r;
         reflexivity
       | intros _; eexists; split; [reflexivity|set_solver]
       | intros; discriminate
       | intros ? ?; set_solver ]).
Qed.
End Unregister.

(** Updates of an explicit client record, carried out. *)
Ltac flat :=
  cbv [set_mem set_osds set_trace set_requests set_osdmap set_last_tid
       set_num_requests set_timeout_tid set_request_mutex set_jiffies
       mem osds trace requests osdmap last_tid num_requests timeout_tid
       request_mutex signed_ticket_len osd_timeout monmap_fsid jiffies].

(** Updates of an explicit request record, carried out. *)
Ltac req_flat :=
  cbv [set_r_tid set_r_flags set_r_result set_r_aborted set_r_got_reply
       set_r_prepared_pages set_r_resend set_r_osd set_r_reply set_r_ref
       set_r_reassert_version set_r_timeout_stamp set_r_pages
       set_r_num_pages set_r_request set_r_callback set_r_safe_callback
       set_head
       r_tid r_flags r_result r_aborted r_got_reply r_prepared_pages
       r_resend r_osd r_reply r_ref r_callback r_safe_callback
       r_reassert_version r_timeout_stamp r_oid r_oid_len r_pages
       r_num_pages r_file_layout r_snapc r_mempool r_request].

(** ** The reply handler *)

Section Reply.
Context (K : externs).

Lemma reply_not_well_formed msg s :
  reply_well_formed K msg = false ->
  ceph_osdc_handle_reply K msg s
  = Ok tt (set_trace (trace s ++ [ev_pr_err "corrupt osd_op_reply"]) s).
Proof.
  intros H. unfold ceph_osdc_handle_reply. rewrite H. reflexivity.
Qed.

Lemma reply_mutex_held msg s :
  reply_well_formed K msg = true -> request_mutex s = true ->
  ceph_osdc_handle_reply K msg s = Blocked s.
Proof.
  intros H Hmx. unfold ceph_osdc_handle_reply. rewrite H. cbn [negb].
  apply bind_mutex_lock_held. exact Hmx.
Qed.

Lemma reply_unknown_tid msg s :
  reply_well_formed K msg = true -> request_mutex s = false ->
  __lookup_request (tid_of s) (requests s) (u64 (rm_tid msg)) = None ->
  ceph_osdc_handle_reply K msg s = Ok tt s.
Proof.
  intros H Hmx Hl. unfold ceph_osdc_handle_reply. rewrite H. cbn [negb].
  destruct s as [om lt rq nr ttid os mx stl oto fsid mm jf tr].
  unfold tid_of in *. cbn in Hmx, Hl. subst mx.
  mrun. rewrite Hl. reflexivity.
Qed.

(** The handler leaves through [done]: the request is aborted, or this
    is a second reply without [ONDISK]. *)
Lemma reply_quiet msg s req r :
  reply_well_formed K msg = true -> request_mutex s = false ->
  __lookup_request (tid_of s) (requests s) (u64 (rm_tid msg)) = Some req ->
  mem s !! req = Some r -> 1 <= r_ref r ->
  r_aborted r = true
  \/ (r_got_reply r = true
      /\ flag_set (s32 (rm_flags msg)) (CEPH_OSD_FLAG_ONDISK K) = false) ->
  ceph_osdc_handle_reply K msg s
  = Ok tt
      (set_request_mutex true
         (set_trace
            (trace s ++ match r_reply r with
                        | Some m => [ev_msg_put m]
                        | None => []
                        end)
            (set_mem (<[req := set_r_reply None r]> (mem s)) s))).
Proof.
  intros H Hmx Hl Hm Href Hq. unfold ceph_osdc_handle_reply.
  rewrite H. cbn [negb].
  destruct s as [om lt rq nr ttid os mx stl oto fsid mm jf tr].
  unfold tid_of in *. cbn in Hmx, Hm, Hl. subst mx.
  mrun. rewrite Hl. unfold ceph_osdc_get_request, ceph_osdc_put_request.
  mrun. cbn [r_reply set_r_ref r_aborted r_got_reply].
  assert (Hb1 : (r_ref r + 1 <=? 0) = false) by (apply Z.leb_gt; lia).
  assert (Hb2 : (r_ref r + 1 - 1 =? 0) = false) by (apply Z.eqb_neq; lia).
  assert (Hdone : r_aborted r = true
                  \/ (r_aborted r = false /\ r_got_reply r = true
                      /\ flag_set (s32 (rm_flags msg)) (CEPH_OSD_FLAG_ONDISK K)
                         = false)).
  { destruct (r_aborted r); [left; reflexivity|right]. destruct Hq as [|[? ?]];
      [discriminate|auto]. }
  destruct (r_reply r) as [m|] eqn:Hrep; mrun;
    cbn [r_ref set_r_ref set_r_reply];
    (destruct Hdone as [->|(-> & -> & ->)]; cbn [negb]; mrun;
     cbn [r_ref set_r_ref set_r_reply]; rewrite Hb1; mrun; rewrite Hb2;
     unfold mret, M_ret; rewrite ?insert_insert_eq, ?app_nil_r;
     flat; cbn; repeat f_equal;
     destruct r; cbn in Hrep |- *; try subst; req_flat; f_equal; lia).
Qed.

Lemma index_ok_ext s s' :
  requests s' = requests s -> num_requests s' = num_requests s ->
  (forall p, tid_of s' p = tid_of s p) ->
  (forall p, is_Some (mem s !! p) -> is_Some (mem s' !! p)) ->
  index_ok s -> index_ok s'.
Proof.
  intros Hr Hn Ht Ha [H1 H2 H3 H4]. split.
  - rewrite Hr. eapply ascending_ext; [|exact H1]. intros; symmetry; apply Ht.
  - rewrite Hr. intros p Hp. apply Ha, H2, Hp.
  - rewrite Hr, Hn. exact H3.
  - rewrite Hn. exact H4.
Qed.

(** The handler from [mutex_unlock] to [done]. *)
Lemma reply_tail_ok req flags s r :
  mem s !! req = Some r -> 1 <= r_ref r ->
  exists s',
    (mutex_unlock;;
     r ← deref req;
     (if r_callback r then emit (ev_callback req)
      else emit (ev_complete req));;
     (if flag_set flags (CEPH_OSD_FLAG_ONDISK K) then
        (if r_safe_callback r then emit (ev_safe_callback req)
         else mret tt);;
        emit (ev_safe_complete req)
      else mret tt);;
     ceph_osdc_put_request req) s = Ok tt s'
    /\ requests s' = requests s
    /\ osds s' = osds s
    /\ mem s' = <[req := set_r_ref (r_ref r - 1) r]> (mem s)
    /\ request_mutex s' = false
    /\ (forall e, e ∈ trace s -> e ∈ trace s')
    /\ (if r_callback r then ev_callback req ∈ trace s'
        else ev_complete req ∈ trace s')
    /\ (flag_set flags (CEPH_OSD_FLAG_ONDISK K) = true ->
        ev_safe_complete req ∈ trace s').
Proof.
  intros Hm Href.
  assert (Hb : (r_ref r <=? 0) = false) by (apply Z.leb_gt; lia).
  destruct s as [om lt rq nr ttid os mx stl oto fsid mm jf tr].
  cbn in Hm. unfold ceph_osdc_put_request. mrun.
  destruct (r_callback r); mrun;
    (destruct (flag_set flags (CEPH_OSD_FLAG_ONDISK K)); mrun;
     [destruct (r_safe_callback r); mrun|]);
    rewrite Hb; mrun;
    (destruct (r_ref r - 1 =? 0); unfold mret, M_ret, emit, modify;
     eexists; (split; [reflexivity|]); flat;
     split_and!; try reflexivity; try discriminate;
     try (intros; set_solver)).
Qed.

Context (HK : rbtree_ok K).

(** The handler acts on the reply: the request is not aborted, and this
    is its first reply or one with [ONDISK]. *)
Lemma reply_processed msg s req r o osd :
  index_ok s ->
  reply_well_formed K msg = true -> request_mutex s = false ->
  __lookup_request (tid_of s) (requests s) (u64 (rm_tid msg)) = Some req ->
  mem s !! req = Some r -> 1 <= r_ref r ->
  r_aborted r = false ->
  r_got_reply r = false
  \/ flag_set (s32 (rm_flags msg)) (CEPH_OSD_FLAG_ONDISK K) = true ->
  r_osd r = Some o -> osds s !! o = Some osd ->
  (filter (fun q => q <> req) (o_requests osd) = [] -> is_Some (o_con osd)) ->
  let flags := s32 (rm_flags msg) in
  let unreg := flag_set flags (CEPH_OSD_FLAG_ONDISK K)
               || negb (flag_set flags (CEPH_OSD_FLAG_WRITE K)) in
  exists s' r',
    ceph_osdc_handle_reply K msg s = Ok tt s'
    /\ requests s'
       = (if unreg then rb_erase K req (requests s) else requests s)
    /\ osds s'
       = (if unreg then
            match filter (fun q => q <> req) (o_requests osd) with
            | [] => delete o (osds s)
            | rest =>
                <[o := {| o_osd := o_osd osd; o_requests := rest;
                          o_con := o_con osd |}]> (osds s)
            end
          else osds s)
    /\ mem s' = <[req := r']> (mem s)
    /\ r_tid r' = r_tid r
    /\ r_osd r' = (if unreg then None else Some o)
    /\ r_got_reply r' = true
    /\ request_mutex s' = false
    /\ (unreg = true ->
        filter (fun q => q <> req) (o_requests osd) = [] ->
        exists c, o_con osd = Some c /\ ev_con_put c ∈ trace s').
Proof.
  intros Hidx H Hmx Hl Hm Href Hab Hfirst Ho Hosd Hcon flags unreg.
  unfold ceph_osdc_handle_reply. rewrite H. cbn [negb].
  fold flags.
  assert (Hidx0 := Hidx).
  destruct s as [om lt rq nr ttid os mx stl oto fsid mm jf tr].
  unfold tid_of in *. cbn in Hmx, Hl, Hm, Hosd. subst mx.
  mrun. rewrite Hl. unfold ceph_osdc_get_request. mrun.
  assert (Hin : req ∈ inorder rq).
  { eapply lookup_request_Some in Hl. apply Hl. }
  destruct r as [tid fl res ab got pp rs ro rrep ref cb scb rv ts oid oidl
                 pg np fly snc mp rq_].
  cbn in Hab, Ho, Href, Hfirst. subst ab ro.
  change (s32 (rm_flags msg)) with flags in Hfirst.
  assert (Hstep : forall tr0 (r0 : ceph_osd_request),
    r_ref r0 = ref + 1 -> r_osd r0 = Some o -> r_got_reply r0 = true ->
    r_tid r0 = tid ->
    exists s' r',
    ((if unreg then __unregister_request K req else mret tt) ≫= (fun _ =>
     mutex_unlock;;
     r ← deref req;
     (if r_callback r then emit (ev_callback req)
      else emit (ev_complete req));;
     (if flag_set flags (CEPH_OSD_FLAG_ONDISK K) then
        (if r_safe_callback r then emit (ev_safe_callback req)
         else mret tt);;
        emit (ev_safe_complete req)
      else mret tt);;
     ceph_osdc_put_request req))
      {| osdmap := om; last_tid := lt; requests := rq; num_requests := nr;
         timeout_tid := ttid; osds := os; request_mutex := true;
         signed_ticket_len := stl; osd_timeout := oto; monmap_fsid := fsid;
         mem := <[req := r0]> mm; jiffies := jf; trace := tr0 |} = Ok tt s'
    /\ requests s' = (if unreg then rb_erase K req rq else rq)
    /\ osds s'
       = (if unreg then
            match filter (fun q => q <> req) (o_requests osd) with
            | [] => delete o os
            | rest =>
                <[o := {| o_osd := o_osd osd; o_requests := rest;
                          o_con := o_con osd |}]> os
            end
          else os)
    /\ mem s' = <[req := r']> mm
    /\ r_tid r' = tid
    /\ r_osd r' = (if unreg then None else Some o)
    /\ r_got_reply r' = true
    /\ request_mutex s' = false
    /\ (unreg = true ->
        filter (fun q => q <> req) (o_requests osd) = [] ->
        exists c, o_con osd = Some c /\ ev_con_put c ∈ trace s')).
  { intros tr0 r0 Hr0 Ho0 Hg0 Ht0.
    destruct unreg.
    - edestruct (unregister_request_ok K HK
        {| osdmap := om; last_tid := lt; requests := rq; num_requests := nr;
           timeout_tid := ttid; osds := os; request_mutex := true;
           signed_ticket_len := stl; osd_timeout := oto; monmap_fsid := fsid;
           mem := <[req := r0]> mm; jiffies := jf; trace := tr0 |}
        req r0 o osd)
        as (s1 & Hrun & Hrq & Hmem & Hos & Hput & Hmx1 & _);
        [ | exact Hin | apply lookup_insert_eq | lia | exact Ho0 | exact Hosd
          | exact Hcon | ].
      { eapply index_ok_ext; [ | | | | exact Hidx0]; try reflexivity.
        - intros p. unfold tid_of, tid_in. cbn [mem].
          destruct (decide (p = req)) as [->|Hne].
          + rewrite lookup_insert_eq, Hm. cbn. exact Ht0.
          + rewrite lookup_insert_ne by congruence. reflexivity.
        - intros p. cbn [mem].
          destruct (decide (p = req)) as [->|Hne].
          + rewrite lookup_insert_eq. eauto.
          + rewrite lookup_insert_ne by congruence. auto. }
      rewrite (bind_ok _ _ _ _ _ Hrun).
      edestruct (reply_tail_ok req flags s1)
        as (s2 & Hrun2 & T1 & T2 & T3 & T4 & T5 & _).
      { rewrite Hmem. apply lookup_insert_eq. }
      { cbn. lia. }
      exists s2. eexists. split; [exact Hrun2|].
      rewrite T1, T2, T3, Hrq, Hos, Hmem. cbn [requests osds mem].
      rewrite !insert_insert_eq.
      split; [reflexivity|]. split; [reflexivity|]. split; [reflexivity|].
      split_and!.
      + destruct r0; cbn in Ht0 |- *; exact Ht0.
      + destruct r0; reflexivity.
      + destruct r0; cbn in Hg0 |- *; exact Hg0.
      + exact T4.
      + intros _ Hf. destruct (Hput Hf) as (c & Hc & Hc'). eauto.
    - rewrite bind_ret.
      edestruct (reply_tail_ok req flags
        {| osdmap := om; last_tid := lt; requests := rq; num_requests := nr;
           timeout_tid := ttid; osds := os; request_mutex := true;
           signed_ticket_len := stl; osd_timeout := oto; monmap_fsid := fsid;
           mem := <[req := r0]> mm; jiffies := jf; trace := tr0 |})
        as (s2 & Hrun2 & T1 & T2 & T3 & T4 & T5 & _).
      { apply lookup_insert_eq. }
      { lia. }
      exists s2. eexists. split; [exact Hrun2|].
      rewrite T1, T2, T3. cbn [requests osds mem].
      rewrite !insert_insert_eq.
      split; [reflexivity|]. split; [reflexivity|]. split; [reflexivity|].
      split_and!; try exact T4; try discriminate.
      + destruct r0; cbn in Ht0 |- *; exact Ht0.
      + destruct r0; cbn in Ho0 |- *; exact Ho0.
      + destruct r0; cbn in Hg0 |- *; exact Hg0. }
  repeat match goal with
  | |- context [r_reply ?x] => progress change (r_reply x) with rrep
  | |- context [r_aborted ?x] => progress change (r_aborted x) with false
  | |- context [r_got_reply ?x] => progress change (r_got_reply x) with got
  end.
  destruct rrep; mrun; rewrite ?insert_insert_eq;
    (destruct got; cbn [negb]; mrun; rewrite ?insert_insert_eq;
     [ destruct Hfirst as [Hf|Hf]; [discriminate|];
       assert (Hn : negb (flag_set flags (CEPH_OSD_FLAG_ONDISK K)) = false)
         by (rewrite Hf; reflexivity);
       rewrite Hn
     | ]);
    flat; rewrite ?insert_insert_eq; apply Hstep; reflexivity.
Qed.
End Reply.

(** ** When a reply unregisters *)

(** C5 (as worded, refuted): the handler reads the [WRITE] flag of the
    reply, not of the request.  A started write ([ONDISK | WRITE] in its
    own flags) whose first reply carries neither flag is unregistered by
    that reply, and its session is destroyed. *)
Lemma C5_first_ack_unregisters_a_write :
  let s := scenario_write_started in
  let msg := sample_reply 1 0 0 in
  let o := ceph_osdc_handle_reply sample msg s in
  let s' := final o in
  ((fun r => flag_set (r_flags r) (CEPH_OSD_FLAG_WRITE sample))
   <$> mem s !! 1%nat) = Some true
  /\ (r_got_reply <$> mem s !! 1%nat) = Some false
  /\ (r_osd <$> mem s !! 1%nat) = Some (Some 3)
  /\ __lookup_request (tid_of s) (requests s) 1 = Some 1%nat
  /\ flag_set (s32 (rm_flags msg)) (CEPH_OSD_FLAG_ONDISK sample) = false
  /\ returned o = Some tt
  /\ __lookup_request (tid_of s') (requests s') 1 = None
  /\ requests s' = rb_nil
  /\ osds s' !! 3 = None
  /\ (r_osd <$> mem s' !! 1%nat) = Some None.
Proof. vm_compute. repeat split; reflexivity. Qed.

Section ReplyUnregisters.
Context (K : externs) (HK : rbtree_ok K).

(** C5 (amended): for a reply the handler acts on (well formed, for a
    registered, routed request that is not aborted, and the first reply
    or one with [ONDISK]), the request is unregistered exactly when the
    reply's flags include [ONDISK] or lack [WRITE]: it leaves the index
    and its session, and the session is destroyed (its connection put)
    when that was its last request.  Otherwise (a first ack with [WRITE]
    and without [ONDISK]) index, sessions and routing are as before. *)
Theorem C5_reply_unregisters msg s req r o osd :
  index_ok s ->
  reply_well_formed K msg = true -> request_mutex s = false ->
  __lookup_request (tid_of s) (requests s) (u64 (rm_tid msg)) = Some req ->
  mem s !! req = Some r -> 1 <= r_ref r ->
  r_aborted r = false ->
  r_got_reply r = false
  \/ flag_set (s32 (rm_flags msg)) (CEPH_OSD_FLAG_ONDISK K) = true ->
  r_osd r = Some o -> osds s !! o = Some osd ->
  (filter (fun q => q <> req) (o_requests osd) = [] -> is_Some (o_con osd)) ->
  let flags := s32 (rm_flags msg) in
  exists s',
    ceph_osdc_handle_reply K msg s = Ok tt s'
    /\ if flag_set flags (CEPH_OSD_FLAG_ONDISK K)
          || negb (flag_set flags (CEPH_OSD_FLAG_WRITE K))
       then
         __lookup_request (tid_of s') (requests s') (u64 (rm_tid msg)) = None
         /\ inorder (requests s')
            = filter (fun q => q <> req) (inorder (requests s))
         /\ (r_osd <$> mem s' !! req) = Some None
         /\ osds s'
            = match filter (fun q => q <> req) (o_requests osd) with
              | [] => delete o (osds s)
              | rest =>
                  <[o := {| o_osd := o_osd osd; o_requests := rest;
                            o_con := o_con osd |}]> (osds s)
              end
         /\ (filter (fun q => q <> req) (o_requests osd) = [] ->
             exists c, o_con osd = Some c /\ ev_con_put c ∈ trace s')
       else
         __lookup_request (tid_of s') (requests s') (u64 (rm_tid msg))
         = Some req
         /\ requests s' = requests s
         /\ (r_osd <$> mem s' !! req) = Some (Some o)
         /\ osds s' = osds s.
Proof.
  intros Hidx H Hmx Hl Hm Href Hab Hfirst Ho Hosd Hcon flags.
  destruct (reply_processed K HK msg s req r o osd Hidx H Hmx Hl Hm Href Hab
              Hfirst Ho Hosd Hcon)
    as (s' & r' & Hrun & Hrq & Hos & Hmem & Htid & Hro & _ & _ & Hput).
  fold flags in Hrq, Hos, Hro, Hput.
  exists s'. split; [exact Hrun|].
  assert (Hkey : forall p, tid_of s' p = tid_of s p).
  { intros p. unfold tid_of, tid_in. rewrite Hmem.
    destruct (decide (p = req)) as [->|Hne].
    - rewrite lookup_insert_eq, Hm. cbn. exact Htid.
    - rewrite lookup_insert_ne by congruence. reflexivity. }
  assert (Hr' : (r_osd <$> mem s' !! req) = Some (r_osd r')).
  { rewrite Hmem, lookup_insert_eq. reflexivity. }
  destruct Hidx as [Hsort _ _ _].
  pose proof (lookup_request_Some _ _ _ _ Hl) as [Hin Hk].
  destruct (flag_set flags (CEPH_OSD_FLAG_ONDISK K)
            || negb (flag_set flags (CEPH_OSD_FLAG_WRITE K))).
  - assert (Hino : inorder (requests s')
                   = filter (fun q => q <> req) (inorder (requests s))).
    { rewrite Hrq. apply (rb_erase_inorder K HK).
      eapply ascending_NoDup, Hsort. }
    split_and!; [|exact Hino|rewrite Hr', Hro; reflexivity|exact Hos
                 |exact (Hput eq_refl)].
    destruct (__lookup_request (tid_of s') (requests s') (u64 (rm_tid msg)))
      as [q|] eqn:Hq; [exfalso|reflexivity].
    apply lookup_request_Some in Hq as [Hqin Hqk].
    rewrite Hino in Hqin. apply list_elem_of_filter in Hqin as [Hne Hqin].
    apply Hne. eapply ascending_inj; [exact Hsort|exact Hqin|exact Hin|].
    rewrite <- Hkey, Hqk, Hk. reflexivity.
  - split_and!; [|exact Hrq|rewrite Hr', Hro; reflexivity|exact Hos].
    rewrite Hrq, <- Hl. apply lookup_request_ext. intros; apply Hkey.
Qed.

End ReplyUnregisters.

Lemma scenario_write_started_index_ok : index_ok scenario_write_started.
Proof.
  assert (Hin : inorder (requests scenario_write_started) = [1%nat])
    by (vm_compute; reflexivity).
  split.
  - rewrite Hin. repeat constructor.
  - rewrite Hin. intros p ->%list_elem_of_singleton.
    destruct (mem scenario_write_started !! 1%nat) eqn:E; [eauto|].
    vm_compute in E. discriminate E.
  - vm_compute. reflexivity.
  - vm_compute. reflexivity.
Qed.

Lemma C5_witness :
  exists s',
    ceph_osdc_handle_reply sample write_ack scenario_write_started = Ok tt s'
    /\ __lookup_request (tid_of s') (requests s') 1 = Some 1%nat
    /\ requests s' = requests scenario_write_started
    /\ (r_osd <$> mem s' !! 1%nat) = Some (Some 3)
    /\ osds s' = osds scenario_write_started.
Proof.
  pose (r := default zero_request (mem scenario_write_started !! 1%nat)).
  pose (osd := default {| o_osd := 0; o_requests := []; o_con := None |}
                 (osds scenario_write_started !! 3)).
  assert (Hwf : reply_well_formed sample write_ack = true) by reflexivity.
  assert (Hmx : request_mutex scenario_write_started = false)
    by (vm_compute; reflexivity).
  assert (Hl : __lookup_request (tid_of scenario_write_started)
                 (requests scenario_write_started) (u64 (rm_tid write_ack))
               = Some 1%nat) by (vm_compute; reflexivity).
  assert (Hm : mem scenario_write_started !! 1%nat = Some r)
    by (vm_compute; reflexivity).
  assert (Href : 1 <= r_ref r) by (vm_compute; discriminate).
  assert (Hab : r_aborted r = false) by (vm_compute; reflexivity).
  assert (Hfirst : r_got_reply r = false
                   \/ flag_set (s32 (rm_flags write_ack))
                        (CEPH_OSD_FLAG_ONDISK sample) = true)
    by (left; vm_compute; reflexivity).
  assert (Ho : r_osd r = Some 3) by (vm_compute; reflexivity).
  assert (Hosd : osds scenario_write_started !! 3 = Some osd)
    by (vm_compute; reflexivity).
  assert (Hcon : filter (fun q => q <> 1%nat) (o_requests osd) = [] ->
                 is_Some (o_con osd))
    by (intros _; vm_compute; eauto).
  destruct (C5_reply_unregisters sample sample_rbtree_ok write_ack
              scenario_write_started 1%nat r 3 osd
              scenario_write_started_index_ok Hwf Hmx Hl Hm Href Hab Hfirst
              Ho Hosd Hcon) as (s' & Hrun & Hif).
  exists s'. split; [exact Hrun|]. exact Hif.
Defined.

(** ** Aborted requests *)

Section Silent.
Context (K : externs) (HK : rbtree_ok K) (req : ptr) (sa : ceph_osd_client).

Lemma silent_ext s s' :
  (req ∈ inorder (requests s') <-> req ∈ inorder (requests s)) ->
  (forall r, mem s !! req = Some r ->
     exists r', mem s' !! req = Some r' /\ r_aborted r' = r_aborted r
                /\ r_result r' = r_result r /\ r_osd r' = r_osd r) ->
  (exists t, trace s' = trace s ++ t
             /\ Forall (fun e => signal_for req e = false) t) ->
  silent_since req sa s -> silent_since req sa s'.
Proof.
  intros Hi Hm (t' & Ht' & Hs') [(ra & r & Ha & Hr & H1 & H2 & H3) Hidx
                                 (t & Ht & Hs)].
  destruct (Hm r Hr) as (r' & Hr' & E1 & E2 & E3).
  split.
  - exists ra, r'. split_and!; try assumption; congruence.
  - rewrite Hi. exact Hidx.
  - exists (t ++ t'). split.
    + rewrite Ht', Ht, app_assoc. reflexivity.
    + apply Forall_app. split; assumption.
Qed.

Lemma silent_update s q r r' :
  mem s !! q = Some r ->
  (q = req -> r_aborted r' = r_aborted r /\ r_result r' = r_result r
              /\ r_osd r' = r_osd r) ->
  silent_since req sa s ->
  silent_since req sa (set_mem (<[q := r']> (mem s)) s).
Proof.
  intros Hq Hf. apply silent_ext.
  - reflexivity.
  - intros r0 Hr0. cbn. destruct (decide (q = req)) as [->|Hne].
    + rewrite lookup_insert_eq. exists r'. split; [reflexivity|].
      assert (r0 = r) as -> by congruence. auto.
    + rewrite lookup_insert_ne by congruence. eauto.
  - exists []. rewrite app_nil_r. split; [reflexivity|constructor].
Qed.

Lemma silent_emit s e :
  signal_for req e = false ->
  silent_since req sa s -> silent_since req sa (set_trace (trace s ++ [e]) s).
Proof.
  intros He. apply silent_ext.
  - reflexivity.
  - intros r0 Hr0. eauto.
  - exists [e]. split; [reflexivity|]. constructor; [assumption|constructor].
Qed.

Lemma silent_fields s s' :
  inorder (requests s') = inorder (requests s) -> mem s' = mem s ->
  trace s' = trace s ->
  silent_since req sa s -> silent_since req sa s'.
Proof.
  intros Hr Hm Ht. apply silent_ext.
  - rewrite Hr. reflexivity.
  - intros r0 Hr0. rewrite Hm. eauto.
  - exists []. rewrite app_nil_r. split; [assumption|constructor].
Qed.

Lemma silent_erase s q :
  q <> req -> tid_inv s -> silent_since req sa s ->
  silent_since req sa (set_requests (rb_erase K q (requests s)) s).
Proof.
  intros Hne Ht. apply silent_ext.
  - cbn. rewrite (rb_erase_inorder K HK)
      by (eapply ascending_NoDup, inv_sorted, Ht).
    rewrite list_elem_of_filter. split; [intros [_ H]; exact H|].
    intros H. split; [congruence|exact H].
  - intros r0 Hr0. eauto.
  - exists []. rewrite app_nil_r. split; [reflexivity|constructor].
Qed.

Lemma silent_link s q t :
  q <> req -> rb_link_node (tid_of s) q (requests s) = Some t ->
  silent_since req sa s ->
  silent_since req sa (set_requests (rb_insert_color K q t) s).
Proof.
  intros Hne Hl. apply silent_ext.
  - cbn. rewrite (rb_insert_color_inorder K HK).
    rewrite (rb_link_node_inorder _ _ _ _ Hl). set_solver.
  - intros r0 Hr0. eauto.
  - exists []. rewrite app_nil_r. split; [reflexivity|constructor].
Qed.

End Silent.

(** One step of a proof that a computation keeps [tid_inv],
    [silent_since] or both. *)
Ltac silent_side :=
  first
    [ assumption
    | eapply silent_update;
      [ eassumption
      | first [ intros _; repeat split; reflexivity
              | intros ?; first [contradiction | congruence] ]
      | assumption ]
    | apply silent_emit;
      [ first [ reflexivity
              | cbn [signal_for]; apply bool_decide_eq_false_2;
                first [assumption | congruence] ]
      | assumption ]
    | match goal with
      | H : silent_since _ _ ?s |- _ =>
          apply (silent_fields _ _ s); [reflexivity .. | exact H]
      end ].

Ltac pres_side ::=
  cbv beta;
  lazymatch goal with
  | |- tid_inv _ => tid_side
  | |- silent_since _ _ _ => silent_side
  | H : aborted_inv _ _ _ |- aborted_inv _ _ _ =>
      destruct H; split; [tid_side | silent_side]
  end.

Section Aborted.
Context (K : externs) (HK : rbtree_ok K) (req : ptr) (sa : ceph_osd_client).

Lemma get_request_aborted_inv q :
  preserves (aborted_inv req sa) (ceph_osdc_get_request q).
Proof. unfold ceph_osdc_get_request. pres. Qed.

Lemma put_request_aborted_inv q :
  preserves (aborted_inv req sa) (ceph_osdc_put_request q).
Proof. unfold ceph_osdc_put_request. pres. Qed.

Lemma list_del_init_aborted_inv q o :
  preserves (aborted_inv req sa) (list_del_init_r_osd_item q o).
Proof. unfold list_del_init_r_osd_item, destroy_osd. pres. Qed.

Lemma list_add_aborted_inv q o :
  preserves (aborted_inv req sa) (list_add_r_osd_item q o).
Proof. unfold list_add_r_osd_item. pres. Qed.

Lemma unregister_request_aborted_inv q :
  q <> req -> preserves (aborted_inv req sa) (__unregister_request K q).
Proof.
  intros Hne. unfold __unregister_request.
  apply preserves_bind.
  { apply preserves_modify. intros s [Ht Hs]. split.
    - apply tid_inv_erase; assumption.
    - apply silent_erase; assumption. }
  intros _.
  pres; first [apply list_del_init_aborted_inv | apply put_request_aborted_inv].
Qed.

Lemma map_osds_aborted_inv a q :
  q <> req -> preserves (aborted_inv req sa) (map_osds K a q).
Proof.
  intros Hne. unfold map_osds, __lookup_osd.
  pres; first [apply list_del_init_aborted_inv | apply list_add_aborted_inv].
Qed.

Lemma send_request_aborted_inv a q :
  q <> req -> preserves (aborted_inv req sa) (send_request K a q).
Proof.
  intros Hne. unfold send_request.
  apply preserves_bind; [apply map_osds_aborted_inv, Hne|]. intros err. pres.
Qed.

(** A request that is aborted is seen to be so. *)
Lemma preserves_deref_aborted {B} (k : ceph_osd_request -> M B) :
  (forall r, r_aborted r = true -> preserves (aborted_inv req sa) (k r)) ->
  preserves (aborted_inv req sa) (deref req ≫= k).
Proof.
  intros Hk s Hs.
  destruct Hs as [Ht Hsil].
  destruct (silent_request _ _ _ Hsil) as (ra & r & _ & Hr & Hab & _).
  erewrite bind_deref by exact Hr. apply Hk; [exact Hab|]. split; assumption.
Qed.

Lemma handle_reply_aborted_inv msg :
  preserves (aborted_inv req sa) (ceph_osdc_handle_reply K msg).
Proof.
  unfold ceph_osdc_handle_reply.
  destruct (negb (reply_well_formed K msg)); [pres|].
  cbv zeta.
  apply preserves_bind; [pres|]. intros _.
  apply preserves_bind; [pres|]. intros [req0|]; [|pres].
  apply preserves_bind; [apply get_request_aborted_inv|]. intros _.
  destruct (decide (req0 = req)) as [->|Hne].
  - apply preserves_deref_aborted. intros r Hab. rewrite Hab.
    pres; apply put_request_aborted_inv.
  - pres; first [ apply put_request_aborted_inv
                | apply unregister_request_aborted_inv; exact Hne ].
Qed.

Lemma abort_request_aborted_inv q :
  preserves (aborted_inv req sa) (ceph_osdc_abort_request q).
Proof.
  unfold ceph_osdc_abort_request.
  apply preserves_bind; [pres|]. intros _.
  apply preserves_bind.
  { apply preserves_update. intros s r [Ht Hs] Hr. split.
    - eapply tid_inv_update; [eassumption|reflexivity|assumption].
    - eapply silent_update; [eassumption| |assumption].
      intros ->. destruct (silent_request _ _ _ Hs)
        as (ra & r0 & _ & Hr0 & Hab & _).
      assert (r0 = r) as -> by congruence.
      cbn. rewrite Hab. auto. }
  intros _. pres.
Qed.

Lemma sync_loop_aborted_inv w fuel last next :
  (forall q s, aborted_inv req sa s -> aborted_inv req sa (w q s)) ->
  preserves (aborted_inv req sa) (sync_loop K w fuel last next).
Proof.
  intros Hw. revert next. induction fuel as [|fuel IH]; intros next.
  - intros s Hs. exact Hs.
  - cbn [sync_loop].
    pres; first [apply IH | apply get_request_aborted_inv
                | apply put_request_aborted_inv | idtac].
    apply preserves_modify. intros. apply Hw. assumption.
Qed.

Lemma sync_aborted_inv w fuel :
  (forall q s, aborted_inv req sa s -> aborted_inv req sa (w q s)) ->
  preserves (aborted_inv req sa) (ceph_osdc_sync K w fuel).
Proof.
  intros Hw. unfold ceph_osdc_sync. pres. apply sync_loop_aborted_inv, Hw.
Qed.

Lemma incremental_maps_aborted_inv n p newmap :
  preserves (aborted_inv req sa) (incremental_maps K n p newmap).
Proof.
  revert p newmap. induction n as [|n IH]; intros p newmap;
    cbn [incremental_maps].
  - pres.
  - unfold ceph_decode_32. pres; apply IH.
Qed.

Lemma full_maps_aborted_inv n p newmap :
  preserves (aborted_inv req sa) (full_maps K n p newmap).
Proof.
  revert p newmap. induction n as [|n IH]; intros p newmap; cbn [full_maps].
  - pres.
  - unfold ceph_decode_32. pres; apply IH.
Qed.

Lemma handle_map_aborted_inv front :
  preserves (aborted_inv req sa) (ceph_osdc_handle_map K front).
Proof.
  unfold ceph_osdc_handle_map, bad, handle_map_done, kick_requests,
    ceph_decode_32.
  pres; first [apply incremental_maps_aborted_inv
              | apply full_maps_aborted_inv].
Qed.

Lemma insert_request_silent q :
  q <> req -> preserves (silent_since req sa) (__insert_request K q).
Proof.
  intros Hne s Hs. unfold __insert_request.
  destruct (rb_link_node (tid_of s) q (requests s)) as [t|] eqn:Hl; cbn.
  - apply silent_link; assumption.
  - exact Hs.
Qed.

Lemma register_request_silent q :
  q <> req -> preserves (silent_since req sa) (register_request K q).
Proof.
  intros Hne. unfold register_request, ceph_osdc_get_request.
  pres. apply insert_request_silent, Hne.
Qed.

Lemma register_request_aborted_inv s q r :
  q <> req -> aborted_inv req sa s -> mem s !! q = Some r ->
  q ∉ inorder (requests s) ->
  (forall t, (q, t) ∉ registered (trace s)) ->
  last_tid s < 2 ^ 64 - 1 ->
  wp (register_request K q) (fun _ s' => aborted_inv req sa s')
    (aborted_inv req sa) s.
Proof.
  intros Hne [Ht Hs] Hm Hni Hnl Hlt.
  pose proof (register_request_tid_inv K HK s q r Ht Hm Hni Hnl Hlt) as H1.
  pose proof (register_request_silent q Hne s Hs) as H2.
  unfold wp in *.
  destruct (register_request K q s); split; assumption.
Qed.

(** Starting a request allocated at an unused address. *)
Lemma start_request_aborted_inv s q r a nofail :
  aborted_inv req sa s -> mem s !! q = None -> last_tid s < 2 ^ 64 - 1 ->
  aborted_inv req sa
    (after (ceph_osdc_start_request K a q nofail) (place q r s)).
Proof.
  intros [Ht Hs] Hm Hlt.
  assert (Hne : q <> req).
  { intros ->. destruct (silent_request _ _ _ Hs) as (ra & r0 & _ & Hr0 & _).
    congruence. }
  destruct (place_tid_inv s q r Ht Hm) as (Hp & Hni & Hnl).
  assert (Hps : silent_since req sa (place q r s)).
  { revert Hs. apply silent_ext.
    - reflexivity.
    - intros r0 Hr0. unfold place. cbn.
      rewrite lookup_insert_ne by congruence. eauto.
    - exists []. rewrite app_nil_r. split; [reflexivity|constructor]. }
  unfold after, ceph_osdc_start_request.
  assert (Hmp : mem (place q r s) !! q = Some r)
    by (unfold place; cbn; apply lookup_insert_eq).
  erewrite bind_update by exact Hmp.
  match goal with
  | |- aborted_inv _ _ (final ((_ ≫= _) ?st)) => set (s2 := st)
  end.
  assert (Hs2 : aborted_inv req sa s2).
  { subst s2. split.
    - eapply tid_inv_update; [exact Hmp|reflexivity|exact Hp].
    - eapply silent_update; [exact Hmp| |exact Hps].
      intros ?. contradiction. }
  apply wp_then_preserves.
  - eapply register_request_aborted_inv; try eassumption.
    subst s2. cbn. apply lookup_insert_eq.
  - intros _. pres;
      first [ apply send_request_aborted_inv
            | apply unregister_request_aborted_inv ];
      assumption.
Qed.

(** Every state a run reaches from a state with [aborted_inv] has it. *)
Lemma reach_aborted_inv s s' :
  reach K s s' -> aborted_inv req sa s -> aborted_inv req sa s'.
Proof.
  induction 1 as [s| s s1 q r a nofail _ IH Hm Hlt
                  | s s1 msg _ IH | s s1 q _ IH | s s1 front _ IH
                  | s s1 addr _ IH | s s1 _ IH | s s1 q _ IH
                  | s s1 q _ IH | s s1 now _ IH
                  | s s1 w fuel _ IH _ IHw];
    intros Hs.
  - exact Hs.
  - apply start_request_aborted_inv; auto.
  - apply handle_reply_aborted_inv; auto.
  - apply abort_request_aborted_inv; auto.
  - apply handle_map_aborted_inv; auto.
  - apply IH, Hs.
  - apply IH, Hs.
  - apply get_request_aborted_inv; auto.
  - apply put_request_aborted_inv; auto.
  - destruct (IH Hs) as [Ht Hsil]. split.
    + apply (tid_inv_fields s1); try reflexivity. exact Ht.
    + apply (silent_fields _ _ s1); try reflexivity. exact Hsil.
  - apply sync_aborted_inv; auto.
Qed.

End Aborted.

Lemma abort_request_sets_aborted s q r :
  mem s !! q = Some r ->
  let s' := after (ceph_osdc_abort_request q) s in
  requests s' = requests s
  /\ exists r', mem s' !! q = Some r' /\ r_aborted r' = true
                /\ r_result r' = r_result r /\ r_osd r' = r_osd r.
Proof.
  intros Hm.
  destruct s as [om lt rq nr ttid os mx stl oto fsid mm jf tr].
  cbn in Hm. unfold after, ceph_osdc_abort_request.
  destruct r as [tid fl res ab got pp rs ro rrep ref cb scb rv ts oid oidl
                 pg np fly snc mp rq_].
  mrun.
  match goal with
  | |- context [r_reply ?x] => change (r_reply x) with rrep
  end.
  destruct rrep; mrun; unfold update, mret, M_ret; flat;
    rewrite ?insert_insert_eq, ?lookup_insert_eq; cbn [final requests mem];
    (split; [reflexivity|]);
    rewrite ?insert_insert_eq, lookup_insert_eq; eexists;
    (split; [reflexivity|]); cbn; auto.
Qed.

(** C8: once [ceph_osdc_abort_request] has run on a request, then
    whatever is called afterwards (replies for any tid, maps, resets,
    timeouts, other requests being started, [sync]), the request stays
    aborted, keeps its result, its routing and its place in the index,
    and the calls made since contain no callback and no completion for
    it, and no [ceph_con_send] of its message; in particular each further
    reply adds none. *)
Theorem C8_aborted_request_is_silent K tl timeout fsid s1 req r1 s :
  rbtree_ok K ->
  reach K (ceph_osdc_init tl timeout fsid) s1 ->
  mem s1 !! req = Some r1 ->
  reach K (after (ceph_osdc_abort_request req) s1) s ->
  (exists r, mem s !! req = Some r /\ r_aborted r = true
             /\ r_result r = r_result r1 /\ r_osd r = r_osd r1)
  /\ (req ∈ inorder (requests s) <-> req ∈ inorder (requests s1))
  /\ (exists t,
        trace s = trace (after (ceph_osdc_abort_request req) s1) ++ t
        /\ Forall (fun e => signal_for req e = false) t)
  /\ (forall msg,
        let s' := after (ceph_osdc_handle_reply K msg) s in
        (r_result <$> mem s' !! req) = Some (r_result r1)
        /\ (req ∈ inorder (requests s') <-> req ∈ inorder (requests s1))
        /\ exists t, trace s' = trace s ++ t
                     /\ Forall (fun e => signal_for req e = false) t).
Proof.
  intros HK Hr1 Hm Hr.
  set (sa := after (ceph_osdc_abort_request req) s1) in *.
  destruct (abort_request_sets_aborted s1 req r1 Hm)
    as (Hrq & ra & Hra & Hab & Hres & Hosd).
  fold sa in Hrq, Hra.
  assert (Hsa : aborted_inv req sa sa).
  { split.
    - apply abort_request_tid_inv.
      eapply (reach_tid_inv K HK); [exact Hr1|apply init_tid_inv].
    - split.
      + exists ra, ra. auto.
      + reflexivity.
      + exists []. rewrite app_nil_r. split; [reflexivity|constructor]. }
  pose proof (reach_aborted_inv K HK req sa sa s Hr Hsa) as [Ht Hs].
  destruct (silent_request _ _ _ Hs) as (ra' & r & Hra' & Hmr & H1 & H2 & H3).
  assert (ra' = ra) as -> by congruence.
  split_and!.
  - exists r. split_and!; congruence.
  - rewrite (silent_index _ _ _ Hs), Hrq. reflexivity.
  - exact (silent_trace _ _ _ Hs).
  - intros msg s'.
    assert (Hs0 : aborted_inv req s s).
    { split; [exact Ht|]. split.
      - exists r, r. auto.
      - reflexivity.
      - exists []. rewrite app_nil_r. split; [reflexivity|constructor]. }
    pose proof (handle_reply_aborted_inv K HK req s msg s Hs0) as [_ Hs'].
    fold (after (ceph_osdc_handle_reply K msg) s) in Hs'. fold s' in Hs'.
    destruct (silent_request _ _ _ Hs') as (r0 & r' & Hr0 & Hr' & _ & E & _).
    assert (r0 = r) as -> by congruence.
    split_and!.
    + rewrite Hr'. cbn. f_equal. congruence.
    + rewrite (silent_index _ _ _ Hs'), (silent_index _ _ _ Hs), Hrq.
      reflexivity.
    + exact (silent_trace _ _ _ Hs').
Qed.

Lemma C8_witness :
  let s := after (ceph_osdc_handle_reply sample write_ack) scenario_aborted in
  (r_result <$> mem s !! 1%nat) = (r_result <$> mem scenario_started !! 1%nat)
  /\ (1%nat ∈ inorder (requests s)
      <-> 1%nat ∈ inorder (requests scenario_started))
  /\ exists t,
       trace s = trace scenario_aborted ++ t
       /\ Forall (fun e => signal_for 1%nat e = false) t.
Proof.
  intros s.
  pose (r1 := default zero_request (mem scenario_started !! 1%nat)).
  assert (Hm : mem scenario_started !! 1%nat = Some r1)
    by (vm_compute; reflexivity).
  assert (Hfree : mem scenario_mapped !! 1%nat = None)
    by (vm_compute; reflexivity).
  assert (Hlast : last_tid scenario_mapped < 2 ^ 64 - 1)
    by (vm_compute; reflexivity).
  assert (Hr1 : reach sample (ceph_osdc_init 0 30 (replicate 16 0))
                  scenario_started).
  { exact (reach_start sample _ _ 1%nat (sample_write 0) all_ok false
             (reach_map sample _ _ full_map_osd3 (reach_refl sample _))
             Hfree Hlast). }
  assert (Hr : reach sample (after (ceph_osdc_abort_request 1%nat)
                               scenario_started) s).
  { exact (reach_reply sample _ _ write_ack (reach_refl sample _)). }
  destruct (C8_aborted_request_is_silent sample 0 30 (replicate 16 0)
              scenario_started 1%nat r1 s sample_rbtree_ok Hr1 Hm Hr)
    as ((r & Hmr & _ & Hres & _) & Hidx & Htr & _).
  split_and!.
  - transitivity (Some (r_result r)).
    + exact (f_equal (fmap r_result) Hmr).
    + rewrite Hres. symmetry. exact (f_equal (fmap r_result) Hm).
  - exact Hidx.
  - exact Htr.
Defined.

(** ** The map handler against the specification *)

Lemma get_unaligned_le32_le32 v rest :
  0 <= v < 2 ^ 32 -> get_unaligned_le32 (le32 v ++ rest) = v.
Proof.
  intros Hv. unfold get_unaligned_le32, le32, byte. cbn [app nth].
  rewrite !Z.mod_mod by lia.
  change (2 ^ 8) with 256. change (2 ^ 16) with (256 * 256).
  change (2 ^ 24) with (256 * 256 * 256).
  change (2 ^ 32) with (256 * 256 * 256 * 256) in Hv.
  rewrite <- !Z.div_div by lia.
  pose proof (Z.div_mod v 256 ltac:(lia)).
  pose proof (Z.div_mod (v / 256) 256 ltac:(lia)).
  pose proof (Z.div_mod (v / 256 / 256) 256 ltac:(lia)).
  assert (0 <= v / 256 / 256 / 256 < 256).
  { split.
    - repeat apply Z.div_pos; lia.
    - repeat (apply Z.div_lt_upper_bound; [lia|]). lia. }
  rewrite (Z.mod_small (v / 256 / 256 / 256)) by lia.
  lia.
Qed.

Lemma ceph_decode_32_le32 v rest :
  0 <= v < 2 ^ 32 -> ceph_decode_32 (le32 v ++ rest) = (v, rest).
Proof.
  intros Hv. unfold ceph_decode_32.
  rewrite get_unaligned_le32_le32 by assumption. reflexivity.
Qed.

Lemma ceph_decode_need_app p q n :
  n <= Z.of_nat (length p) -> ceph_decode_need (p ++ q) n = true.
Proof.
  intros H. unfold ceph_decode_need. rewrite length_app.
  apply Z.leb_le. lia.
Qed.

Lemma ceph_decode_need_blob b rest :
  ceph_decode_need (encode_blob b ++ rest) 8 = true.
Proof.
  unfold encode_blob. rewrite <- !app_assoc.
  unfold ceph_decode_need, le32. cbn [app length].
  apply Z.leb_le. lia.
Qed.

Section MapRefinement.
Context (K : externs).

Lemma incremental_maps_spec incs rest applied s :
  Forall blob_ok incs ->
  incremental_maps K (length incs) (concat (encode_blob <$> incs) ++ rest)
    applied s
  = (r ← spec_incrementals K incs applied; mret (pair rest <$> r)) s.
Proof.
  intros Hok. revert applied s.
  induction Hok as [|[e bytes] incs [He Hlen] Hok IH]; intros applied s.
  - reflexivity.
  - cbn [mb_epoch mb_bytes] in He, Hlen.
    cbn [length incremental_maps fmap list_fmap concat spec_incrementals].
    rewrite <- app_assoc. rewrite ceph_decode_need_blob. cbn [negb].
    unfold encode_blob at 1. cbn [mb_epoch mb_bytes]. rewrite <- !app_assoc.
    rewrite ceph_decode_32_le32 by assumption.
    rewrite ceph_decode_32_le32 by lia.
    rewrite ceph_decode_need_app by lia. cbn [negb].
    rewrite Nat2Z.id, take_app_length, drop_app_length.
    mrun. destruct (osdmap s) as [cur|]; [|apply IH].
    rewrite (Z.eqb_sym e).
    destruct (u32 (epoch cur + 1) =? e); [|apply IH].
    destruct (osdmap_apply_incremental K bytes cur) as [err|new];
      [reflexivity|].
    destruct (bool_decide (map_obj new = map_obj cur)); mrun; apply IH.
Qed.

Lemma full_maps_spec fulls rest s :
  Forall blob_ok fulls ->
  full_maps K (length fulls) (concat (encode_blob <$> fulls) ++ rest) None s
  = spec_full_maps K fulls s.
Proof.
  intros Hok. revert s.
  induction Hok as [|[e bytes] fulls [He Hlen] Hok IH]; intros s.
  - reflexivity.
  - cbn [mb_epoch mb_bytes] in He, Hlen.
    cbn [length full_maps fmap list_fmap concat].
    rewrite <- app_assoc. rewrite ceph_decode_need_blob. cbn [negb].
    unfold encode_blob at 1. cbn [mb_epoch mb_bytes]. rewrite <- !app_assoc.
    rewrite ceph_decode_32_le32 by assumption.
    rewrite ceph_decode_32_le32 by lia.
    rewrite ceph_decode_need_app by lia. cbn [negb].
    rewrite Nat2Z.id, take_app_length, drop_app_length.
    mrun. destruct fulls as [|full fulls].
    + unfold spec_full_maps. cbn [last mb_epoch mb_bytes length]. mrun.
      destruct (osdmap s) as [cur|].
      * rewrite Z.ltb_antisym.
        destruct (e <=? epoch cur); cbn [negb]; [reflexivity|].
        destruct (osdmap_decode K bytes) as [err|new]; [reflexivity|].
        mrun. reflexivity.
      * destruct (osdmap_decode K bytes) as [err|new]; [reflexivity|].
        mrun. reflexivity.
    + cbn [length]. rewrite IH. unfold spec_full_maps. reflexivity.
Qed.

Lemma bind_run {A B} (m m' : M A) (k : A -> M B) s :
  m s = m' s -> (m ≫= k) s = (m' ≫= k) s.
Proof. intros H. unfold mbind, M_bind. rewrite H. reflexivity. Qed.

Lemma bind_cong {A B} (m : M A) (k k' : A -> M B) s :
  (forall a s', k a s' = k' a s') -> (m ≫= k) s = (m ≫= k') s.
Proof.
  intros H. unfold mbind, M_bind. destruct (m s); try reflexivity. apply H.
Qed.

(** C1: on a message with the client's fsid, the handler does what the
    specification says of its lists of maps: it applies each incremental
    whose epoch is the current epoch + 1 (in 32 bits), destroying the old
    map when the result is a new object; if one was applied it leaves
    the full maps alone; otherwise it decodes and swaps in the last full
    map, if there is no current map or its epoch exceeds the current
    one. *)
Theorem C1_handle_map_follows_spec fsid incs fulls rest s :
  length fsid = sizeof_fsid -> monmap_fsid s = fsid ->
  Forall blob_ok incs -> Forall blob_ok fulls ->
  Z.of_nat (length incs) < 2 ^ 32 -> Z.of_nat (length fulls) < 2 ^ 32 ->
  ceph_osdc_handle_map K (encode_map_msg fsid incs fulls rest) s
  = spec_handle_map K incs fulls s.
Proof.
  intros Hlen Hfsid Hincs Hfulls Hni Hnf.
  unfold ceph_osdc_handle_map, encode_map_msg, spec_handle_map, encode_blobs.
  rewrite ceph_decode_need_app by (rewrite Hlen; reflexivity).
  cbn [negb]. cbv zeta.
  rewrite <- Hlen, take_app_length, drop_app_length.
  mrun. rewrite Hfsid, bool_decide_true by reflexivity. cbn [negb].
  rewrite <- !app_assoc.
  rewrite ceph_decode_need_app by (cbn; lia). cbn [negb].
  rewrite ceph_decode_32_le32 by lia. rewrite Nat2Z.id.
  erewrite bind_run by (apply incremental_maps_spec; exact Hincs).
  rewrite bind_assoc. apply bind_cong. intros r s1. rewrite bind_ret.
  destruct r as [[new|]|]; cbn [fmap option_fmap option_map];
    try reflexivity.
  rewrite ceph_decode_need_app by (cbn; lia). cbn [negb].
  rewrite ceph_decode_32_le32 by lia. rewrite Nat2Z.id.
  apply bind_run. apply full_maps_spec. exact Hfulls.
Qed.

End MapRefinement.

Lemma C1_witness :
  let incs := [{| mb_epoch := 6; mb_bytes := [4] |};
               {| mb_epoch := 9; mb_bytes := [1] |}] in
  let fulls := [{| mb_epoch := 20; mb_bytes := le32 20 ++ [2] |}] in
  let s := sample_client osdmap_osd3 in
  ceph_osdc_handle_map sample
    (encode_map_msg (replicate 16 0) incs fulls []) s
  = spec_handle_map sample incs fulls s
  /\ osdmap (after (spec_handle_map sample incs fulls) s)
     = Some {| map_obj := 0; epoch := 6; map_body := [4] |}.
Proof.
  intros incs fulls s. split; [|vm_compute; reflexivity].
  apply C1_handle_map_follows_spec.
  - reflexivity.
  - reflexivity.
  - repeat constructor; cbn; lia.
  - repeat constructor; cbn; lia.
  - cbn; lia.
  - cbn; lia.
Defined.

(** * Further properties of the code *)

(** ** Searching and growing the request index *)

Section IndexSearch.
Context (key : ptr -> Z).

Lemma lookup_request_None t tid :
  __lookup_request key t tid = None ->
  ascending key (inorder t) ->
  forall p, p ∈ inorder t -> key p <> tid.
Proof.
  intros Hnone Hs p Hp Hk. subst tid.
  rewrite (lookup_request_sorted key t p Hs Hp) in Hnone. discriminate.
Qed.

(** X1: in an index ordered by tid, [__lookup_request] returns a request
    exactly when it is indexed under the tid asked for, and [NULL]
    exactly when no indexed request has that tid. *)
Theorem X1_lookup_request_finds_the_tid t tid :
  ascending key (inorder t) ->
  (forall p, __lookup_request key t tid = Some p
             <-> p ∈ inorder t /\ key p = tid)
  /\ (__lookup_request key t tid = None
      <-> forall p, p ∈ inorder t -> key p <> tid).
Proof.
  intros Hs. split.
  - intros p. split; [apply lookup_request_Some|].
    intros [Hp <-]. apply lookup_request_sorted; assumption.
  - split.
    + intros Hn. apply lookup_request_None; assumption.
    + intros Hn.
      destruct (__lookup_request key t tid) as [p|] eqn:Hl; [|reflexivity].
      apply lookup_request_Some in Hl as [Hp Hk]. destruct (Hn p Hp Hk).
Qed.

Lemma rb_link_node_None new t :
  rb_link_node key new t = None ->
  exists p, p ∈ inorder t /\ key p = key new.
Proof.
  induction t as [|c l IHl q r IHr]; [discriminate|]. cbn.
  destruct (Z.ltb_spec (key new) (key q)).
  - destruct (rb_link_node key new l); [discriminate|].
    intros _. destruct (IHl eq_refl) as (p & Hp & Hk).
    exists p. split; [set_solver|assumption].
  - destruct (Z.ltb_spec (key q) (key new)).
    + destruct (rb_link_node key new r); [discriminate|].
      intros _. destruct (IHr eq_refl) as (p & Hp & Hk).
      exists p. split; [set_solver|assumption].
    + intros _. exists q. split; [set_solver|lia].
Qed.

Lemma rb_link_node_sorted new t t' :
  ascending key (inorder t) ->
  rb_link_node key new t = Some t' ->
  ascending key (inorder t')
  /\ forall p, p ∈ inorder t -> key p <> key new.
Proof.
  revert t'. induction t as [|c l IHl q r IHr]; intros t' Hs; cbn.
  - intros [= <-]. split; [repeat constructor|]. intros p Hp. inversion Hp.
  - apply ascending_app in Hs as (Hlr & Hl & Hr).
    apply ascending_cons in Hr as [Hq Hr]. rewrite Forall_forall in Hq.
    destruct (Z.ltb_spec (key new) (key q)).
    + destruct (rb_link_node key new l) as [l'|] eqn:E; [|discriminate].
      intros [= <-]. destruct (IHl l' Hl eq_refl) as [Hl' Hne].
      pose proof (rb_link_node_inorder key new l l' E) as Hperm.
      split.
      * cbn. apply ascending_app. split; [|split; [assumption|]].
        -- intros p p' Hp Hp'. rewrite Hperm in Hp.
           apply elem_of_cons in Hp as [->|Hp].
           ++ apply elem_of_cons in Hp' as [->|Hp']; [assumption|].
              specialize (Hq _ Hp'). lia.
           ++ apply Hlr; assumption.
        -- apply ascending_cons. rewrite Forall_forall. auto.
      * intros p [Hp|Hp]%elem_of_app; [auto|].
        apply elem_of_cons in Hp as [->|Hp]; [lia|].
        specialize (Hq _ Hp). lia.
    + destruct (Z.ltb_spec (key q) (key new)); [|discriminate].
      destruct (rb_link_node key new r) as [r'|] eqn:E; [|discriminate].
      intros [= <-]. destruct (IHr r' Hr eq_refl) as [Hr' Hne].
      pose proof (rb_link_node_inorder key new r r' E) as Hperm.
      split.
      * cbn. apply ascending_app. split; [|split; [assumption|]].
        -- intros p p' Hp Hp'.
           apply elem_of_cons in Hp' as [->|Hp']; [apply Hlr; set_solver|].
           rewrite Hperm in Hp'.
           apply elem_of_cons in Hp' as [->|Hp'].
           ++ assert (key p < key q) by (apply Hlr; set_solver). lia.
           ++ apply Hlr; set_solver.
        -- apply ascending_cons. split; [|assumption].
           rewrite Forall_forall. intros p Hp. rewrite Hperm in Hp.
           apply elem_of_cons in Hp as [->|Hp]; [assumption|auto].
      * intros p [Hp|Hp]%elem_of_app.
        -- assert (key p < key q) by (apply Hlr; set_solver). lia.
        -- apply elem_of_cons in Hp as [->|Hp]; [lia|auto].
Qed.

Lemma lookup_request_same t t' tid :
  ascending key (inorder t) -> ascending key (inorder t') ->
  (forall p, key p = tid -> p ∈ inorder t <-> p ∈ inorder t') ->
  __lookup_request key t tid = __lookup_request key t' tid.
Proof.
  intros Hs Hs' Hiff.
  destruct (__lookup_request key t tid) as [p|] eqn:Hl.
  - apply lookup_request_Some in Hl as [Hp <-]. symmetry.
    apply lookup_request_sorted; [assumption|]. apply Hiff; auto.
  - destruct (__lookup_request key t' tid) as [p|] eqn:Hl'; [|reflexivity].
    apply lookup_request_Some in Hl' as [Hp Hk].
    destruct (lookup_request_None t tid Hl Hs p); [|assumption].
    apply Hiff; assumption.
Qed.

End IndexSearch.

(** X2: [__insert_request] on an index ordered by tid.  It hits [BUG()]
    exactly when a request with the new request's tid is already
    indexed.  Otherwise the index stays ordered and gains the new
    request and nothing else, a lookup of its tid now returns it, and
    every other lookup answers as before. *)
Theorem X2_insert_request_then_lookup K s new :
  rbtree_ok K ->
  ascending (tid_of s) (inorder (requests s)) ->
  (__insert_request K new s = Oops bug s
   <-> exists p, p ∈ inorder (requests s) /\ tid_of s p = tid_of s new)
  /\ ((forall p, p ∈ inorder (requests s) -> tid_of s p <> tid_of s new) ->
      exists s',
        __insert_request K new s = Ok tt s'
        /\ mem s' = mem s
        /\ ascending (tid_of s') (inorder (requests s'))
        /\ inorder (requests s') ≡ₚ new :: inorder (requests s)
        /\ __lookup_request (tid_of s') (requests s') (tid_of s new)
           = Some new
        /\ forall tid, tid <> tid_of s new ->
             __lookup_request (tid_of s') (requests s') tid
             = __lookup_request (tid_of s) (requests s) tid).
Proof.
  intros HK Hs. unfold __insert_request.
  destruct (rb_link_node (tid_of s) new (requests s)) as [t|] eqn:Hl.
  - destruct (rb_link_node_sorted _ _ _ _ Hs Hl) as [Ht Hne].
    pose proof (rb_link_node_inorder _ _ _ _ Hl) as Hperm.
    split.
    + split; [discriminate|]. intros (p & Hp & Hk). destruct (Hne p Hp Hk).
    + intros _. eexists. split; [reflexivity|].
      change (tid_of (set_requests (rb_insert_color K new t) s))
        with (tid_of s).
      cbn [requests mem set_requests].
      rewrite (rb_insert_color_inorder K HK).
      split_and!; try assumption; try reflexivity.
      * apply lookup_request_sorted.
        -- rewrite (rb_insert_color_inorder K HK). assumption.
        -- rewrite (rb_insert_color_inorder K HK), Hperm. set_solver.
      * intros tid Htid. apply lookup_request_same; [|assumption|].
        -- rewrite (rb_insert_color_inorder K HK). assumption.
        -- intros p Hk. rewrite (rb_insert_color_inorder K HK), Hperm.
           split; [|set_solver].
           intros [->|Hp]%elem_of_cons; [congruence|assumption].
  - split.
    + split; [|reflexivity]. intros _. apply rb_link_node_None, Hl.
    + intros Hne. destruct (rb_link_node_None _ _ _ Hl) as (p & Hp & Hk).
      destruct (Hne p Hp Hk).
Qed.

Section IndexSearchGe.
Context (key : ptr -> Z).




End IndexSearchGe.

(** ** Registering *)

Section RegisterSpec.
Context (K : externs) (HK : rbtree_ok K).

Lemma register_request_ok s req r :
  request_mutex s = false ->
  mem s !! req = Some r ->
  (forall p, p ∈ inorder (requests s) -> tid_of s p <= last_tid s) ->
  req ∉ inorder (requests s) ->
  0 <= last_tid s < 2 ^ 64 - 1 ->
  exists s' r',
    register_request K req s = Ok tt s'
    /\ last_tid s' = last_tid s + 1
    /\ mem s' = <[req := r']> (mem s)
    /\ r' = set_r_timeout_stamp (u64 (jiffies s + osd_timeout s * HZ K))
              (set_r_ref (r_ref r + 1)
                 (set_head (set_h_tid (last_tid s + 1))
                    (set_r_tid (last_tid s + 1) r)))
    /\ inorder (requests s') = inorder (requests s) ++ [req]
    /\ num_requests s' = s32 (num_requests s + 1)
    /\ request_mutex s' = false
    /\ osds s' = osds s /\ osdmap s' = osdmap s /\ jiffies s' = jiffies s
    /\ timeout_tid s'
       = (if s32 (num_requests s + 1) =? 1 then last_tid s + 1
          else timeout_tid s)
    /\ trace s'
       = trace s ++ ev_dout_register_request req (last_tid s + 1)
           :: (if s32 (num_requests s + 1) =? 1
               then [ev_schedule_delayed_work
                       (u64 (u64 (jiffies s + osd_timeout s * HZ K)
                             - jiffies s))]
               else [])
    /\ osd_timeout s' = osd_timeout s
    /\ signed_ticket_len s' = signed_ticket_len s
    /\ monmap_fsid s' = monmap_fsid s.
Proof.
  intros Hmx Hm Hidx Hni Hlt. unfold register_request.
  assert (Htid : u64 (last_tid s + 1) = last_tid s + 1)
    by (apply u64_small; lia).
  destruct s as [om lt rq nr ttid os mx stl oto fsid mm jf tr].
  cbn in Hmx, Hm, Hidx, Hni, Hlt, Htid |- *. subst mx.
  mrun. rewrite Htid.
  match goal with
  | |- context [(__insert_request K req ≫= _) ?st] =>
      destruct (rb_link_node_above (tid_of st) req (requests st))
        as (t' & Hlink & Hin)
  end.
  { intros p Hp. unfold tid_of, tid_in. cbn.
    rewrite lookup_insert_eq.
    rewrite lookup_insert_ne by (intros ->; contradiction).
    specialize (Hidx p Hp). unfold tid_of, tid_in in Hidx. cbn in Hidx |- *.
    lia. }
  erewrite bind_insert_request by exact Hlink.
  unfold ceph_osdc_get_request. mrun.
  cbn [requests set_trace set_mem set_last_tid set_request_mutex] in Hin.
  destruct (s32 (nr + 1) =? 1); mrun; unfold mutex_unlock, modify;
    cbv beta iota; flat; rewrite ?insert_insert_eq;
    eexists _, _; (split; [reflexivity|]); cbn;
    rewrite (rb_insert_color_inorder K HK), Hin, <- ?app_assoc;
    split_and!; reflexivity.
Qed.

End RegisterSpec.

(** X4: [register_request] on a client whose mutex is free and whose
    index is ordered by tid with every tid at most [last_tid]: the
    request gets the tid [last_tid + 1] (also written into the message
    header) and one more reference, the counter moves to that tid, a
    lookup of the tid returns the request and every request indexed
    before is still found under its tid, the mutex is released, and the
    timeout work is scheduled exactly when this is the only registered
    request. *)
Theorem X4_register_request K s req r :
  rbtree_ok K ->
  request_mutex s = false ->
  mem s !! req = Some r ->
  ascending (tid_of s) (inorder (requests s)) ->
  (forall p, p ∈ inorder (requests s) -> tid_of s p <= last_tid s) ->
  req ∉ inorder (requests s) ->
  0 <= last_tid s < 2 ^ 64 - 1 ->
  exists s' r',
    register_request K req s = Ok tt s'
    /\ last_tid s' = last_tid s + 1
    /\ mem s' !! req = Some r'
    /\ r_tid r' = last_tid s + 1
    /\ h_tid (m_head (r_request r')) = last_tid s + 1
    /\ r_ref r' = r_ref r + 1
    /\ __lookup_request (tid_of s') (requests s') (last_tid s + 1)
       = Some req
    /\ (forall p, p ∈ inorder (requests s) ->
          __lookup_request (tid_of s') (requests s') (tid_of s p) = Some p)
    /\ num_requests s' = s32 (num_requests s + 1)
    /\ request_mutex s' = false
    /\ (if num_requests s' =? 1
        then timeout_tid s' = last_tid s + 1
             /\ exists d, trace s'
                  = trace s ++ [ev_dout_register_request req (last_tid s + 1);
                                ev_schedule_delayed_work d]
        else timeout_tid s' = timeout_tid s
             /\ trace s'
                = trace s ++ [ev_dout_register_request req (last_tid s + 1)]).
Proof.
  intros HK Hmx Hm Hs Hidx Hni Hlt.
  destruct (register_request_ok K HK s req r Hmx Hm Hidx Hni Hlt)
    as (s' & r' & Hrun & Hlast & Hmem & Hr' & Hin & Hnum & Hmx' & _ & _ & _
        & Htt & Htr & _).
  exists s', r'. split; [exact Hrun|].
  assert (Hkey : forall p, p <> req -> tid_of s' p = tid_of s p).
  { intros p Hp. unfold tid_of, tid_in. rewrite Hmem.
    rewrite lookup_insert_ne by congruence. reflexivity. }
  assert (Hreq : tid_of s' req = last_tid s + 1).
  { unfold tid_of, tid_in. rewrite Hmem, lookup_insert_eq, Hr'. reflexivity. }
  assert (Hs' : ascending (tid_of s') (inorder (requests s'))).
  { rewrite Hin. apply ascending_snoc.
    - eapply ascending_ext; [|exact Hs]. intros p Hp. symmetry.
      apply Hkey. intros ->. contradiction.
    - intros p Hp. rewrite Hreq, Hkey by (intros ->; contradiction).
      specialize (Hidx p Hp). lia. }
  split_and!.
  - exact Hlast.
  - rewrite Hmem. apply lookup_insert_eq.
  - rewrite Hr'. reflexivity.
  - rewrite Hr'. reflexivity.
  - rewrite Hr'. reflexivity.
  - rewrite <- Hreq. apply lookup_request_sorted; [exact Hs'|].
    rewrite Hin. set_solver.
  - intros p Hp. rewrite <- (Hkey p) by (intros ->; contradiction).
    apply lookup_request_sorted; [exact Hs'|]. rewrite Hin. set_solver.
  - exact Hnum.
  - exact Hmx'.
  - rewrite Hnum, Htt, Htr.
    destruct (s32 (num_requests s + 1) =? 1); split; eauto.
Qed.

(** ** Reference counts *)

Lemma set_mem_same s : set_mem (mem s) s = s.
Proof. destruct s. reflexivity. Qed.

Lemma set_r_ref_same r : set_r_ref (r_ref r) r = r.
Proof. destruct r. reflexivity. Qed.


(** ** Unregistering *)

Section UnregisterSpec.
Context (K : externs) (HK : rbtree_ok K).

(** The timeout anchor after [__unregister_request]. *)
Lemma unregister_request_timeout s req r o osd :
  index_ok s ->
  req ∈ inorder (requests s) ->
  mem s !! req = Some r -> 2 <= r_ref r ->
  r_osd r = Some o -> osds s !! o = Some osd ->
  (filter (fun q => q <> req) (o_requests osd) = [] -> is_Some (o_con osd)) ->
  exists s',
    __unregister_request K req s = Ok tt s'
    /\ if r_tid r =? timeout_tid s then
         match filter (fun q => q <> req) (inorder (requests s)) with
         | [] =>
             timeout_tid s' = 0
             /\ last (trace s') = Some ev_cancel_delayed_work
         | q :: _ =>
             timeout_tid s' = tid_of s q
             /\ exists d, last (trace s') = Some (ev_schedule_delayed_work d)
         end
       else
         timeout_tid s' = timeout_tid s
         /\ (ev_cancel_delayed_work ∉ drop (length (trace s)) (trace s'))
         /\ forall d, ev_schedule_delayed_work d
                      ∉ drop (length (trace s)) (trace s').
Proof.
  intros [Hsort Halloc Hcount Hsmall] Hin Hm Href Ho Hosd Hcon.
  pose proof (ascending_NoDup _ _ Hsort) as Hnd.
  pose proof (rb_erase_inorder K HK req (requests s) Hnd) as Herase.
  pose proof (filter_ne_length _ req Hnd Hin) as Hlen.
  destruct s as [om lt rq nr ttid os mx stl oto fsid mm jf tr].
  unfold tid_of.
  cbn [requests mem osds num_requests timeout_tid trace] in *.
  unfold __unregister_request, list_del_init_r_osd_item, destroy_osd,
    ceph_osdc_put_request.
  mrun. rewrite Ho. mrun.
  assert (Hrefb : (r_ref r <=? 0) = false) by (apply Z.leb_gt; lia).
  assert (Hrefz : (r_ref r - 1 =? 0) = false) by (apply Z.eqb_neq; lia).
  assert (Hn : s32 (nr - 1)
               = Z.of_nat (length (filter (fun q => q <> req) (inorder rq)))).
  { rewrite s32_small by lia. lia. }
  assert (Hfirst : rb_first (rb_erase K req rq)
                   = head (filter (fun q => q <> req) (inorder rq))).
  { rewrite rb_first_inorder, Herase. reflexivity. }
  assert (Hother : forall q, q ∈ filter (fun q => q <> req) (inorder rq) ->
            q <> req /\ exists rq', mm !! q = Some rq').
  { intros q [Hne Hq]%list_elem_of_filter. split; [exact Hne|].
    destruct (Halloc q Hq) as [rq' Hrq']. eauto. }
  destruct (filter (fun q => q <> req) (o_requests osd)) as [|q0 rest] eqn:Hrest;
    [destruct Hcon as [c Hc]; [reflexivity|]; mrun; rewrite Hc; mrun | mrun];
    cbn [r_ref set_r_osd]; rewrite Hrefb; mrun; rewrite Hrefz; mrun;
    cbn [r_tid set_r_ref set_r_osd];
    (destruct (r_tid r =? ttid); mrun;
     [ rewrite Hn;
       destruct (filter (fun q => q <> req) (inorder rq)) as [|q l] eqn:Hf;
       mrun;
       [ | destruct (Hother q) as (Hne & rq' & Hq); [left|];
           assert ((Z.of_nat (length (q :: l)) =? 0) = false) as ->
             by reflexivity;
           mrun; rewrite Hfirst; cbn [head]; mrun ]
     | ]);
    (eexists; split; [reflexivity|]; proj_simpl).
  all: rewrite ?drop_app_length.
  all: rewrite ?drop_all.
  all: try (split; [reflexivity|]; rewrite last_snoc; reflexivity).
  all: try (split; [unfold tid_in; rewrite Hq; reflexivity|];
            eexists; rewrite last_snoc; reflexivity).
  all: split_and!; [reflexivity| |intros d];
    first [ intros Hx%list_elem_of_singleton; discriminate Hx
          | intros Hx; inversion Hx ].
Qed.

(** X6: [__unregister_request] on an indexed request routed to a
    session, with a reference besides the index's.  The request leaves
    the index (a lookup of its tid gives [NULL], every other request is
    still found) and its session's list, its [r_osd] is cleared and one
    reference dropped; the session is destroyed exactly when the list
    became empty.  If the request was the timeout anchor, the timeout is
    cancelled when no request is left and otherwise moved to the
    remaining request with the lowest tid; if it was not, the timeout
    work is left alone. *)
Theorem X6_unregister_request s req r o osd :
  index_ok s ->
  req ∈ inorder (requests s) ->
  mem s !! req = Some r -> 2 <= r_ref r ->
  r_osd r = Some o -> osds s !! o = Some osd ->
  (filter (fun q => q <> req) (o_requests osd) = [] -> is_Some (o_con osd)) ->
  exists s',
    __unregister_request K req s = Ok tt s'
    /\ __lookup_request (tid_of s') (requests s') (r_tid r) = None
    /\ (forall p, p ∈ inorder (requests s) -> p <> req ->
          __lookup_request (tid_of s') (requests s') (tid_of s p) = Some p)
    /\ num_requests s' = num_requests s - 1
    /\ mem s' = <[req := set_r_ref (r_ref r - 1) (set_r_osd None r)]> (mem s)
    /\ match filter (fun q => q <> req) (o_requests osd) with
       | [] => osds s' = delete o (osds s)
               /\ exists c, o_con osd = Some c /\ ev_con_put c ∈ trace s'
       | rest =>
           osds s' = <[o := {| o_osd := o_osd osd; o_requests := rest;
                               o_con := o_con osd |}]> (osds s)
       end
    /\ if r_tid r =? timeout_tid s then
         match filter (fun q => q <> req) (inorder (requests s)) with
         | [] =>
             timeout_tid s' = 0
             /\ last (trace s') = Some ev_cancel_delayed_work
         | q :: _ =>
             timeout_tid s' = tid_of s q
             /\ (forall p, p ∈ inorder (requests s') ->
                   tid_of s q <= tid_of s p)
             /\ exists d, last (trace s') = Some (ev_schedule_delayed_work d)
         end
       else
         timeout_tid s' = timeout_tid s
         /\ (ev_cancel_delayed_work ∉ drop (length (trace s)) (trace s'))
         /\ forall d, ev_schedule_delayed_work d
                      ∉ drop (length (trace s)) (trace s').
Proof.
  intros Hidx Hin Hm Href Ho Hosd Hcon.
  destruct (unregister_request_ok K HK s req r o osd Hidx Hin Hm Href Ho Hosd
              Hcon)
    as (s' & Hrun & Hrq & Hmem & Hos & Hput & _ & _ & _ & Hnum & _).
  destruct (unregister_request_timeout s req r o osd Hidx Hin Hm Href Ho Hosd
              Hcon) as (s2 & Hrun2 & Htime).
  assert (s2 = s') as -> by congruence.
  destruct Hidx as [Hsort _ _ _].
  pose proof (ascending_NoDup _ _ Hsort) as Hnd.
  assert (Hino : inorder (requests s')
                 = filter (fun q => q <> req) (inorder (requests s))).
  { rewrite Hrq. apply (rb_erase_inorder K HK). exact Hnd. }
  assert (Hkey : forall p, tid_of s' p = tid_of s p).
  { intros p. unfold tid_of, tid_in. rewrite Hmem.
    destruct (decide (p = req)) as [->|Hne].
    - rewrite lookup_insert_eq, Hm. reflexivity.
    - rewrite lookup_insert_ne by congruence. reflexivity. }
  assert (Hs' : ascending (tid_of s') (inorder (requests s'))).
  { rewrite Hino. apply ascending_filter.
    eapply ascending_ext; [|exact Hsort]. intros; symmetry; apply Hkey. }
  assert (Hreq : tid_of s req = r_tid r).
  { unfold tid_of, tid_in. rewrite Hm. reflexivity. }
  exists s'. split; [exact Hrun|]. split_and!.
  - destruct (__lookup_request (tid_of s') (requests s') (r_tid r))
      as [q|] eqn:Hq; [exfalso|reflexivity].
    apply lookup_request_Some in Hq as [Hqin Hqk].
    rewrite Hino in Hqin. apply list_elem_of_filter in Hqin as [Hne Hqin].
    apply Hne. eapply ascending_inj; [exact Hsort|exact Hqin|exact Hin|].
    rewrite <- Hkey, Hqk, Hreq. reflexivity.
  - intros p Hp Hne. rewrite <- Hkey.
    apply lookup_request_sorted; [exact Hs'|]. rewrite Hino.
    apply list_elem_of_filter. auto.
  - exact Hnum.
  - exact Hmem.
  - destruct (filter (fun q => q <> req) (o_requests osd)) eqn:Hf.
    + split; [exact Hos|]. apply Hput. reflexivity.
    + exact Hos.
  - destruct (r_tid r =? timeout_tid s); [|exact Htime].
    destruct (filter (fun q => q <> req) (inorder (requests s)))
      as [|q l] eqn:Hf; [exact Htime|].
    destruct Htime as [Ht Hd]. split_and!; [exact Ht| |exact Hd].
    intros p Hp. rewrite Hino in Hp, Hs'.
    apply ascending_cons in Hs' as [Hq _]. rewrite Forall_forall in Hq.
    apply elem_of_cons in Hp as [->|Hp]; [lia|].
    specialize (Hq p Hp). rewrite !Hkey in Hq. lia.
Qed.

End UnregisterSpec.

(** ** What a reply records and signals *)

Lemma no_signal_since_refl s : no_signal_since (trace s) s.
Proof. exists []. rewrite app_nil_r. split; [reflexivity|constructor]. Qed.

Lemma no_signal_since_emit t0 s e :
  any_signal e = false ->
  no_signal_since t0 s -> no_signal_since t0 (set_trace (trace s ++ [e]) s).
Proof.
  intros He (t & Ht & HF). exists (t ++ [e]). split.
  - cbn. rewrite Ht, app_assoc. reflexivity.
  - apply Forall_app. split; [assumption|]. repeat constructor. assumption.
Qed.

Lemma no_signal_since_fields t0 s s' :
  trace s' = trace s -> no_signal_since t0 s -> no_signal_since t0 s'.
Proof. intros Ht (t & Hs & HF). exists t. rewrite Ht. auto. Qed.

Ltac no_signal_side :=
  first
    [ assumption
    | apply no_signal_since_emit; [reflexivity | assumption]
    | match goal with
      | H : no_signal_since _ ?s |- _ =>
          apply (no_signal_since_fields _ s); [reflexivity | exact H]
      end ].

Ltac pres_side ::=
  cbv beta;
  lazymatch goal with
  | |- tid_inv _ => tid_side
  | |- silent_since _ _ _ => silent_side
  | |- no_signal_since _ _ => no_signal_side
  | H : aborted_inv _ _ _ |- aborted_inv _ _ _ =>
      destruct H; split; [tid_side | silent_side]
  end.

Lemma unregister_request_no_signal K t0 req :
  preserves (no_signal_since t0) (__unregister_request K req).
Proof.
  unfold __unregister_request, list_del_init_r_osd_item, destroy_osd,
    ceph_osdc_put_request.
  pres.
Qed.

(** Updates of an explicit client record, carried out where the record
    is explicit. *)
Ltac flat_state :=
  repeat match goal with
  | |- context [set_mem ?v (Build_ceph_osd_client ?a ?b ?c ?d ?e ?f ?g ?h
                              ?i ?j ?k ?l ?m)] =>
      change (set_mem v (Build_ceph_osd_client a b c d e f g h i j k l m))
        with (Build_ceph_osd_client a b c d e f g h i j v l m)
  | |- context [set_trace ?v (Build_ceph_osd_client ?a ?b ?c ?d ?e ?f ?g ?h
                                ?i ?j ?k ?l ?m)] =>
      change (set_trace v (Build_ceph_osd_client a b c d e f g h i j k l m))
        with (Build_ceph_osd_client a b c d e f g h i j k l v)
  | |- context [set_request_mutex ?v (Build_ceph_osd_client ?a ?b ?c ?d ?e
                                        ?f ?g ?h ?i ?j ?k ?l ?m)] =>
      change (set_request_mutex v
                (Build_ceph_osd_client a b c d e f g h i j k l m))
        with (Build_ceph_osd_client a b c d e f v h i j k l m)
  | |- context [set_requests ?v (Build_ceph_osd_client ?a ?b ?c ?d ?e ?f ?g
                                   ?h ?i ?j ?k ?l ?m)] =>
      change (set_requests v
                (Build_ceph_osd_client a b c d e f g h i j k l m))
        with (Build_ceph_osd_client a b v d e f g h i j k l m)
  | |- context [set_osds ?v (Build_ceph_osd_client ?a ?b ?c ?d ?e ?f ?g ?h
                               ?i ?j ?k ?l ?m)] =>
      change (set_osds v (Build_ceph_osd_client a b c d e f g h i j k l m))
        with (Build_ceph_osd_client a b c d e v g h i j k l m)
  | |- context [set_num_requests ?v (Build_ceph_osd_client ?a ?b ?c ?d ?e
                                       ?f ?g ?h ?i ?j ?k ?l ?m)] =>
      change (set_num_requests v
                (Build_ceph_osd_client a b c d e f g h i j k l m))
        with (Build_ceph_osd_client a b c v e f g h i j k l m)
  | |- context [set_timeout_tid ?v (Build_ceph_osd_client ?a ?b ?c ?d ?e
                                      ?f ?g ?h ?i ?j ?k ?l ?m)] =>
      change (set_timeout_tid v
                (Build_ceph_osd_client a b c d e f g h i j k l m))
        with (Build_ceph_osd_client a b c d v f g h i j k l m)
  | |- context [set_last_tid ?v (Build_ceph_osd_client ?a ?b ?c ?d ?e ?f ?g
                                   ?h ?i ?j ?k ?l ?m)] =>
      change (set_last_tid v
                (Build_ceph_osd_client a b c d e f g h i j k l m))
        with (Build_ceph_osd_client a v c d e f g h i j k l m)
  | |- context [set_osdmap ?v (Build_ceph_osd_client ?a ?b ?c ?d ?e ?f ?g
                                 ?h ?i ?j ?k ?l ?m)] =>
      change (set_osdmap v
                (Build_ceph_osd_client a b c d e f g h i j k l m))
        with (Build_ceph_osd_client v b c d e f g h i j k l m)
  end.

Section ReplyRecords.
Context (K : externs).

(** The handler from [mutex_unlock] to [done], with its calls. *)
Lemma reply_tail_trace req flags s r :
  mem s !! req = Some r -> 1 <= r_ref r ->
  exists s',
    (mutex_unlock;;
     r ← deref req;
     (if r_callback r then emit (ev_callback req)
      else emit (ev_complete req));;
     (if flag_set flags (CEPH_OSD_FLAG_ONDISK K) then
        (if r_safe_callback r then emit (ev_safe_callback req)
         else mret tt);;
        emit (ev_safe_complete req)
      else mret tt);;
     ceph_osdc_put_request req) s = Ok tt s'
    /\ mem s' = <[req := set_r_ref (r_ref r - 1) r]> (mem s)
    /\ request_mutex s' = false
    /\ trace s'
       = trace s ++ reply_signals K req r flags
           ++ (if r_ref r =? 1 then [ev_free_request req] else [])
    /\ requests s' = requests s /\ osds s' = osds s
    /\ num_requests s' = num_requests s /\ last_tid s' = last_tid s
    /\ osdmap s' = osdmap s.
Proof.
  intros Hm Href.
  assert (Hb : (r_ref r <=? 0) = false) by (apply Z.leb_gt; lia).
  assert (Hz : (r_ref r - 1 =? 0) = (r_ref r =? 1)).
  { destruct (Z.eqb_spec (r_ref r) 1) as [->|Hne]; [reflexivity|].
    apply Z.eqb_neq. lia. }
  destruct s as [om lt rq nr ttid os mx stl oto fsid mm jf tr].
  cbn in Hm. unfold ceph_osdc_put_request, reply_signals. mrun.
  destruct (r_callback r); mrun;
    (destruct (flag_set flags (CEPH_OSD_FLAG_ONDISK K)); mrun;
     [destruct (r_safe_callback r); mrun|]);
    rewrite Hb; mrun; rewrite Hz;
    (destruct (r_ref r =? 1); unfold mret, M_ret, emit, modify;
     eexists; (split; [reflexivity|]); flat;
     split_and!; try reflexivity;
     cbn [app]; rewrite <- ?app_assoc; cbn [app]; rewrite ?app_nil_r;
     reflexivity).
Qed.

Context (HK : rbtree_ok K).

(** What a reply the handler acts on records in the request and
    signals. *)
Lemma reply_records msg s req r o osd :
  index_ok s ->
  reply_well_formed K msg = true -> request_mutex s = false ->
  __lookup_request (tid_of s) (requests s) (u64 (rm_tid msg)) = Some req ->
  mem s !! req = Some r -> 1 <= r_ref r ->
  r_aborted r = false ->
  r_got_reply r = false
  \/ flag_set (s32 (rm_flags msg)) (CEPH_OSD_FLAG_ONDISK K) = true ->
  r_osd r = Some o -> osds s !! o = Some osd ->
  (filter (fun q => q <> req) (o_requests osd) = [] -> is_Some (o_con osd)) ->
  exists s' r' pre post,
    ceph_osdc_handle_reply K msg s = Ok tt s'
    /\ mem s' = <[req := r']> (mem s)
    /\ r_got_reply r' = true
    /\ r_result r'
       = (if r_got_reply r then r_result r
          else if s32 (rm_result msg) =? 0 then s32 (u32 (rm_data_len msg))
               else s32 (rm_result msg))
    /\ r_reassert_version r'
       = (if r_got_reply r then r_reassert_version r
          else rm_reassert_version msg)
    /\ r_reply r' = None
    /\ trace s'
       = trace s ++ pre ++ reply_signals K req r (s32 (rm_flags msg)) ++ post
    /\ Forall (fun e => any_signal e = false) pre
    /\ Forall (fun e => any_signal e = false) post
    /\ let unreg :=
         flag_set (s32 (rm_flags msg)) (CEPH_OSD_FLAG_ONDISK K)
         || negb (flag_set (s32 (rm_flags msg)) (CEPH_OSD_FLAG_WRITE K)) in
       r_ref r' = r_ref r - (if unreg then 1 else 0)
       /\ r_osd r' = (if unreg then None else Some o)
       /\ requests s'
          = (if unreg then rb_erase K req (requests s) else requests s)
       /\ osds s'
          = (if unreg then
               match filter (fun q => q <> req) (o_requests osd) with
               | [] => delete o (osds s)
               | rest =>
                   <[o := {| o_osd := o_osd osd; o_requests := rest;
                             o_con := o_con osd |}]> (osds s)
               end
             else osds s)
       /\ num_requests s' = num_requests s - (if unreg then 1 else 0)
       /\ last_tid s' = last_tid s
       /\ request_mutex s' = false
       /\ osdmap s' = osdmap s.
Proof.
  intros Hidx H Hmx Hl Hm Href Hab Hfirst Ho Hosd Hcon.
  unfold ceph_osdc_handle_reply. rewrite H. cbn [negb].
  set (flags := s32 (rm_flags msg)) in *.
  assert (Hidx0 := Hidx).
  destruct s as [om lt rq nr ttid os mx stl oto fsid mm jf tr].
  unfold tid_of in *. cbn in Hmx, Hl, Hm, Hosd. subst mx.
  mrun. rewrite Hl. unfold ceph_osdc_get_request. mrun.
  assert (Hin : req ∈ inorder rq).
  { eapply lookup_request_Some in Hl. apply Hl. }
  destruct r as [tid fl res ab got pp rs ro rrep ref cb scb rv ts oid oidl
                 pg np fly snc mp rq_].
  cbn in Hab, Ho, Href, Hfirst. subst ab ro.
  set (unreg := flag_set flags (CEPH_OSD_FLAG_ONDISK K)
                || negb (flag_set flags (CEPH_OSD_FLAG_WRITE K))).
  assert (Hstep : forall tr0 (r0 : ceph_osd_request),
    r_ref r0 = ref + 1 -> r_osd r0 = Some o -> r_tid r0 = tid ->
    r_callback r0 = cb -> r_safe_callback r0 = scb ->
    exists s' r' pre post,
    ((if unreg then __unregister_request K req else mret tt) ≫= (fun _ =>
     mutex_unlock;;
     r ← deref req;
     (if r_callback r then emit (ev_callback req)
      else emit (ev_complete req));;
     (if flag_set flags (CEPH_OSD_FLAG_ONDISK K) then
        (if r_safe_callback r then emit (ev_safe_callback req)
         else mret tt);;
        emit (ev_safe_complete req)
      else mret tt);;
     ceph_osdc_put_request req))
      {| osdmap := om; last_tid := lt; requests := rq; num_requests := nr;
         timeout_tid := ttid; osds := os; request_mutex := true;
         signed_ticket_len := stl; osd_timeout := oto; monmap_fsid := fsid;
         mem := <[req := r0]> mm; jiffies := jf; trace := tr0 |} = Ok tt s'
    /\ mem s' = <[req := r']> mm
    /\ r_got_reply r' = r_got_reply r0
    /\ r_result r' = r_result r0
    /\ r_reassert_version r' = r_reassert_version r0
    /\ r_reply r' = r_reply r0
    /\ trace s'
       = tr0 ++ pre
           ++ ((if cb then ev_callback req else ev_complete req)
               :: (if flag_set flags (CEPH_OSD_FLAG_ONDISK K)
                   then (if scb then [ev_safe_callback req] else [])
                        ++ [ev_safe_complete req]
                   else [])) ++ post
    /\ Forall (fun e => any_signal e = false) pre
    /\ Forall (fun e => any_signal e = false) post
    /\ r_ref r' = ref - (if unreg then 1 else 0)
    /\ r_osd r' = (if unreg then None else Some o)
    /\ requests s' = (if unreg then rb_erase K req rq else rq)
    /\ osds s'
       = (if unreg then
            match filter (fun q => q <> req) (o_requests osd) with
            | [] => delete o os
            | rest =>
                <[o := {| o_osd := o_osd osd; o_requests := rest;
                          o_con := o_con osd |}]> os
            end
          else os)
    /\ num_requests s' = nr - (if unreg then 1 else 0)
    /\ last_tid s' = lt
    /\ request_mutex s' = false
    /\ osdmap s' = om).
  { intros tr0 r0 Hr0 Ho0 Ht0 Hcb Hscb.
    set (st := {| osdmap := om; last_tid := lt; requests := rq;
                  num_requests := nr; timeout_tid := ttid; osds := os;
                  request_mutex := true; signed_ticket_len := stl;
                  osd_timeout := oto; monmap_fsid := fsid;
                  mem := <[req := r0]> mm; jiffies := jf; trace := tr0 |}).
    assert (Hpost : forall z : Z,
              Forall (fun e => any_signal e = false)
                (if z =? 1 then [ev_free_request req] else [])).
    { intros z. destruct (z =? 1); repeat constructor. }
    destruct unreg.
    - edestruct (unregister_request_ok K HK st req r0 o osd)
        as (s1 & Hrun & Hrq & Hmem & Hos & _ & _ & Hlt1 & Hom1 & Hnum1 & _);
        [ | exact Hin | apply lookup_insert_eq | lia | exact Ho0 | exact Hosd
          | exact Hcon | ].
      { eapply index_ok_ext; [ | | | | exact Hidx0]; try reflexivity.
        - intros p. unfold tid_of, tid_in. cbn [mem st].
          destruct (decide (p = req)) as [->|Hne].
          + rewrite lookup_insert_eq, Hm. cbn. exact Ht0.
          + rewrite lookup_insert_ne by congruence. reflexivity.
        - intros p. cbn [mem st].
          destruct (decide (p = req)) as [->|Hne].
          + rewrite lookup_insert_eq. eauto.
          + rewrite lookup_insert_ne by congruence. auto. }
      pose proof (unregister_request_no_signal K tr0 req st
                    (no_signal_since_refl st)) as (pre & Hpre & HFpre).
      rewrite Hrun in Hpre. cbn [final] in Hpre.
      rewrite (bind_ok _ _ _ _ _ Hrun).
      edestruct (reply_tail_trace req flags s1)
        as (s2 & Hrun2 & T1 & T2 & T3 & T4 & T5 & T6 & T7 & T8).
      { rewrite Hmem. apply lookup_insert_eq. }
      { cbn. lia. }
      exists s2. eexists. exists pre. eexists.
      split; [exact Hrun2|].
      rewrite T1, T3, T4, T5, T6, T7, T8, Hmem, Hpre, Hrq, Hos, Hlt1, Hom1,
        Hnum1.
      cbn [mem st requests osds last_tid osdmap num_requests].
      rewrite !insert_insert_eq.
      split; [reflexivity|].
      split; [reflexivity|].
      split; [reflexivity|].
      split; [reflexivity|].
      split; [reflexivity|].
      split.
      { unfold reply_signals. rewrite <- !app_assoc, <- Hcb, <- Hscb.
        reflexivity. }
      split; [exact HFpre|]. split; [apply Hpost|].
      split; [cbn; lia|].
      split_and!; first [reflexivity | exact T2].
    - rewrite bind_ret.
      edestruct (reply_tail_trace req flags st)
        as (s2 & Hrun2 & T1 & T2 & T3 & T4 & T5 & T6 & T7 & T8).
      { apply lookup_insert_eq. }
      { lia. }
      exists s2. eexists. exists []. eexists.
      split; [exact Hrun2|].
      rewrite T1, T3, T4, T5, T6, T7, T8.
      cbn [mem st trace requests osds last_tid osdmap num_requests].
      rewrite !insert_insert_eq.
      split; [reflexivity|].
      split; [reflexivity|].
      split; [reflexivity|].
      split; [reflexivity|].
      split; [reflexivity|].
      split.
      { unfold reply_signals. rewrite <- Hcb, <- Hscb. reflexivity. }
      split; [constructor|]. split; [apply Hpost|].
      split; [cbn; lia|].
      split_and!; first [exact Ho0 | reflexivity | exact T2 | lia]. }
  repeat match goal with
  | |- context [r_reply ?x] => progress change (r_reply x) with rrep
  | |- context [r_aborted ?x] => progress change (r_aborted x) with false
  | |- context [r_got_reply ?x] => progress change (r_got_reply x) with got
  end.
  destruct rrep; mrun; rewrite ?insert_insert_eq;
    (destruct got; cbn [negb]; mrun; rewrite ?insert_insert_eq;
     [ destruct Hfirst as [Hf|Hf]; [discriminate|];
       assert (Hn : negb (flag_set flags (CEPH_OSD_FLAG_ONDISK K)) = false)
         by (rewrite Hf; reflexivity);
       rewrite Hn
     | ]);
    flat_state; rewrite ?insert_insert_eq;
    match goal with
    | |- context [Build_ceph_osd_client _ _ _ _ _ _ _ _ _ _
                    (<[req := ?r0]> mm) _ ?tr0] =>
        destruct (Hstep tr0 r0 eq_refl eq_refl eq_refl eq_refl eq_refl)
          as (s' & r' & pre & post & Hrun & E1 & E2 & E3 & E4 & E5 & E6
              & F1 & F2 & G1 & G2 & G3 & G4 & G5 & G6 & G7 & G8);
        exists s', r', (drop (length tr) tr0 ++ pre), post
    end;
    (split; [exact Hrun|]);
    rewrite E1, E2, E3, E4, E5, E6;
    rewrite ?drop_app_length, ?drop_all;
    (split_and!;
     [ reflexivity | reflexivity | reflexivity | reflexivity | reflexivity
     | unfold reply_signals; cbn [r_callback r_safe_callback];
       rewrite <- ?app_assoc; reflexivity
     | apply Forall_app; split; [repeat constructor|exact F1]
     | exact F2
     | exact G1 | exact G2 | exact G3 | exact G4 | exact G5 | exact G6
     | exact G7 | exact G8 ]).
Qed.
End ReplyRecords.

Lemma filter_no_signal t :
  Forall (fun e => any_signal e = false) t -> List.filter any_signal t = [].
Proof.
  induction 1 as [|e t He _ IH]; [reflexivity|]. cbn. rewrite He. exact IH.
Qed.

Lemma filter_reply_signals K req r flags :
  List.filter any_signal (reply_signals K req r flags)
  = reply_signals K req r flags.
Proof.
  unfold reply_signals.
  destruct (r_callback r), (flag_set flags (CEPH_OSD_FLAG_ONDISK K)),
    (r_safe_callback r); reflexivity.
Qed.

(** X7: a reply that is malformed changes nothing but for the [pr_err]
    line, and does not take the mutex; a well-formed reply whose tid no
    indexed request has (the index being ordered by tid) leaves the
    client exactly as it was, with the mutex released. *)
Theorem X7_reply_for_no_request K msg s :
  (reply_well_formed K msg = false ->
   ceph_osdc_handle_reply K msg s
   = Ok tt (set_trace (trace s ++ [ev_pr_err "corrupt osd_op_reply"]) s))
  /\ (reply_well_formed K msg = true -> request_mutex s = false ->
      ascending (tid_of s) (inorder (requests s)) ->
      (forall p, p ∈ inorder (requests s) -> tid_of s p <> u64 (rm_tid msg)) ->
      ceph_osdc_handle_reply K msg s = Ok tt s).
Proof.
  split.
  - apply reply_not_well_formed.
  - intros Hwf Hmx Hs Hno. apply reply_unknown_tid; try assumption.
    destruct (__lookup_request (tid_of s) (requests s) (u64 (rm_tid msg)))
      as [p|] eqn:Hl; [|reflexivity].
    apply lookup_request_Some in Hl as [Hp Hk]. destruct (Hno p Hp Hk).
Qed.

(** X8: a reply the handler acts on (well formed, for an indexed, routed
    request that is not aborted, and the first reply or one with
    [ONDISK]).  The first reply records the result (the reply's result,
    or the data length when that is 0) and the reassert version; a later
    one leaves them.  In both cases [r_got_reply] is set, the reference
    to the incoming message is given up, the mutex is released, and the
    signals are, in this order: the callback if there is one and else
    the completion; then, when the flags include [ONDISK], the safe
    callback if there is one, and the safe completion. *)
Theorem X8_reply_records_and_signals K msg s req r o osd :
  rbtree_ok K ->
  index_ok s ->
  reply_well_formed K msg = true -> request_mutex s = false ->
  __lookup_request (tid_of s) (requests s) (u64 (rm_tid msg)) = Some req ->
  mem s !! req = Some r -> 1 <= r_ref r ->
  r_aborted r = false ->
  r_got_reply r = false
  \/ flag_set (s32 (rm_flags msg)) (CEPH_OSD_FLAG_ONDISK K) = true ->
  r_osd r = Some o -> osds s !! o = Some osd ->
  (filter (fun q => q <> req) (o_requests osd) = [] -> is_Some (o_con osd)) ->
  exists s' r',
    ceph_osdc_handle_reply K msg s = Ok tt s'
    /\ mem s' !! req = Some r'
    /\ r_got_reply r' = true
    /\ r_result r'
       = (if r_got_reply r then r_result r
          else if s32 (rm_result msg) =? 0 then s32 (u32 (rm_data_len msg))
               else s32 (rm_result msg))
    /\ r_reassert_version r'
       = (if r_got_reply r then r_reassert_version r
          else rm_reassert_version msg)
    /\ r_reply r' = None
    /\ request_mutex s' = false
    /\ List.filter any_signal (drop (length (trace s)) (trace s'))
       = (if r_callback r then ev_callback req else ev_complete req)
         :: (if flag_set (s32 (rm_flags msg)) (CEPH_OSD_FLAG_ONDISK K)
             then (if r_safe_callback r then [ev_safe_callback req] else [])
                  ++ [ev_safe_complete req]
             else []).
Proof.
  intros HK Hidx H Hmx Hl Hm Href Hab Hfirst Ho Hosd Hcon.
  destruct (reply_records K HK msg s req r o osd Hidx H Hmx Hl Hm Href Hab
              Hfirst Ho Hosd Hcon)
    as (s' & r' & pre & post & Hrun & Hmem & Hgot & Hres & Hrv & Hrep & Htr
        & Hpre & Hpost & _).
  destruct (reply_processed K HK msg s req r o osd Hidx H Hmx Hl Hm Href Hab
              Hfirst Ho Hosd Hcon)
    as (s2 & r2 & Hrun2 & _ & _ & _ & _ & _ & _ & Hmx' & _).
  assert (s2 = s') as -> by congruence.
  exists s', r'. split; [exact Hrun|].
  split; [rewrite Hmem; apply lookup_insert_eq|].
  split_and!; try assumption.
  rewrite Htr, drop_app_length, !List.filter_app.
  rewrite (filter_no_signal pre Hpre), (filter_no_signal post Hpost).
  rewrite filter_reply_signals, app_nil_r. reflexivity.
Qed.

(** ** The map handler: what it leaves alone, and the first map *)

Lemma same_requests_step s0 s s' :
  requests s' = requests s -> mem s' = mem s -> osds s' = osds s ->
  last_tid s' = last_tid s -> num_requests s' = num_requests s ->
  timeout_tid s' = timeout_tid s -> request_mutex s' = request_mutex s ->
  same_requests s0 s -> same_requests s0 s'.
Proof.
  unfold same_requests. intros -> -> -> -> -> -> ->. auto.
Qed.

Ltac same_requests_side :=
  first
    [ assumption
    | match goal with
      | H : same_requests _ ?s |- _ =>
          apply (same_requests_step _ s); [reflexivity .. | exact H]
      end ].

Ltac pres_side ::=
  cbv beta;
  lazymatch goal with
  | |- tid_inv _ => tid_side
  | |- silent_since _ _ _ => silent_side
  | |- no_signal_since _ _ => no_signal_side
  | |- same_requests _ _ => same_requests_side
  | H : aborted_inv _ _ _ |- aborted_inv _ _ _ =>
      destruct H; split; [tid_side | silent_side]
  | H : map_frame _ _ |- map_frame _ _ =>
      destruct H; split; [same_requests_side | no_signal_side]
  end.

Section MapFrame.
Context (K : externs) (s0 : ceph_osd_client).

Lemma incremental_maps_kept n p newmap :
  preserves (map_frame s0) (incremental_maps K n p newmap).
Proof.
  revert p newmap. induction n as [|n IH]; intros p newmap;
    cbn [incremental_maps].
  - pres.
  - unfold ceph_decode_32. pres; apply IH.
Qed.

Lemma full_maps_kept n p newmap :
  preserves (map_frame s0) (full_maps K n p newmap).
Proof.
  revert p newmap. induction n as [|n IH]; intros p newmap; cbn [full_maps].
  - pres.
  - unfold ceph_decode_32. pres; apply IH.
Qed.

Lemma handle_map_kept front :
  preserves (map_frame s0) (ceph_osdc_handle_map K front).
Proof.
  unfold ceph_osdc_handle_map, bad, handle_map_done, kick_requests,
    ceph_decode_32.
  pres; first [apply incremental_maps_kept | apply full_maps_kept].
Qed.

End MapFrame.

(** X9: whatever bytes arrive, and however the handler ends, an osd-map
    message changes neither the index, the requests, the sessions, the
    tid counter, the request count, the timeout anchor nor the mutex,
    and makes no call to [ceph_con_send], to a callback or to a
    completion: with the body of [kick_requests] compiled out, a new map
    re-sends nothing. *)
Theorem X9_handle_map_touches_only_the_map K front s :
  let s' := after (ceph_osdc_handle_map K front) s in
  requests s' = requests s /\ mem s' = mem s /\ osds s' = osds s
  /\ last_tid s' = last_tid s /\ num_requests s' = num_requests s
  /\ timeout_tid s' = timeout_tid s /\ request_mutex s' = request_mutex s
  /\ exists t, trace s' = trace s ++ t
               /\ Forall (fun e => any_signal e = false) t.
Proof.
  intros s'.
  assert (H0 : map_frame s s).
  { split; [repeat split|apply no_signal_since_refl]. }
  destruct (handle_map_kept K s front s H0)
    as [(H1 & H2 & H3 & H4 & H5 & H6 & H7) H8].
  split_and!; assumption.
Qed.

Section FirstMap.
Context (K : externs).

(** On a message that encodes two lists of blobs the handler runs the
    two loops over the blobs. *)
Lemma handle_map_encoded fsid incs fulls rest s :
  length fsid = sizeof_fsid -> monmap_fsid s = fsid ->
  Forall blob_ok incs -> Forall blob_ok fulls ->
  Z.of_nat (length incs) < 2 ^ 32 -> Z.of_nat (length fulls) < 2 ^ 32 ->
  ceph_osdc_handle_map K (encode_map_msg fsid incs fulls rest) s
  = spec_handle_map K incs fulls s.
Proof.
  intros Hlen Hfsid Hincs Hfulls Hni Hnf.
  unfold ceph_osdc_handle_map, encode_map_msg, spec_handle_map, encode_blobs.
  rewrite ceph_decode_need_app by (rewrite Hlen; reflexivity).
  cbn [negb]. cbv zeta.
  rewrite <- Hlen, take_app_length, drop_app_length.
  mrun. rewrite Hfsid, bool_decide_true by reflexivity. cbn [negb].
  rewrite <- !app_assoc.
  rewrite ceph_decode_need_app by (cbn; lia). cbn [negb].
  rewrite ceph_decode_32_le32 by lia. rewrite Nat2Z.id.
  erewrite bind_run by (apply incremental_maps_spec; exact Hincs).
  rewrite bind_assoc. apply bind_cong. intros r s1. rewrite bind_ret.
  destruct r as [[new|]|]; cbn [fmap option_fmap option_map];
    try reflexivity.
  rewrite ceph_decode_need_app by (cbn; lia). cbn [negb].
  rewrite ceph_decode_32_le32 by lia. rewrite Nat2Z.id.
  apply bind_run. apply full_maps_spec. exact Hfulls.
Qed.

Lemma spec_incrementals_no_map incs applied s :
  osdmap s = None ->
  spec_incrementals K incs applied s = Ok (Some applied) s.
Proof.
  intros Hom. induction incs as [|inc incs IH]; [reflexivity|].
  cbn [spec_incrementals]. rewrite bind_gets, Hom. exact IH.
Qed.

(** X10: a well-formed osd-map message for a client that has no map
    yet.  Its incremental maps are all ignored.  If it carries no full
    map, the handler reaches [done] and dereferences the missing map
    ([osdc->osdmap->epoch]).  If it carries full maps, the last one is
    decoded whatever its epoch: when it decodes, it becomes the map,
    nothing is destroyed and the monitor client is told its epoch; when
    it does not, the message is reported corrupt and there is still no
    map. *)
Theorem X10_first_map fsid incs fulls rest s :
  length fsid = sizeof_fsid -> monmap_fsid s = fsid ->
  Forall blob_ok incs -> Forall blob_ok fulls ->
  Z.of_nat (length incs) < 2 ^ 32 -> Z.of_nat (length fulls) < 2 ^ 32 ->
  osdmap s = None ->
  ceph_osdc_handle_map K (encode_map_msg fsid incs fulls rest) s
  = match last fulls with
    | None => Oops null_deref s
    | Some full =>
        match osdmap_decode K (mb_bytes full) with
        | inr new =>
            Ok tt (set_trace (trace s ++ [ev_monc_got_osdmap (epoch new)])
                     (set_osdmap (Some new) s))
        | inl err => Ok tt (set_trace (trace s ++ [ev_pr_err "corrupt msg"]) s)
        end
    end.
Proof.
  intros Hlen Hfsid Hincs Hfulls Hni Hnf Hom.
  rewrite handle_map_encoded by assumption.
  unfold spec_handle_map.
  erewrite bind_ok by (apply spec_incrementals_no_map; exact Hom).
  unfold spec_full_maps.
  destruct (last fulls) as [full|].
  - mrun. rewrite Hom.
    destruct (osdmap_decode K (mb_bytes full)) as [err|new]; mrun.
    + reflexivity.
    + unfold handle_map_done, kick_requests. mrun. reflexivity.
  - mrun. unfold handle_map_done. mrun. rewrite Hom. reflexivity.
Qed.

End FirstMap.

(** ** [sync] with nothing else running *)


Section SyncAlone.
Context (K : externs).



End SyncAlone.

(** ** Object names *)

Lemma hex_val_digit d : 0 <= d < 16 -> hex_val (hex_digit d) = d.
Proof.
  intros H.
  assert (d = 0 \/ d = 1 \/ d = 2 \/ d = 3 \/ d = 4 \/ d = 5 \/ d = 6
          \/ d = 7 \/ d = 8 \/ d = 9 \/ d = 10 \/ d = 11 \/ d = 12
          \/ d = 13 \/ d = 14 \/ d = 15) as Hd by lia.
  repeat (destruct Hd as [->|Hd]; [reflexivity|]). subst. reflexivity.
Qed.

Lemma hex_digit_not_dot d : Ascii.eqb (hex_digit d) "."%char = false.
Proof.
  unfold hex_digit.
  repeat match goal with
  | |- context [match ?x with _ => _ end] => destruct x
  end; reflexivity.
Qed.

Lemma parse_hex_acc l acc :
  fold_left (fun acc c => 16 * acc + hex_val c) l acc
  = acc * 16 ^ Z.of_nat (length l) + parse_hex l.
Proof.
  unfold parse_hex. revert acc.
  induction l as [|c l IH]; intros acc; [cbn; lia|].
  cbn [fold_left length]. rewrite IH, (IH (16 * 0 + hex_val c)).
  rewrite Nat2Z.inj_succ, Z.pow_succ_r by lia. lia.
Qed.

Lemma parse_hex_app l1 l2 :
  parse_hex (l1 ++ l2)
  = parse_hex l1 * 16 ^ Z.of_nat (length l2) + parse_hex l2.
Proof.
  unfold parse_hex at 1. rewrite fold_left_app.
  rewrite parse_hex_acc. reflexivity.
Qed.

Lemma parse_hex_digits fuel n acc :
  0 <= n < 16 ^ Z.of_nat fuel ->
  parse_hex (hex_digits fuel n acc)
  = n * 16 ^ Z.of_nat (length acc) + parse_hex acc.
Proof.
  revert n acc. induction fuel as [|fuel IH]; intros n acc Hn.
  - cbn in Hn. assert (n = 0) as -> by lia. cbn [hex_digits]. lia.
  - cbn [hex_digits].
    assert (Hd : 0 <= n mod 16 < 16) by (apply Z.mod_pos_bound; lia).
    assert (Hcons : parse_hex (hex_digit (n mod 16) :: acc)
                    = n mod 16 * 16 ^ Z.of_nat (length acc) + parse_hex acc).
    { change (hex_digit (n mod 16) :: acc)
        with ([hex_digit (n mod 16)] ++ acc).
      rewrite parse_hex_app. unfold parse_hex at 1. cbn [fold_left].
      rewrite hex_val_digit by exact Hd. lia. }
    pose proof (Z.div_mod n 16 ltac:(lia)) as Hdm.
    destruct (Z.eqb_spec (n / 16) 0) as [Hz|Hnz].
    + rewrite Hcons. rewrite Hz in Hdm. replace (n mod 16) with n by lia.
      reflexivity.
    + rewrite IH.
      * rewrite Hcons. cbn [length]. rewrite Nat2Z.inj_succ, Z.pow_succ_r by lia.
        lia.
      * rewrite Nat2Z.inj_succ, Z.pow_succ_r in Hn by lia.
        split; [apply Z.div_pos; lia|].
        apply Z.div_lt_upper_bound; lia.
Qed.

Lemma parse_hex_fmt_llx n : parse_hex (fmt_llx n) = u64 n.
Proof.
  unfold fmt_llx. rewrite parse_hex_digits.
  - cbn. lia.
  - pose proof (u64_range n). change (16 ^ Z.of_nat 16) with (2 ^ 64). lia.
Qed.

Lemma parse_hex_zeros k l :
  parse_hex (replicate k "0"%char ++ l) = parse_hex l.
Proof.
  rewrite parse_hex_app.
  assert (parse_hex (replicate k "0"%char) = 0) as ->; [|lia].
  induction k as [|k IH]; [reflexivity|].
  change (replicate (S k) "0"%char) with (["0"%char] ++ replicate k "0"%char).
  rewrite parse_hex_app, IH. reflexivity.
Qed.

Lemma parse_hex_fmt_08llx n : parse_hex (fmt_08llx n) = u64 n.
Proof. unfold fmt_08llx. rewrite parse_hex_zeros. apply parse_hex_fmt_llx. Qed.

Lemma hex_digits_no_dot fuel n acc :
  Forall (fun c => Ascii.eqb c "."%char = false) acc ->
  Forall (fun c => Ascii.eqb c "."%char = false) (hex_digits fuel n acc).
Proof.
  revert n acc. induction fuel as [|fuel IH]; intros n acc Hacc; [exact Hacc|].
  cbn [hex_digits].
  assert (Forall (fun c => Ascii.eqb c "."%char = false)
            (hex_digit (n mod 16) :: acc))
    by (constructor; [apply hex_digit_not_dot|exact Hacc]).
  destruct (n / 16 =? 0); auto.
Qed.

Lemma split_oid_app a b :
  Forall (fun c => Ascii.eqb c "."%char = false) a ->
  split_oid (a ++ "."%char :: b) = (a, b).
Proof.
  induction 1 as [|c a Hc _ IH]; [reflexivity|].
  cbn [app split_oid]. rewrite Hc, IH. reflexivity.
Qed.

(** X12: the object name written by [calc_layout] can be read back:
    the hexadecimal number before the ['.'] is the inode number and the
    one after it the block number (both as 64-bit values).  So two
    names are equal only for the same inode and block: different
    objects never share a name. *)
Theorem X12_object_name_reads_back ino bno :
  parse_oid (fmt_oid ino bno) = (u64 ino, u64 bno)
  /\ forall ino' bno',
       fmt_oid ino bno = fmt_oid ino' bno' ->
       u64 ino = u64 ino' /\ u64 bno = u64 bno'.
Proof.
  assert (Hparse : forall i b, parse_oid (fmt_oid i b) = (u64 i, u64 b)).
  { intros i b. unfold parse_oid, fmt_oid. rewrite split_oid_app.
    - rewrite parse_hex_fmt_llx, parse_hex_fmt_08llx. reflexivity.
    - apply hex_digits_no_dot. constructor. }
  split; [apply Hparse|].
  intros ino' bno' Heq.
  pose proof (Hparse ino bno) as H1. rewrite Heq, Hparse in H1.
  injection H1 as -> ->. auto.
Qed.

(** ** What the builder puts in the message *)

(** X13: the request [ceph_osdc_new_request] returns when [do_sync] is 0
    or 1.  The length given back is the one the object mapping allows;
    the ops are the primary op, then the truncate op if the extent
    reaches past a recent truncation, then [STARTSYNC] if [do_sync]: no
    op slot is left unfilled.  Only a write (flags with [WRITE])
    carries a payload: then the data length of the message and the
    payload length of the primary op are that length, the data offset
    is [off] (16 bits), and the mtime is encoded; for a read they are
    zero or absent.  The request starts with one reference, no tid, no
    session, and is neither aborted nor answered. *)
Theorem X13_built_request K tl kz me layout vino off plen opcode flags snapc
    do_sync tseq tsize mtime pool req plen' :
  do_sync = 0 \/ do_sync = 1 ->
  ceph_osdc_new_request K tl kz me layout vino off plen opcode flags snapc
    do_sync tseq tsize mtime pool = Built req plen' ->
  let '(pl, bno, objoff, objlen) :=
    ceph_calc_file_object_mapping K layout off plen in
  let is_write := flag_set flags (CEPH_OSD_FLAG_WRITE K) in
  let op0 :=
    {| op_op := u16 opcode; op_offset := u64 objoff; op_length := u64 objlen;
       op_payload_len := if is_write then u32 pl else 0;
       op_truncate_seq := 0; op_truncate_size := 0 |} in
  plen' = pl
  /\ m_ops (r_request req)
     = op0
       :: (if do_trunc_of off plen tseq tsize
           then [trunc_op K opcode off tseq tsize (u64 objoff)] else [])
       ++ (if do_sync =? 1 then [sync_op K] else [])
  /\ hdr_data_len (r_request req) = (if is_write then u32 pl else 0)
  /\ hdr_data_off (r_request req) = (if is_write then u16 off else 0)
  /\ h_mtime (m_head (r_request req))
     = (if is_write then Some mtime else None)
  /\ h_flags (m_head (r_request req)) = u32 flags
  /\ h_snapid (m_head (r_request req)) = u64 (snap vino)
  /\ r_flags req = flags /\ r_ref req = 1 /\ r_tid req = 0
  /\ r_osd req = None /\ r_aborted req = false /\ r_got_reply req = false
  /\ r_num_pages req = calc_pages_for K off pl.
Proof.
  intros Hsync. unfold ceph_osdc_new_request. intros H.
  destruct (negb (pool || kz)); [discriminate|].
  destruct me as [err|]; [discriminate|].
  destruct (ceph_calc_file_object_mapping K layout off plen)
    as [[[pl bno] objoff] objlen].
  match type of H with
  | (if ?c then _ else _) = _ => destruct c eqn:Hc; [discriminate|]
  end.
  injection H as <- <-. cbv zeta.
  cbn [r_request m_ops hdr_data_len hdr_data_off m_head h_mtime h_flags
       h_snapid r_flags r_ref r_tid r_osd r_aborted r_got_reply r_num_pages
       op_offset].
  split; [reflexivity|]. split; [|repeat split].
  unfold num_op_of.
  destruct Hsync as [-> | ->];
    destruct (do_trunc_of off plen tseq tsize); reflexivity.
Qed.

(** ** Starting a request *)

Section StartSpec.
Context (K : externs) (HK : rbtree_ok K) (HA : abi_ok K).

Lemma start_request_ok a s req r nofail m pgid :
  request_mutex s = false ->
  mem s !! req = Some r -> r_osd r = None ->
  (forall p, p ∈ inorder (requests s) -> tid_of s p <= last_tid s) ->
  req ∉ inorder (requests s) ->
  0 <= last_tid s < 2 ^ 64 - 1 ->
  osdmap s = Some m ->
  ceph_calc_object_layout K (r_oid r) (r_file_layout r) (Some m) = (0, pgid) ->
  let o := ceph_calc_pg_primary K (Some m) pgid in
  let osd := session_for a s o in
  (osds s !! o = None -> kmalloc_osd a = true) ->
  forall c, o_con osd = Some c ->
  exists s' r',
    ceph_osdc_start_request K a req nofail s = Ok 0 s'
    /\ mem s' = <[req := r']> (mem s)
    /\ r_tid r' = last_tid s + 1
    /\ r_osd r' = Some o
    /\ r_ref r' = r_ref r + 1
    /\ inorder (requests s') = inorder (requests s) ++ [req]
    /\ osds s' = <[o := {| o_osd := o_osd osd;
                           o_requests := req :: o_requests osd;
                           o_con := o_con osd |}]> (osds s)
    /\ request_mutex s' = false
    /\ last_tid s' = last_tid s + 1
    /\ num_requests s' = s32 (num_requests s + 1)
    /\ osdmap s' = osdmap s
    /\ trace s'
       = trace s ++ ev_dout_register_request req (last_tid s + 1)
           :: (if s32 (num_requests s + 1) =? 1
               then [ev_schedule_delayed_work
                       (u64 (u64 (jiffies s + osd_timeout s * HZ K)
                             - jiffies s))]
               else [])
           ++ [ev_con_send c req]
    /\ r_aborted r' = r_aborted r /\ r_got_reply r' = r_got_reply r
    /\ r_callback r' = r_callback r
    /\ r_safe_callback r' = r_safe_callback r
    /\ r_flags r' = r_flags r /\ r_result r' = r_result r.
Proof.
  intros Hmx Hm Hro Hidx Hni Hlt Hom Hlay o osd Hkm c Hc.
  unfold ceph_osdc_start_request.
  erewrite bind_update by exact Hm.
  match goal with
  | |- context [(register_request K req ≫= _) ?st] => set (s0 := st)
  end.
  destruct (register_request_ok K HK s0 req
              (set_r_request
                 (set_m_nr_pages (r_num_pages r)
                    (set_m_pages (r_pages r) (r_request r))) r))
    as (s1 & r1 & Hrun & Hlast & Hmem & Hr1 & Hin & Hnum & Hmx1 & Hos & Hom1
        & Hjf & Htt & Htr & Hoto & _);
    [ exact Hmx | apply lookup_insert_eq | | exact Hni | exact Hlt | ].
  { intros p Hp. subst s0. unfold tid_of, tid_in. cbn.
    rewrite lookup_insert_ne by (intros ->; contradiction).
    apply (Hidx p Hp). }
  erewrite bind_ok by exact Hrun.
  destruct s1 as [om1 lt1 rq1 nr1 ttid1 os1 mx1 stl1 oto1 fsid1 mm1 jf1 tr1].
  subst s0.
  destruct s as [om lt rq nr ttid os mx stl oto fsid mm jf tr].
  cbn [last_tid mem requests num_requests request_mutex osds osdmap jiffies
       timeout_tid trace osd_timeout set_mem] in *.
  subst om om1 lt1 mm1 nr1 mx mx1 os1 jf1 ttid1 tr1 oto1.
  rewrite insert_insert_eq in *.
  unfold send_request, map_osds, __lookup_osd.
  mrun. rewrite Hr1.
  cbn [r_oid r_file_layout r_osd set_r_timeout_stamp set_r_ref set_head
       set_r_tid set_r_request].
  rewrite Hlay. cbn [Z.eqb negb]. mrun.
  cbn [r_oid r_file_layout r_osd set_r_timeout_stamp set_r_ref set_head
       set_r_tid set_r_request].
  rewrite Hro. mrun.
  assert (Hone : (1 =? - ENOMEM K) = false).
  { apply Z.eqb_neq. pose proof (enomem_pos K HA). lia. }
  unfold session_for in osd. cbn [osds] in osd, Hkm.
  fold o. fold o in osd, Hkm.
  unfold list_add_r_osd_item.
  destruct (os !! o) as [osd0|] eqn:Hso.
  - subst osd. mrun. rewrite Hone. mrun.
    cbn [r_osd set_r_osd]. mrun. rewrite Hc. mrun.
    cbn [Z.eqb negb]. mrun.
    unfold mret, M_ret. flat_state. rewrite ?insert_insert_eq.
    eexists _, _. split; [reflexivity|]. cbn.
    rewrite <- ?app_assoc. split_and!; first [reflexivity | exact Hin].
  - subst osd. rewrite (Hkm eq_refl). mrun. rewrite Hone. mrun.
    cbn [r_osd set_r_osd]. mrun.
    cbn [init_osd o_con] in Hc |- *.
    destruct (kzalloc_con a); [|discriminate Hc]. injection Hc as <-.
    mrun. cbn [Z.eqb negb]. mrun.
    unfold mret, M_ret. flat_state. rewrite ?insert_insert_eq.
    eexists _, _. split; [reflexivity|]. cbn.
    rewrite <- ?app_assoc. split_and!; first [reflexivity | exact Hin].
Qed.

(** X14: [ceph_osdc_start_request] for a new (unrouted, not indexed)
    request when the mutex is free, there is a map, the object layout
    is computed without error, and the session of the primary exists or
    can be allocated, with a connection.  It returns 0.  The request
    has the next tid and is the last of the index, holds one more
    reference, is routed to the session of the primary and heads its
    list (the session being created if there was none); the mutex is
    free again; and the calls made are the registration line, the
    timeout work if this is the only request, and one [ceph_con_send]
    of the request on the session's connection. *)
Theorem X14_start_request_sends a s req r nofail m pgid :
  request_mutex s = false ->
  mem s !! req = Some r -> r_osd r = None ->
  (forall p, p ∈ inorder (requests s) -> tid_of s p <= last_tid s) ->
  req ∉ inorder (requests s) ->
  0 <= last_tid s < 2 ^ 64 - 1 ->
  osdmap s = Some m ->
  ceph_calc_object_layout K (r_oid r) (r_file_layout r) (Some m) = (0, pgid) ->
  let o := ceph_calc_pg_primary K (Some m) pgid in
  let osd := session_for a s o in
  (osds s !! o = None -> kmalloc_osd a = true) ->
  forall c, o_con osd = Some c ->
  exists s' r',
    ceph_osdc_start_request K a req nofail s = Ok 0 s'
    /\ mem s' = <[req := r']> (mem s)
    /\ r_tid r' = last_tid s + 1
    /\ r_osd r' = Some o
    /\ r_ref r' = r_ref r + 1
    /\ inorder (requests s') = inorder (requests s) ++ [req]
    /\ osds s' = <[o := {| o_osd := o_osd osd;
                           o_requests := req :: o_requests osd;
                           o_con := o_con osd |}]> (osds s)
    /\ request_mutex s' = false
    /\ last_tid s' = last_tid s + 1
    /\ num_requests s' = s32 (num_requests s + 1)
    /\ osdmap s' = osdmap s
    /\ trace s'
       = trace s ++ ev_dout_register_request req (last_tid s + 1)
           :: (if s32 (num_requests s + 1) =? 1
               then [ev_schedule_delayed_work
                       (u64 (u64 (jiffies s + osd_timeout s * HZ K)
                             - jiffies s))]
               else [])
           ++ [ev_con_send c req]
    /\ r_aborted r' = r_aborted r /\ r_got_reply r' = r_got_reply r
    /\ r_callback r' = r_callback r
    /\ r_safe_callback r' = r_safe_callback r
    /\ r_flags r' = r_flags r /\ r_result r' = r_result r.
Proof. apply start_request_ok. Qed.

Lemma returned_bind {A B} (m : M A) (k : A -> M B) s v :
  returned ((m ≫= k) s) = Some v ->
  exists a s', m s = Ok a s' /\ returned (k a s') = Some v.
Proof.
  unfold mbind, M_bind. destruct (m s) as [a s'| | |]; try discriminate.
  eauto.
Qed.

(** X15: with [nofail], [ceph_osdc_start_request] never reports an
    error: whenever it returns, it returns 0, whatever [send_request]
    said. *)
Theorem X15_start_request_nofail a s req rc :
  returned (ceph_osdc_start_request K a req true s) = Some rc -> rc = 0.
Proof.
  unfold ceph_osdc_start_request. intros H.
  apply returned_bind in H as (? & s1 & _ & H).
  apply returned_bind in H as (? & s2 & _ & H).
  apply returned_bind in H as (? & s3 & _ & H).
  apply returned_bind in H as (rc1 & s4 & _ & H).
  apply returned_bind in H as (rc2 & s5 & Hrc & H).
  apply returned_bind in H as (? & s6 & _ & H).
  injection H as <-.
  destruct (Z.eqb_spec rc1 0) as [->|Hne]; cbn [negb] in Hrc.
  - injection Hrc as <- _. reflexivity.
  - assert (returned ((update req (set_r_resend true) ≫= fun _ => mret 0) s4)
            = Some rc2) as Hr by (rewrite Hrc; reflexivity).
    apply returned_bind in Hr as (? & s7 & _ & Hr). injection Hr as <-.
    reflexivity.
Qed.

(** X16: [ceph_osdc_start_request] with [nofail] when no session exists
    for the primary and [kmalloc] of one fails.  It returns 0 all the
    same: the request is registered under the next tid and marked
    [r_resend], but it is routed nowhere, no session is created and
    nothing is handed to the transport. *)
Theorem X16_start_request_nofail_no_memory a s req r m pgid :
  request_mutex s = false ->
  mem s !! req = Some r -> r_osd r = None ->
  (forall p, p ∈ inorder (requests s) -> tid_of s p <= last_tid s) ->
  req ∉ inorder (requests s) ->
  0 <= last_tid s < 2 ^ 64 - 1 ->
  osdmap s = Some m ->
  ceph_calc_object_layout K (r_oid r) (r_file_layout r) (Some m) = (0, pgid) ->
  osds s !! ceph_calc_pg_primary K (Some m) pgid = None ->
  kmalloc_osd a = false ->
  exists s' r',
    ceph_osdc_start_request K a req true s = Ok 0 s'
    /\ mem s' = <[req := r']> (mem s)
    /\ r_tid r' = last_tid s + 1
    /\ r_osd r' = None
    /\ r_resend r' = true
    /\ inorder (requests s') = inorder (requests s) ++ [req]
    /\ osds s' = osds s
    /\ request_mutex s' = false
    /\ Forall (fun e => any_signal e = false)
         (drop (length (trace s)) (trace s')).
Proof.
  intros Hmx Hm Hro Hidx Hni Hlt Hom Hlay Hso Hkm.
  unfold ceph_osdc_start_request.
  erewrite bind_update by exact Hm.
  match goal with
  | |- context [(register_request K req ≫= _) ?st] => set (s0 := st)
  end.
  destruct (register_request_ok K HK s0 req
              (set_r_request
                 (set_m_nr_pages (r_num_pages r)
                    (set_m_pages (r_pages r) (r_request r))) r))
    as (s1 & r1 & Hrun & Hlast & Hmem & Hr1 & Hin & Hnum & Hmx1 & Hos & Hom1
        & Hjf & Htt & Htr & Hoto & _);
    [ exact Hmx | apply lookup_insert_eq | | exact Hni | exact Hlt | ].
  { intros p Hp. subst s0. unfold tid_of, tid_in. cbn.
    rewrite lookup_insert_ne by (intros ->; contradiction).
    apply (Hidx p Hp). }
  erewrite bind_ok by exact Hrun.
  destruct s1 as [om1 lt1 rq1 nr1 ttid1 os1 mx1 stl1 oto1 fsid1 mm1 jf1 tr1].
  subst s0.
  destruct s as [om lt rq nr ttid os mx stl oto fsid mm jf tr].
  cbn [last_tid mem requests num_requests request_mutex osds osdmap jiffies
       timeout_tid trace osd_timeout set_mem] in *.
  subst om om1 lt1 mm1 nr1 mx mx1 os1 jf1 ttid1 tr1 oto1.
  rewrite insert_insert_eq in *.
  unfold send_request, map_osds, __lookup_osd.
  mrun. rewrite Hr1.
  cbn [r_oid r_file_layout r_osd set_r_timeout_stamp set_r_ref set_head
       set_r_tid set_r_request].
  rewrite Hlay. cbn [Z.eqb negb]. mrun.
  cbn [r_oid r_file_layout r_osd set_r_timeout_stamp set_r_ref set_head
       set_r_tid set_r_request].
  rewrite Hro. mrun. rewrite Hso, Hkm. mrun.
  rewrite Z.eqb_refl. mrun.
  assert (Hne : negb (- ENOMEM K =? 0) = true).
  { pose proof (enomem_pos K HA).
    destruct (Z.eqb_spec (- ENOMEM K) 0); [lia|reflexivity]. }
  rewrite Hne. mrun.
  unfold mret, M_ret. flat_state. rewrite ?insert_insert_eq.
  eexists _, _. split; [reflexivity|]. cbn [mem last_tid requests osds
    request_mutex trace].
  rewrite drop_app_length.
  split_and!; first [reflexivity | exact Hin | idtac].
  destruct (s32 (nr + 1) =? 1); repeat constructor.
Qed.
End StartSpec.

(** ** A request from its start to its commit *)

Section StartToCommit.
Context (K : externs) (HK : rbtree_ok K) (HA : abi_ok K).

Lemma session_same (osd : ceph_osd) :
  {| o_osd := o_osd osd; o_requests := o_requests osd; o_con := o_con osd |}
  = osd.
Proof. destruct osd. reflexivity. Qed.

(** X17: a new request is started and the reply with [ONDISK] for its
    tid arrives.  Afterwards the index, the sessions and the request
    count are as before the start (a session created for the request is
    destroyed again), only the tid counter has moved; the request is
    unrouted, answered, holds the result of the reply and as many
    references as before; the mutex is free; and the signals made are,
    in this order, one [ceph_con_send], the callback or else the
    completion, the safe callback if any, and the safe completion. *)
Theorem X17_start_then_commit a s req r nofail m pgid msg :
  index_ok s ->
  (forall p, p ∈ inorder (requests s) -> tid_of s p <= last_tid s) ->
  num_requests s < 2 ^ 31 - 1 ->
  request_mutex s = false ->
  mem s !! req = Some r -> r_osd r = None -> 1 <= r_ref r ->
  r_aborted r = false -> r_got_reply r = false ->
  req ∉ inorder (requests s) ->
  0 <= last_tid s < 2 ^ 64 - 1 ->
  osdmap s = Some m ->
  ceph_calc_object_layout K (r_oid r) (r_file_layout r) (Some m) = (0, pgid) ->
  let o := ceph_calc_pg_primary K (Some m) pgid in
  let osd := session_for a s o in
  (osds s !! o = None -> kmalloc_osd a = true) ->
  (osds s !! o <> None -> o_requests osd <> []) ->
  req ∉ o_requests osd ->
  forall c, o_con osd = Some c ->
  reply_well_formed K msg = true ->
  u64 (rm_tid msg) = last_tid s + 1 ->
  flag_set (s32 (rm_flags msg)) (CEPH_OSD_FLAG_ONDISK K) = true ->
  exists s1 s2 r2,
    ceph_osdc_start_request K a req nofail s = Ok 0 s1
    /\ ceph_osdc_handle_reply K msg s1 = Ok tt s2
    /\ inorder (requests s2) = inorder (requests s)
    /\ osds s2 = osds s
    /\ num_requests s2 = num_requests s
    /\ last_tid s2 = last_tid s + 1
    /\ request_mutex s2 = false
    /\ mem s2 = <[req := r2]> (mem s)
    /\ r_tid r2 = last_tid s + 1
    /\ r_osd r2 = None
    /\ r_ref r2 = r_ref r
    /\ r_got_reply r2 = true
    /\ r_result r2
       = (if s32 (rm_result msg) =? 0 then s32 (u32 (rm_data_len msg))
          else s32 (rm_result msg))
    /\ List.filter any_signal (drop (length (trace s)) (trace s2))
       = ev_con_send c req
         :: (if r_callback r then ev_callback req else ev_complete req)
         :: (if r_safe_callback r then [ev_safe_callback req] else [])
         ++ [ev_safe_complete req].
Proof.
  intros Hidx Hbound Hnum Hmx Hm Hro Href Hab Hgot Hni Hlt Hom Hlay o osd Hkm
    Hnonempty Hnin c Hc Hwf Htid Hond.
  destruct (start_request_ok K HK HA a s req r nofail m pgid Hmx Hm Hro
              Hbound Hni Hlt Hom Hlay Hkm c Hc)
    as (s1 & r1 & Hrun1 & Hmem1 & Ht1 & Ho1 & Hr1 & Hin1 & Hos1 & Hmx1 & Hlt1
        & Hnum1 & Hom1 & Htr1 & Hab1 & Hgot1 & Hcb1 & Hscb1 & _).
  fold o in Ho1, Hos1. fold osd in Hos1.
  destruct Hidx as [Hsort Halloc Hcount Hsmall].
  assert (Hn1 : num_requests s1 = num_requests s + 1).
  { rewrite Hnum1. apply s32_small. lia. }
  assert (Hkey : forall p, p <> req -> tid_of s1 p = tid_of s p).
  { intros p Hp. unfold tid_of, tid_in. rewrite Hmem1.
    rewrite lookup_insert_ne by congruence. reflexivity. }
  assert (Hreq : tid_of s1 req = last_tid s + 1).
  { unfold tid_of, tid_in. rewrite Hmem1, lookup_insert_eq. exact Ht1. }
  assert (Hidx1 : index_ok s1).
  { split.
    - rewrite Hin1. apply ascending_snoc.
      + eapply ascending_ext; [|exact Hsort]. intros p Hp. symmetry.
        apply Hkey. intros ->. contradiction.
      + intros p Hp. rewrite Hreq, Hkey by (intros ->; contradiction).
        specialize (Hbound p Hp). lia.
    - rewrite Hin1, Hmem1. intros p [Hp|Hp]%elem_of_app.
      + destruct (decide (p = req)) as [->|Hne];
          [rewrite lookup_insert_eq; eauto|].
        rewrite lookup_insert_ne by congruence. auto.
      + apply list_elem_of_singleton in Hp as ->.
        rewrite lookup_insert_eq. eauto.
    - rewrite Hn1, Hin1, length_app, Hcount. cbn. lia.
    - lia. }
  assert (Hl1 : __lookup_request (tid_of s1) (requests s1) (u64 (rm_tid msg))
                = Some req).
  { rewrite Htid, <- Hreq. apply lookup_request_sorted.
    - apply (index_sorted _ Hidx1).
    - rewrite Hin1. set_solver. }
  set (osd1 := {| o_osd := o_osd osd; o_requests := req :: o_requests osd;
                  o_con := o_con osd |}) in *.
  assert (Hfilter : filter (fun q => q <> req) (o_requests osd1)
                    = o_requests osd).
  { subst osd1. cbn [o_requests]. rewrite filter_cons_False by auto.
    apply filter_ne_notin. exact Hnin. }
  destruct (reply_records K HK msg s1 req r1 o osd1)
    as (s2 & r2 & pre & post & Hrun2 & Hmem2 & Hgot2 & Hres2 & _ & _ & Htr2
        & Hpre & Hpost & Hrest).
  { exact Hidx1. }
  { exact Hwf. }
  { exact Hmx1. }
  { exact Hl1. }
  { rewrite Hmem1. apply lookup_insert_eq. }
  { lia. }
  { rewrite Hab1. exact Hab. }
  { left. rewrite Hgot1. exact Hgot. }
  { exact Ho1. }
  { rewrite Hos1. apply lookup_insert_eq. }
  { intros _. subst osd1. cbn [o_con]. rewrite Hc. eauto. }
  rewrite Hond in Hrest. cbn [orb] in Hrest.
  destruct Hrest as (Gref & Gosd & Grq & Gos & Gnum & Glt & Gmx & Gom).
  destruct (reply_processed K HK msg s1 req r1 o osd1)
    as (s2' & r2' & Hrun2' & _ & _ & Hmem2' & Htid2 & _).
  { exact Hidx1. }
  { exact Hwf. }
  { exact Hmx1. }
  { exact Hl1. }
  { rewrite Hmem1. apply lookup_insert_eq. }
  { lia. }
  { rewrite Hab1. exact Hab. }
  { left. rewrite Hgot1. exact Hgot. }
  { exact Ho1. }
  { rewrite Hos1. apply lookup_insert_eq. }
  { intros _. subst osd1. cbn [o_con]. rewrite Hc. eauto. }
  assert (s2' = s2) as -> by congruence.
  assert (r2' = r2) as ->.
  { assert (Some r2' = Some r2) as [= ->]; [|reflexivity].
    rewrite <- (lookup_insert_eq (mem s1) req r2'), <- Hmem2', Hmem2.
    apply lookup_insert_eq. }
  exists s1, s2, r2. split; [exact Hrun1|]. split; [exact Hrun2|].
  split_and!.
  - rewrite Grq, (rb_erase_inorder K HK)
      by (eapply ascending_NoDup, (index_sorted _ Hidx1)).
    rewrite Hin1, filter_app, filter_ne_notin by exact Hni.
    rewrite filter_cons_False, filter_nil by auto. apply app_nil_r.
  - rewrite Gos, Hfilter, Hos1. subst osd.
    unfold session_for in *. fold o in Hnonempty |- *.
    destruct (osds s !! o) as [osd0|] eqn:Hso.
    + destruct (o_requests osd0) as [|q l] eqn:Hl0;
        [destruct Hnonempty; [discriminate|reflexivity]|].
      subst osd1. cbn [o_osd o_con]. rewrite insert_insert_eq, <- Hl0.
      rewrite session_same. apply insert_id. exact Hso.
    + cbn [init_osd o_requests]. apply delete_insert_id. exact Hso.
  - lia.
  - lia.
  - exact Gmx.
  - rewrite Hmem2, Hmem1. apply insert_insert_eq.
  - rewrite Htid2. exact Ht1.
  - exact Gosd.
  - lia.
  - exact Hgot2.
  - rewrite Hres2, Hgot1, Hgot. reflexivity.
  - rewrite Htr2, Htr1. rewrite <- !app_assoc, drop_app_length.
    cbn [app]. rewrite <- !app_assoc.
    assert (Hfil : forall l1 l2, List.filter any_signal (l1 ++ l2)
                    = List.filter any_signal l1 ++ List.filter any_signal l2)
      by (intros; apply List.filter_app).
    cbn [List.filter any_signal]. rewrite !Hfil.
    rewrite (filter_no_signal pre Hpre), (filter_no_signal post Hpost).
    rewrite filter_reply_signals.
    assert (List.filter any_signal
              (if s32 (num_requests s + 1) =? 1
               then [ev_schedule_delayed_work
                       (u64 (u64 (jiffies s + osd_timeout s * HZ K)
                             - jiffies s))]
               else []) = []) as ->
      by (destruct (s32 (num_requests s + 1) =? 1); reflexivity).
    cbn [List.filter any_signal app]. rewrite app_nil_r.
    unfold reply_signals. rewrite Hond, Hcb1, Hscb1. reflexivity.
Qed.
End StartToCommit.

(** ** Pages for an incoming reply *)

Section PreparePagesSpec.
Context (OPREPLY : Z).

(** The message after a successful [ceph_osdc_prepare_pages]. *)
Lemma prepare_pages_ok m want s req r :
  request_mutex s = false ->
  u16 (im_type m) = OPREPLY ->
  __lookup_request (tid_of s) (requests s) (u64 (im_tid m)) = Some req ->
  mem s !! req = Some r ->
  want <= r_num_pages r -> r_prepared_pages r = false ->
  r_aborted r = false ->
  ceph_osdc_prepare_pages OPREPLY m want s
  = Ok (0, {| im_obj := im_obj m; im_type := im_type m; im_tid := im_tid m;
              im_pages := r_pages r; im_nr_pages := r_num_pages r;
              im_ref := im_ref m + 1 |})
      (set_mem (<[req := set_r_prepared_pages true
                           (set_r_reply (Some (im_obj m)) r)]> (mem s)) s).
Proof.
  intros Hmx Hty Hl Hm Hwant Hpp Hab. unfold ceph_osdc_prepare_pages.
  rewrite Hty, Z.eqb_refl. cbn [negb]. cbv zeta.
  destruct s as [om lt rq nr ttid os mx stl oto fsid mm jf tr].
  unfold tid_of in *. cbn in Hmx, Hl, Hm. subst mx.
  mrun. rewrite Hl. mrun. rewrite Hpp, Hab.
  assert ((want <=? r_num_pages r) = true) as -> by (apply Z.leb_le; lia).
  cbn [negb andb]. mrun. rewrite insert_insert_eq. reflexivity.
Qed.

Lemma prepare_pages_fails m want s :
  request_mutex s = false ->
  u16 (im_type m) <> OPREPLY
  \/ __lookup_request (tid_of s) (requests s) (u64 (im_tid m)) = None
  \/ (exists req r,
        __lookup_request (tid_of s) (requests s) (u64 (im_tid m)) = Some req
        /\ mem s !! req = Some r
        /\ (r_num_pages r < want \/ r_prepared_pages r = true
            \/ r_aborted r = true)) ->
  ceph_osdc_prepare_pages OPREPLY m want s = Ok (-1, m) s.
Proof.
  intros Hmx Hcase. unfold ceph_osdc_prepare_pages.
  destruct (Z.eqb_spec (u16 (im_type m)) OPREPLY) as [Hty|Hty]; cbn [negb].
  2:{ reflexivity. }
  destruct Hcase as [Hne|Hcase]; [contradiction|]. cbv zeta.
  destruct s as [om lt rq nr ttid os mx stl oto fsid mm jf tr].
  unfold tid_of in *. cbn in Hmx, Hcase. subst mx.
  mrun. destruct Hcase as [Hl|(req & r & Hl & Hm & Hwhy)]; rewrite Hl; mrun.
  - reflexivity.
  - assert ((want <=? r_num_pages r) && negb (r_prepared_pages r)
            && negb (r_aborted r) = false) as ->.
    { destruct Hwhy as [Hw|[->| ->]].
      - assert ((want <=? r_num_pages r) = false) as ->
          by (apply Z.leb_gt; lia). reflexivity.
      - destruct (want <=? r_num_pages r); reflexivity.
      - destruct (want <=? r_num_pages r), (r_prepared_pages r); reflexivity. }
    mrun. reflexivity.
Qed.

(** X18: [ceph_osdc_prepare_pages] with the mutex free (the indexed
    requests being allocated).  It succeeds (returns 0) exactly when the
    message is an osd reply whose tid is registered and the request has
    at least [want] pages, has not prepared pages before and is not
    aborted: the message then gets the request's pages and one more
    reference, and the request remembers the message and that its pages
    are taken.  In every other case it returns -1 and neither the
    message nor the client changes.  Either way the mutex is free
    again. *)
Theorem X18_prepare_pages m want s :
  request_mutex s = false ->
  (forall p, p ∈ inorder (requests s) -> is_Some (mem s !! p)) ->
  exists rc m' s',
    ceph_osdc_prepare_pages OPREPLY m want s = Ok (rc, m') s'
    /\ request_mutex s' = false
    /\ match __lookup_request (tid_of s) (requests s) (u64 (im_tid m)) with
       | Some req =>
           exists r, mem s !! req = Some r
           /\ if (u16 (im_type m) =? OPREPLY) && (want <=? r_num_pages r)
                 && negb (r_prepared_pages r) && negb (r_aborted r)
              then
                rc = 0
                /\ im_pages m' = r_pages r
                /\ im_nr_pages m' = r_num_pages r
                /\ im_ref m' = im_ref m + 1
                /\ s' = set_mem
                          (<[req := set_r_prepared_pages true
                                      (set_r_reply (Some (im_obj m)) r)]>
                             (mem s)) s
              else rc = -1 /\ m' = m /\ s' = s
       | None => rc = -1 /\ m' = m /\ s' = s
       end.
Proof.
  intros Hmx Halloc.
  destruct (__lookup_request (tid_of s) (requests s) (u64 (im_tid m)))
    as [req|] eqn:Hl.
  2:{ exists (-1), m, s. rewrite prepare_pages_fails by auto. auto. }
  destruct (Halloc req) as [r Hm].
  { apply lookup_request_Some in Hl. apply Hl. }
  destruct ((u16 (im_type m) =? OPREPLY) && (want <=? r_num_pages r)
            && negb (r_prepared_pages r) && negb (r_aborted r)) eqn:Hc.
  - pose proof Hc as Hc'.
    apply andb_true_iff in Hc as [Hc Hab].
    apply andb_true_iff in Hc as [Hc Hpp].
    apply andb_true_iff in Hc as [Hty Hw].
    apply Z.eqb_eq in Hty. apply Z.leb_le in Hw.
    apply negb_true_iff in Hpp, Hab.
    eexists _, _, _. rewrite (prepare_pages_ok m want s req r) by assumption.
    split; [reflexivity|]. split; [exact Hmx|]. exists r.
    split; [exact Hm|]. rewrite Hc'. cbn. auto.
  - pose proof Hc as Hc'.
    exists (-1), m, s. rewrite prepare_pages_fails.
    + split; [reflexivity|]. split; [exact Hmx|]. exists r.
      rewrite Hc'. auto.
    + exact Hmx.
    + apply andb_false_iff in Hc as [Hc|Hab].
      * apply andb_false_iff in Hc as [Hc|Hpp].
        -- apply andb_false_iff in Hc as [Hty|Hw].
           ++ left. apply Z.eqb_neq. exact Hty.
           ++ right. right. exists req, r. apply Z.leb_gt in Hw. auto.
        -- right. right. exists req, r. apply negb_false_iff in Hpp. auto.
      * right. right. exists req, r. apply negb_false_iff in Hab. auto.
Qed.

End PreparePagesSpec.

(** ** Pages are handed out once, and never after an abort *)

Lemma refused_update req s q r r' :
  mem s !! q = Some r ->
  (r_prepared_pages r = true -> r_prepared_pages r' = true) ->
  (r_aborted r = true -> r_aborted r' = true) ->
  refused req s -> refused req (set_mem (<[q := r']> (mem s)) s).
Proof.
  intros Hq Hp Ha (r0 & Hr0 & Hwhy). unfold refused. cbn.
  destruct (decide (q = req)) as [->|Hne].
  - rewrite lookup_insert_eq. exists r'. split; [reflexivity|].
    assert (r0 = r) as -> by congruence. tauto.
  - rewrite lookup_insert_ne by congruence. eauto.
Qed.

Lemma refused_fields req s s' :
  mem s' = mem s -> refused req s -> refused req s'.
Proof. unfold refused. intros ->. auto. Qed.

Ltac refused_side :=
  first
    [ assumption
    | eapply refused_update;
      [ eassumption
      | let H := fresh in intros H; first [exact H | reflexivity]
      | let H := fresh in intros H; first [exact H | reflexivity]
      | assumption ]
    | match goal with
      | H : refused _ ?s |- _ =>
          apply (refused_fields _ s); [reflexivity | exact H]
      end ].

Ltac pres_side ::=
  cbv beta;
  lazymatch goal with
  | |- tid_inv _ => tid_side
  | |- silent_since _ _ _ => silent_side
  | |- no_signal_since _ _ => no_signal_side
  | |- same_requests _ _ => same_requests_side
  | |- refused _ _ => refused_side
  | H : aborted_inv _ _ _ |- aborted_inv _ _ _ =>
      destruct H; split; [tid_side | silent_side]
  | H : map_frame _ _ |- map_frame _ _ =>
      destruct H; split; [same_requests_side | no_signal_side]
  end.

Section Refused.
Context (K : externs) (OPREPLY : Z) (req : ptr).

Lemma get_request_refused q :
  preserves (refused req) (ceph_osdc_get_request q).
Proof. unfold ceph_osdc_get_request. pres. Qed.

Lemma put_request_refused q :
  preserves (refused req) (ceph_osdc_put_request q).
Proof. unfold ceph_osdc_put_request. pres. Qed.

Lemma insert_request_refused q :
  preserves (refused req) (__insert_request K q).
Proof.
  intros s Hs. unfold __insert_request.
  destruct (rb_link_node (tid_of s) q (requests s)); exact Hs.
Qed.

Lemma register_request_refused q :
  preserves (refused req) (register_request K q).
Proof.
  unfold register_request, ceph_osdc_get_request.
  pres. apply insert_request_refused.
Qed.

Lemma unregister_request_refused q :
  preserves (refused req) (__unregister_request K q).
Proof.
  unfold __unregister_request, list_del_init_r_osd_item, destroy_osd,
    ceph_osdc_put_request.
  pres.
Qed.

Lemma send_request_refused a q :
  preserves (refused req) (send_request K a q).
Proof.
  unfold send_request, map_osds, __lookup_osd, list_del_init_r_osd_item,
    list_add_r_osd_item, destroy_osd.
  pres.
Qed.

Lemma start_request_refused a q nofail :
  preserves (refused req) (ceph_osdc_start_request K a q nofail).
Proof.
  unfold ceph_osdc_start_request.
  pres; first [ apply register_request_refused | apply send_request_refused
              | apply unregister_request_refused ].
Qed.

Lemma handle_reply_refused msg :
  preserves (refused req) (ceph_osdc_handle_reply K msg).
Proof.
  unfold ceph_osdc_handle_reply, ceph_osdc_get_request.
  pres; first [ apply put_request_refused
              | apply unregister_request_refused ].
Qed.

Lemma abort_request_refused q :
  preserves (refused req) (ceph_osdc_abort_request q).
Proof. unfold ceph_osdc_abort_request. pres. Qed.

Lemma sync_loop_refused w fuel last next :
  (forall q s, refused req s -> refused req (w q s)) ->
  preserves (refused req) (sync_loop K w fuel last next).
Proof.
  intros Hw. revert next. induction fuel as [|fuel IH]; intros next.
  - intros s Hs. exact Hs.
  - cbn [sync_loop].
    pres; first [apply IH | apply get_request_refused
                | apply put_request_refused | idtac].
    apply preserves_modify. intros. apply Hw. assumption.
Qed.

Lemma sync_refused w fuel :
  (forall q s, refused req s -> refused req (w q s)) ->
  preserves (refused req) (ceph_osdc_sync K w fuel).
Proof.
  intros Hw. unfold ceph_osdc_sync. pres. apply sync_loop_refused, Hw.
Qed.

Lemma incremental_maps_refused n p newmap :
  preserves (refused req) (incremental_maps K n p newmap).
Proof.
  revert p newmap. induction n as [|n IH]; intros p newmap;
    cbn [incremental_maps].
  - pres.
  - unfold ceph_decode_32. pres; apply IH.
Qed.

Lemma full_maps_refused n p newmap :
  preserves (refused req) (full_maps K n p newmap).
Proof.
  revert p newmap. induction n as [|n IH]; intros p newmap; cbn [full_maps].
  - pres.
  - unfold ceph_decode_32. pres; apply IH.
Qed.

Lemma handle_map_refused front :
  preserves (refused req) (ceph_osdc_handle_map K front).
Proof.
  unfold ceph_osdc_handle_map, bad, handle_map_done, kick_requests,
    ceph_decode_32.
  pres; first [apply incremental_maps_refused | apply full_maps_refused].
Qed.

Lemma prepare_pages_refused m want :
  preserves (refused req) (ceph_osdc_prepare_pages OPREPLY m want).
Proof. unfold ceph_osdc_prepare_pages. cbv zeta. pres. Qed.

Lemma reach_refused s s' : reach K s s' -> refused req s -> refused req s'.
Proof.
  induction 1 as [s| s s1 q r a nofail _ IH Hm Hlt
                  | s s1 msg _ IH | s s1 q _ IH | s s1 front _ IH
                  | s s1 addr _ IH | s s1 _ IH | s s1 q _ IH
                  | s s1 q _ IH | s s1 now _ IH
                  | s s1 w fuel _ IH _ IHw];
    intros Hs.
  - exact Hs.
  - apply start_request_refused.
    destruct (IH Hs) as (r0 & Hr0 & Hwhy). exists r0. split; [|exact Hwhy].
    unfold place. cbn. rewrite lookup_insert_ne by congruence. exact Hr0.
  - apply handle_reply_refused; auto.
  - apply abort_request_refused; auto.
  - apply handle_map_refused; auto.
  - apply IH, Hs.
  - apply IH, Hs.
  - apply get_request_refused; auto.
  - apply put_request_refused; auto.
  - apply (refused_fields _ s1); [reflexivity|auto].
  - apply sync_refused; auto.
Qed.

Lemma reach_pages_refused s s' :
  reach_pages K OPREPLY s s' -> refused req s -> refused req s'.
Proof.
  induction 1 as [s|s s1 s2 _ IH Hr|s s1 m want _ IH]; intros Hs.
  - exact Hs.
  - eapply reach_refused; [exact Hr|auto].
  - apply prepare_pages_refused; auto.
Qed.

(** A request that is [refused] gives no pages. *)
Lemma refused_prepare_pages s m want :
  refused req s -> request_mutex s = false ->
  __lookup_request (tid_of s) (requests s) (u64 (im_tid m)) = Some req ->
  ceph_osdc_prepare_pages OPREPLY m want s = Ok (-1, m) s.
Proof.
  intros (r & Hr & Hwhy) Hmx Hl. apply prepare_pages_fails; [exact Hmx|].
  right. right. exists req, r. tauto.
Qed.

(** X19: the pages of a request are handed to one incoming message at
    most.  Once [ceph_osdc_prepare_pages] has succeeded for a request,
    then whatever is called afterwards (requests started, replies, maps,
    aborts, resets, timeouts, [sync], further calls for pages), a call
    that finds the request (with the mutex free) returns -1 and changes
    neither the message nor the client. *)
Theorem X19_pages_handed_out_once s0 m0 want0 m0' s1 s m want :
  ceph_osdc_prepare_pages OPREPLY m0 want0 s0 = Ok (0, m0') s1 ->
  __lookup_request (tid_of s0) (requests s0) (u64 (im_tid m0)) = Some req ->
  reach_pages K OPREPLY s1 s ->
  request_mutex s = false ->
  __lookup_request (tid_of s) (requests s) (u64 (im_tid m)) = Some req ->
  ceph_osdc_prepare_pages OPREPLY m want s = Ok (-1, m) s.
Proof.
  intros Hrun Hl0 Hreach Hmx Hl.
  apply refused_prepare_pages; [|exact Hmx|exact Hl].
  apply (reach_pages_refused s1 s Hreach).
  revert Hrun. unfold ceph_osdc_prepare_pages.
  destruct (negb (u16 (im_type m0) =? OPREPLY)); [discriminate|].
  cbv zeta.
  destruct s0 as [om lt rq nr ttid os mx stl oto fsid mm jf tr].
  unfold tid_of in *. cbn in Hl0.
  destruct mx; [discriminate|]. mrun. rewrite Hl0.
  destruct (mm !! req) as [r|] eqn:Hr.
  2:{ unfold deref, mbind, M_bind. cbn. rewrite Hr. discriminate. }
  mrun.
  destruct ((want0 <=? r_num_pages r) && negb (r_prepared_pages r)
            && negb (r_aborted r)).
  2:{ mrun. discriminate. }
  mrun. rewrite insert_insert_eq. intros [= _ <-].
  eexists. cbn. rewrite lookup_insert_eq. split; [reflexivity|].
  left. reflexivity.
Qed.

(** X20: no pages after an abort.  Once [ceph_osdc_abort_request] has
    run on a request, then whatever is called afterwards, a call of
    [ceph_osdc_prepare_pages] that finds the request (with the mutex
    free) returns -1 and changes neither the message nor the client. *)
Theorem X20_no_pages_after_abort s0 r0 s m want :
  mem s0 !! req = Some r0 ->
  reach_pages K OPREPLY (after (ceph_osdc_abort_request req) s0) s ->
  request_mutex s = false ->
  __lookup_request (tid_of s) (requests s) (u64 (im_tid m)) = Some req ->
  ceph_osdc_prepare_pages OPREPLY m want s = Ok (-1, m) s.
Proof.
  intros Hm Hreach Hmx Hl.
  apply refused_prepare_pages; [|exact Hmx|exact Hl].
  apply (reach_pages_refused _ s Hreach).
  destruct (abort_request_sets_aborted s0 req r0 Hm)
    as (_ & r' & Hr' & Hab & _).
  exists r'. split; [exact Hr'|]. right. exact Hab.
Qed.

End Refused.

(** ** Synchronous reads and writes *)

(** What [ceph_osdc_abort_request] does to an allocated request. *)
Lemma abort_request_ok s req r :
  mem s !! req = Some r ->
  ceph_osdc_abort_request req s
  = Ok tt
      (set_mem
         (<[req := set_r_reply None
                     (set_r_request (set_m_pages None (r_request r))
                        (set_r_aborted true r))]> (mem s))
         (set_trace
            (trace s ++ ev_pr_err "abort_request"
               :: match r_reply r with
                  | Some m => [ev_msg_put m]
                  | None => []
                  end) s)).
Proof.
  intros Hm.
  destruct s as [om lt rq nr ttid os mx stl oto fsid mm jf tr].
  cbn in Hm. unfold ceph_osdc_abort_request.
  destruct r as [tid fl res ab got pp rs ro rrep ref cb scb rv ts oid oidl
                 pg np fly snc mp rq_].
  mrun.
  match goal with
  | |- context [r_reply ?x] => change (r_reply x) with rrep
  end.
  destruct rrep; mrun; unfold update, mret, M_ret; flat;
    rewrite ?insert_insert_eq, ?lookup_insert_eq; cbn;
    rewrite ?insert_insert_eq, <- ?app_assoc; reflexivity.
Qed.

Section SyncIO.
Context (K : externs) (HK : rbtree_ok K) (HA : abi_ok K).

(** A new request is started and the first reply for its tid arrives. *)
Lemma start_then_reply a s req r nofail m pgid msg :
  index_ok s ->
  (forall p, p ∈ inorder (requests s) -> tid_of s p <= last_tid s) ->
  num_requests s < 2 ^ 31 - 1 ->
  request_mutex s = false ->
  mem s !! req = Some r -> r_osd r = None -> 1 <= r_ref r ->
  r_aborted r = false -> r_got_reply r = false ->
  req ∉ inorder (requests s) ->
  0 <= last_tid s < 2 ^ 64 - 1 ->
  osdmap s = Some m ->
  ceph_calc_object_layout K (r_oid r) (r_file_layout r) (Some m) = (0, pgid) ->
  let o := ceph_calc_pg_primary K (Some m) pgid in
  let osd := session_for a s o in
  (osds s !! o = None -> kmalloc_osd a = true) ->
  (osds s !! o <> None -> o_requests osd <> []) ->
  req ∉ o_requests osd ->
  forall c, o_con osd = Some c ->
  reply_well_formed K msg = true ->
  u64 (rm_tid msg) = last_tid s + 1 ->
  let flags := s32 (rm_flags msg) in
  let unreg := flag_set flags (CEPH_OSD_FLAG_ONDISK K)
               || negb (flag_set flags (CEPH_OSD_FLAG_WRITE K)) in
  exists s1 s2 r2,
    ceph_osdc_start_request K a req nofail s = Ok 0 s1
    /\ ceph_osdc_handle_reply K msg s1 = Ok tt s2
    /\ mem s2 = <[req := r2]> (mem s)
    /\ r_ref r2 = r_ref r + (if unreg then 0 else 1)
    /\ r_result r2
       = (if s32 (rm_result msg) =? 0 then s32 (u32 (rm_data_len msg))
          else s32 (rm_result msg))
    /\ r_osd r2 = (if unreg then None else Some o)
    /\ r_tid r2 = last_tid s + 1
    /\ inorder (requests s2)
       = inorder (requests s) ++ (if unreg then [] else [req])
    /\ osds s2
       = (if unreg then osds s
          else <[o := {| o_osd := o_osd osd;
                         o_requests := req :: o_requests osd;
                         o_con := o_con osd |}]> (osds s))
    /\ num_requests s2 = num_requests s + (if unreg then 0 else 1)
    /\ last_tid s2 = last_tid s + 1
    /\ request_mutex s2 = false
    /\ List.filter any_signal (drop (length (trace s)) (trace s2))
       = ev_con_send c req :: reply_signals K req r flags
    /\ exists t, trace s2 = trace s ++ t.
Proof.
  intros Hidx Hbound Hnum Hmx Hm Hro Href Hab Hgot Hni Hlt Hom Hlay o osd Hkm
    Hnonempty Hnin c Hc Hwf Htid flags unreg.
  destruct (start_request_ok K HK HA a s req r nofail m pgid Hmx Hm Hro
              Hbound Hni Hlt Hom Hlay Hkm c Hc)
    as (s1 & r1 & Hrun1 & Hmem1 & Ht1 & Ho1 & Hr1 & Hin1 & Hos1 & Hmx1 & Hlt1
        & Hnum1 & Hom1 & Htr1 & Hab1 & Hgot1 & Hcb1 & Hscb1 & _).
  fold o in Ho1, Hos1. fold osd in Hos1.
  destruct Hidx as [Hsort Halloc Hcount Hsmall].
  assert (Hn1 : num_requests s1 = num_requests s + 1).
  { rewrite Hnum1. apply s32_small. lia. }
  assert (Hkey : forall p, p <> req -> tid_of s1 p = tid_of s p).
  { intros p Hp. unfold tid_of, tid_in. rewrite Hmem1.
    rewrite lookup_insert_ne by congruence. reflexivity. }
  assert (Hreq : tid_of s1 req = last_tid s + 1).
  { unfold tid_of, tid_in. rewrite Hmem1, lookup_insert_eq. exact Ht1. }
  assert (Hidx1 : index_ok s1).
  { split.
    - rewrite Hin1. apply ascending_snoc.
      + eapply ascending_ext; [|exact Hsort]. intros p Hp. symmetry.
        apply Hkey. intros ->. contradiction.
      + intros p Hp. rewrite Hreq, Hkey by (intros ->; contradiction).
        specialize (Hbound p Hp). lia.
    - rewrite Hin1, Hmem1. intros p [Hp|Hp]%elem_of_app.
      + destruct (decide (p = req)) as [->|Hne];
          [rewrite lookup_insert_eq; eauto|].
        rewrite lookup_insert_ne by congruence. auto.
      + apply list_elem_of_singleton in Hp as ->.
        rewrite lookup_insert_eq. eauto.
    - rewrite Hn1, Hin1, length_app, Hcount. cbn. lia.
    - lia. }
  assert (Hl1 : __lookup_request (tid_of s1) (requests s1) (u64 (rm_tid msg))
                = Some req).
  { rewrite Htid, <- Hreq. apply lookup_request_sorted.
    - apply (index_sorted _ Hidx1).
    - rewrite Hin1. set_solver. }
  set (osd1 := {| o_osd := o_osd osd; o_requests := req :: o_requests osd;
                  o_con := o_con osd |}) in *.
  assert (Hfilter : filter (fun q => q <> req) (o_requests osd1)
                    = o_requests osd).
  { subst osd1. cbn [o_requests]. rewrite filter_cons_False by auto.
    apply filter_ne_notin. exact Hnin. }
  destruct (reply_records K HK msg s1 req r1 o osd1)
    as (s2 & r2 & pre & post & Hrun2 & Hmem2 & Hgot2 & Hres2 & _ & _ & Htr2
        & Hpre & Hpost & Hrest).
  { exact Hidx1. }
  { exact Hwf. }
  { exact Hmx1. }
  { exact Hl1. }
  { rewrite Hmem1. apply lookup_insert_eq. }
  { lia. }
  { rewrite Hab1. exact Hab. }
  { left. rewrite Hgot1. exact Hgot. }
  { exact Ho1. }
  { rewrite Hos1. apply lookup_insert_eq. }
  { intros _. subst osd1. cbn [o_con]. rewrite Hc. eauto. }
  fold flags in Hrest, Htr2. fold unreg in Hrest. cbv zeta in Hrest.
  destruct Hrest as (Gref & Gosd & Grq & Gos & Gnum & Glt & Gmx & Gom).
  destruct (reply_processed K HK msg s1 req r1 o osd1)
    as (s2' & r2' & Hrun2' & _ & _ & Hmem2' & Htid2 & _).
  { exact Hidx1. }
  { exact Hwf. }
  { exact Hmx1. }
  { exact Hl1. }
  { rewrite Hmem1. apply lookup_insert_eq. }
  { lia. }
  { rewrite Hab1. exact Hab. }
  { left. rewrite Hgot1. exact Hgot. }
  { exact Ho1. }
  { rewrite Hos1. apply lookup_insert_eq. }
  { intros _. subst osd1. cbn [o_con]. rewrite Hc. eauto. }
  assert (s2' = s2) as -> by congruence.
  assert (r2' = r2) as ->.
  { assert (Some r2' = Some r2) as [= ->]; [|reflexivity].
    rewrite <- (lookup_insert_eq (mem s1) req r2'), <- Hmem2', Hmem2.
    apply lookup_insert_eq. }
  exists s1, s2, r2. split; [exact Hrun1|]. split; [exact Hrun2|].
  split_and!.
  - rewrite Hmem2, Hmem1. apply insert_insert_eq.
  - rewrite Gref, Hr1. destruct unreg; lia.
  - rewrite Hres2, Hgot1, Hgot. reflexivity.
  - exact Gosd.
  - rewrite Htid2. exact Ht1.
  - rewrite Grq. destruct unreg; [|exact Hin1].
    rewrite (rb_erase_inorder K HK)
      by (eapply ascending_NoDup, (index_sorted _ Hidx1)).
    rewrite Hin1, filter_app, filter_ne_notin by exact Hni.
    rewrite filter_cons_False, filter_nil by auto. reflexivity.
  - rewrite Gos. destruct unreg; [|exact Hos1].
    rewrite Hfilter, Hos1. subst osd.
    unfold session_for in *. fold o in Hnonempty |- *.
    destruct (osds s !! o) as [osd0|] eqn:Hso.
    + destruct (o_requests osd0) as [|q l] eqn:Hl0;
        [destruct Hnonempty; [discriminate|reflexivity]|].
      subst osd1. cbn [o_osd o_con]. rewrite insert_insert_eq, <- Hl0.
      rewrite session_same. apply insert_id. exact Hso.
    + cbn [init_osd o_requests]. apply delete_insert_id. exact Hso.
  - rewrite Gnum, Hn1. destruct unreg; lia.
  - lia.
  - exact Gmx.
  - rewrite Htr2, Htr1. rewrite <- !app_assoc, drop_app_length.
    cbn [app]. rewrite <- !app_assoc.
    assert (Hfil : forall l1 l2, List.filter any_signal (l1 ++ l2)
                    = List.filter any_signal l1 ++ List.filter any_signal l2)
      by (intros; apply List.filter_app).
    cbn [List.filter any_signal]. rewrite !Hfil.
    rewrite (filter_no_signal pre Hpre), (filter_no_signal post Hpost).
    rewrite filter_reply_signals.
    assert (List.filter any_signal
              (if s32 (num_requests s + 1) =? 1
               then [ev_schedule_delayed_work
                       (u64 (u64 (jiffies s + osd_timeout s * HZ K)
                             - jiffies s))]
               else []) = []) as ->
      by (destruct (s32 (num_requests s + 1) =? 1); reflexivity).
    cbn [List.filter any_signal app]. rewrite app_nil_r.
    unfold reply_signals. rewrite Hcb1, Hscb1. reflexivity.
  - rewrite Htr2, Htr1. eexists. rewrite <- !app_assoc. reflexivity.
Qed.

(** The common end of [ceph_osdc_readpages] and [ceph_osdc_writepages],
    when the first reply arrives while the caller waits. *)
Lemma sync_tail_reply {B} (k : Z -> M B) a s req r nofail m pgid msg :
  index_ok s ->
  (forall p, p ∈ inorder (requests s) -> tid_of s p <= last_tid s) ->
  num_requests s < 2 ^ 31 - 1 ->
  request_mutex s = false ->
  mem s !! req = Some r -> r_osd r = None -> r_ref r = 1 ->
  r_aborted r = false -> r_got_reply r = false ->
  req ∉ inorder (requests s) ->
  0 <= last_tid s < 2 ^ 64 - 1 ->
  osdmap s = Some m ->
  ceph_calc_object_layout K (r_oid r) (r_file_layout r) (Some m) = (0, pgid) ->
  let o := ceph_calc_pg_primary K (Some m) pgid in
  let osd := session_for a s o in
  (osds s !! o = None -> kmalloc_osd a = true) ->
  (osds s !! o <> None -> o_requests osd <> []) ->
  req ∉ o_requests osd ->
  forall c, o_con osd = Some c ->
  reply_well_formed K msg = true ->
  u64 (rm_tid msg) = last_tid s + 1 ->
  let flags := s32 (rm_flags msg) in
  let unreg := flag_set flags (CEPH_OSD_FLAG_ONDISK K)
               || negb (flag_set flags (CEPH_OSD_FLAG_WRITE K)) in
  let res := if s32 (rm_result msg) =? 0 then s32 (u32 (rm_data_len msg))
             else s32 (rm_result msg) in
  exists s3 r3,
    (ceph_osdc_start_request K a req nofail
       ≫= λ rc,
         (if rc =? 0
          then ceph_osdc_wait_request (reply_arrives K msg) req
          else mret rc)
           ≫= λ rc, ceph_osdc_put_request req ≫= λ _, k rc) s
    = k res s3
    /\ mem s3 = <[req := r3]> (mem s)
    /\ r_ref r3 = (if unreg then 0 else 1)
    /\ r_result r3 = res
    /\ r_osd r3 = (if unreg then None else Some o)
    /\ r_tid r3 = last_tid s + 1
    /\ inorder (requests s3)
       = inorder (requests s) ++ (if unreg then [] else [req])
    /\ osds s3
       = (if unreg then osds s
          else <[o := {| o_osd := o_osd osd;
                         o_requests := req :: o_requests osd;
                         o_con := o_con osd |}]> (osds s))
    /\ num_requests s3 = num_requests s + (if unreg then 0 else 1)
    /\ last_tid s3 = last_tid s + 1
    /\ request_mutex s3 = false
    /\ List.filter any_signal (drop (length (trace s)) (trace s3))
       = ev_con_send c req :: reply_signals K req r flags
    /\ (unreg = true -> last (trace s3) = Some (ev_free_request req)).
Proof.
  intros Hidx Hbound Hnum Hmx Hm Hro Href Hab Hgot Hni Hlt Hom Hlay o osd Hkm
    Hnonempty Hnin c Hc Hwf Htid flags unreg res.
  destruct (start_then_reply a s req r nofail m pgid msg Hidx Hbound Hnum Hmx
              Hm Hro ltac:(lia) Hab Hgot Hni Hlt Hom Hlay Hkm Hnonempty Hnin
              c Hc Hwf Htid)
    as (s1 & s2 & r2 & Hrun1 & Hrun2 & Hmem2 & Hr2 & Hres2 & Ho2 & Ht2 & Hin2
        & Hos2 & Hn2 & Hlt2 & Hmx2 & Hsig2 & t & Htr2).
  fold o in Ho2, Hos2. fold osd in Hos2. fold flags in Hr2, Ho2, Hin2, Hos2,
    Hn2, Hsig2. fold unreg in Hr2, Ho2, Hin2, Hos2, Hn2. fold res in Hres2.
  assert (Hm2 : mem s2 !! req = Some r2)
    by (rewrite Hmem2; apply lookup_insert_eq).
  erewrite bind_ok by exact Hrun1. cbn [Z.eqb].
  unfold ceph_osdc_wait_request, reply_arrives.
  rewrite !bind_assoc. erewrite bind_ok by exact Hrun2.
  rewrite bind_ret. change (s32 0) with 0. cbn [Z.ltb Z.compare].
  rewrite bind_assoc. erewrite bind_deref by exact Hm2. rewrite bind_ret.
  unfold ceph_osdc_put_request. rewrite bind_assoc.
  erewrite bind_deref by exact Hm2.
  assert ((r_ref r2 <=? 0) = false) as ->
    by (apply Z.leb_gt; destruct unreg; lia).
  rewrite bind_assoc. erewrite bind_update by exact Hm2.
  rewrite Hres2.
  destruct unreg eqn:Hu.
  - assert ((r_ref r2 - 1 =? 0) = true) as -> by (apply Z.eqb_eq; lia).
    rewrite bind_emit. eexists _, _. split; [reflexivity|].
    proj_simpl. rewrite Hmem2, insert_insert_eq.
    split; [reflexivity|]. cbn [r_ref set_r_ref r_result r_osd r_tid].
    split_and!; try assumption; try lia.
    + rewrite Htr2, drop_app_length in Hsig2.
      rewrite Htr2, <- app_assoc, drop_app_length.
      rewrite List.filter_app. cbn [List.filter any_signal].
      rewrite app_nil_r. exact Hsig2.
    + intros _. apply last_snoc.
  - assert ((r_ref r2 - 1 =? 0) = false) as -> by (apply Z.eqb_neq; lia).
    rewrite bind_ret. eexists _, _. split; [reflexivity|].
    proj_simpl. rewrite Hmem2, insert_insert_eq.
    split; [reflexivity|]. cbn [r_ref set_r_ref r_result r_osd r_tid].
    split_and!; first [assumption | lia | discriminate].
Qed.

(** What a built request starts with. *)
Lemma built_fresh tl kz me layout vino off plen opcode flags snapc do_sync
    tseq tsize mtime pool r plen' :
  ceph_osdc_new_request K tl kz me layout vino off plen opcode flags snapc
    do_sync tseq tsize mtime pool = Built r plen' ->
  r_tid r = 0 /\ r_osd r = None /\ r_ref r = 1 /\ r_aborted r = false
  /\ r_got_reply r = false /\ r_callback r = false
  /\ r_safe_callback r = false /\ r_file_layout r = layout
  /\ r_flags r = flags.
Proof.
  unfold ceph_osdc_new_request. intros H.
  destruct (negb (pool || kz)); [discriminate|].
  destruct me as [err|]; [discriminate|].
  destruct (ceph_calc_file_object_mapping K layout off plen)
    as [[[pl bno] objoff] objlen].
  match type of H with
  | (if ?c then _ else _) = _ => destruct c; [discriminate|]
  end.
  injection H as <- <-. repeat split.
Qed.

(** A request put at an unused address leaves the index as it is. *)
Lemma alloc_index_ok s new r0 :
  index_ok s ->
  (forall p, p ∈ inorder (requests s) -> tid_of s p <= last_tid s) ->
  mem s !! new = None -> r_tid r0 = 0 ->
  let s0 := set_mem (<[new := r0]> (mem s)) s in
  index_ok s0
  /\ (forall p, p ∈ inorder (requests s0) -> tid_of s0 p <= last_tid s0)
  /\ new ∉ inorder (requests s).
Proof.
  intros Hidx Hbound Hfree Ht0 s0.
  assert (Hkey : forall p, tid_of s0 p = tid_of s p).
  { intros p. unfold tid_of, tid_in. subst s0. cbn.
    destruct (decide (p = new)) as [->|Hne].
    - rewrite lookup_insert_eq, Hfree. exact Ht0.
    - rewrite lookup_insert_ne by congruence. reflexivity. }
  split_and!.
  - apply (index_ok_ext s); try reflexivity; [exact Hkey| |exact Hidx].
    intros p Hp. subst s0. cbn.
    destruct (decide (p = new)) as [->|Hne].
    + rewrite lookup_insert_eq. eauto.
    + rewrite lookup_insert_ne by congruence. exact Hp.
  - intros p Hp. rewrite Hkey. apply Hbound. exact Hp.
  - intros Hin. destruct (index_alloc _ Hidx new Hin) as [x Hx]. congruence.
Qed.

(** X21: [ceph_osdc_readpages] when the allocations succeed, the object
    has a primary whose session exists or can be opened, and the first
    reply for the request arrives while the caller waits.  It returns
    the result of the reply (the data length when that is 0, as a
    32-bit signed value) with the length that fits the object.  One
    [ceph_con_send] is made, then the completion, and the safe
    completion if the reply has [ONDISK].  If the reply has [ONDISK] or
    lacks [WRITE], the request is out of the index again and freed,
    and the index, the sessions and the request count are as before;
    otherwise it stays registered with the one reference of the
    registry.  The tid counter has moved by one and the mutex is
    free. *)
Theorem X21_readpages_reply a kz me new msg vino layout off plen tseq tsize
    pages num_pages s r plen' m pgid :
  index_ok s ->
  (forall p, p ∈ inorder (requests s) -> tid_of s p <= last_tid s) ->
  num_requests s < 2 ^ 31 - 1 ->
  request_mutex s = false ->
  mem s !! new = None ->
  0 <= last_tid s < 2 ^ 64 - 1 ->
  osdmap s = Some m ->
  flag_set (CEPH_OSD_FLAG_READ K) (CEPH_OSD_FLAG_WRITE K) = false ->
  ceph_osdc_new_request K (signed_ticket_len s) kz me layout vino off plen
    (CEPH_OSD_OP_READ K) (CEPH_OSD_FLAG_READ K) None 0 tseq tsize 0 false
  = Built r plen' ->
  ceph_calc_object_layout K (r_oid r) layout (Some m) = (0, pgid) ->
  let o := ceph_calc_pg_primary K (Some m) pgid in
  let osd := session_for a s o in
  (osds s !! o = None -> kmalloc_osd a = true) ->
  (osds s !! o <> None -> o_requests osd <> []) ->
  new ∉ o_requests osd ->
  forall c, o_con osd = Some c ->
  reply_well_formed K msg = true ->
  u64 (rm_tid msg) = last_tid s + 1 ->
  let flags := s32 (rm_flags msg) in
  let unreg := flag_set flags (CEPH_OSD_FLAG_ONDISK K)
               || negb (flag_set flags (CEPH_OSD_FLAG_WRITE K)) in
  let res := if s32 (rm_result msg) =? 0 then s32 (u32 (rm_data_len msg))
             else s32 (rm_result msg) in
  exists s' r',
    ceph_osdc_readpages K a kz me new (reply_arrives K msg) vino layout off
      plen tseq tsize pages num_pages s
    = Ok (res, plen') s'
    /\ mem s' = <[new := r']> (mem s)
    /\ r_ref r' = (if unreg then 0 else 1)
    /\ r_result r' = res
    /\ r_osd r' = (if unreg then None else Some o)
    /\ r_tid r' = last_tid s + 1
    /\ inorder (requests s')
       = inorder (requests s) ++ (if unreg then [] else [new])
    /\ osds s'
       = (if unreg then osds s
          else <[o := {| o_osd := o_osd osd;
                         o_requests := new :: o_requests osd;
                         o_con := o_con osd |}]> (osds s))
    /\ num_requests s' = num_requests s + (if unreg then 0 else 1)
    /\ last_tid s' = last_tid s + 1
    /\ request_mutex s' = false
    /\ List.filter any_signal (drop (length (trace s)) (trace s'))
       = ev_con_send c new :: ev_complete new
         :: (if flag_set flags (CEPH_OSD_FLAG_ONDISK K)
             then [ev_safe_complete new] else [])
    /\ (unreg = true -> last (trace s') = Some (ev_free_request new)).
Proof.
  intros Hidx Hbound Hnum Hmx Hfree Hlt Hom Hrw Hbuild Hlay o osd Hkm
    Hnonempty Hnin c Hc Hwf Htid flags unreg res.
  destruct (built_fresh _ _ _ _ _ _ _ _ _ _ _ _ _ _ _ _ _ Hbuild)
    as (Ht0 & Hro & Href & Hab & Hgot & Hcb & Hscb & Hfl & _).
  set (r0 := set_r_num_pages (calc_pages_for K off plen')
               (set_r_pages pages r)).
  destruct (alloc_index_ok s new r0 Hidx Hbound Hfree Ht0)
    as (Hidx0 & Hbound0 & Hni).
  assert (Hlay0 : ceph_calc_object_layout K (r_oid r0) (r_file_layout r0)
                    (Some m) = (0, pgid)).
  { subst r0. cbn [r_oid r_file_layout set_r_num_pages set_r_pages].
    rewrite Hfl. exact Hlay. }
  destruct (sync_tail_reply (fun rc => mret (rc, plen')) a
              (set_mem (<[new := r0]> (mem s)) s) new r0 false m pgid msg
              Hidx0 Hbound0 Hnum Hmx (lookup_insert_eq _ _ _) Hro Href Hab
              Hgot Hni Hlt Hom Hlay0 Hkm Hnonempty Hnin c Hc Hwf Htid)
    as (s3 & r3 & Hrun & Hmem3 & Hrest).
  exists s3, r3. split.
  - etransitivity; [|exact Hrun].
    unfold ceph_osdc_readpages, osdc_new_request.
    rewrite bind_assoc, bind_gets. change (default 0 (@None Z)) with 0.
    rewrite Hbuild, Hrw. cbn [andb].
    rewrite bind_assoc, bind_modify, bind_ret. unfold place.
    erewrite bind_update by apply lookup_insert_eq. cbv zeta.
    proj_simpl. rewrite insert_insert_eq.
    erewrite bind_update by apply lookup_insert_eq.
    proj_simpl. rewrite insert_insert_eq. reflexivity.
  - cbn [mem set_mem] in Hmem3. rewrite insert_insert_eq in Hmem3.
    split; [exact Hmem3|].
    unfold reply_signals in Hrest. subst r0.
    cbn [r_callback r_safe_callback set_r_num_pages set_r_pages] in Hrest.
    rewrite Hcb, Hscb in Hrest. exact Hrest.
Qed.

(** X22: [ceph_osdc_writepages] for a file that is not a snapshot and
    with an mtime,
    when the allocations succeed, the object has a primary whose
    session exists or can be opened, and the first reply for the
    request arrives while the caller waits.  It returns the length that
    fits the object (as a 32-bit signed value) when the result of the
    reply is 0 with no data length, and that result otherwise.  One
    [ceph_con_send] is made, then the completion, and the safe
    completion if the reply has [ONDISK].  After a reply with [ONDISK]
    (or without [WRITE]) the request is out of the index again and
    freed, and the index, the sessions and the request count are as
    before; after an ack with [WRITE] and without [ONDISK] the caller
    returns while the request stays registered, with the one reference
    of the registry. *)
Theorem X22_writepages_reply NOSNAP a kz me new msg vino layout snapc off len
    tseq tsize mtime pages num_pages wflags do_sync nofail s r len' m pgid :
  index_ok s ->
  (forall p, p ∈ inorder (requests s) -> tid_of s p <= last_tid s) ->
  num_requests s < 2 ^ 31 - 1 ->
  request_mutex s = false ->
  mem s !! new = None ->
  0 <= last_tid s < 2 ^ 64 - 1 ->
  osdmap s = Some m ->
  snap vino = NOSNAP ->
  ceph_osdc_new_request K (signed_ticket_len s) kz me layout vino off len
    (CEPH_OSD_OP_WRITE K)
    (Z.lor (Z.lor wflags (CEPH_OSD_FLAG_ONDISK K)) (CEPH_OSD_FLAG_WRITE K))
    snapc do_sync tseq tsize mtime nofail
  = Built r len' ->
  ceph_calc_object_layout K (r_oid r) layout (Some m) = (0, pgid) ->
  let o := ceph_calc_pg_primary K (Some m) pgid in
  let osd := session_for a s o in
  (osds s !! o = None -> kmalloc_osd a = true) ->
  (osds s !! o <> None -> o_requests osd <> []) ->
  new ∉ o_requests osd ->
  forall c, o_con osd = Some c ->
  reply_well_formed K msg = true ->
  u64 (rm_tid msg) = last_tid s + 1 ->
  let flags := s32 (rm_flags msg) in
  let unreg := flag_set flags (CEPH_OSD_FLAG_ONDISK K)
               || negb (flag_set flags (CEPH_OSD_FLAG_WRITE K)) in
  let res := if s32 (rm_result msg) =? 0 then s32 (u32 (rm_data_len msg))
             else s32 (rm_result msg) in
  exists s' r',
    ceph_osdc_writepages K NOSNAP a kz me new (reply_arrives K msg) vino
      layout snapc off len tseq tsize (Some mtime) pages num_pages wflags
      do_sync nofail s
    = Ok (if res =? 0 then s32 len' else res) s'
    /\ mem s' = <[new := r']> (mem s)
    /\ r_ref r' = (if unreg then 0 else 1)
    /\ r_result r' = res
    /\ r_osd r' = (if unreg then None else Some o)
    /\ r_tid r' = last_tid s + 1
    /\ inorder (requests s')
       = inorder (requests s) ++ (if unreg then [] else [new])
    /\ osds s'
       = (if unreg then osds s
          else <[o := {| o_osd := o_osd osd;
                         o_requests := new :: o_requests osd;
                         o_con := o_con osd |}]> (osds s))
    /\ num_requests s' = num_requests s + (if unreg then 0 else 1)
    /\ last_tid s' = last_tid s + 1
    /\ request_mutex s' = false
    /\ List.filter any_signal (drop (length (trace s)) (trace s'))
       = ev_con_send c new :: ev_complete new
         :: (if flag_set flags (CEPH_OSD_FLAG_ONDISK K)
             then [ev_safe_complete new] else [])
    /\ (unreg = true -> last (trace s') = Some (ev_free_request new)).
Proof.
  intros Hidx Hbound Hnum Hmx Hfree Hlt Hom Hsnap Hbuild Hlay o osd Hkm
    Hnonempty Hnin c Hc Hwf Htid flags unreg res.
  destruct (built_fresh _ _ _ _ _ _ _ _ _ _ _ _ _ _ _ _ _ Hbuild)
    as (Ht0 & Hro & Href & Hab & Hgot & Hcb & Hscb & Hfl & _).
  set (r0 := set_r_num_pages (calc_pages_for K off len')
               (set_r_pages pages r)).
  destruct (alloc_index_ok s new r0 Hidx Hbound Hfree Ht0)
    as (Hidx0 & Hbound0 & Hni).
  assert (Hlay0 : ceph_calc_object_layout K (r_oid r0) (r_file_layout r0)
                    (Some m) = (0, pgid)).
  { subst r0. cbn [r_oid r_file_layout set_r_num_pages set_r_pages].
    rewrite Hfl. exact Hlay. }
  destruct (sync_tail_reply
              (fun rc => mret (if rc =? 0 then s32 len' else rc)) a
              (set_mem (<[new := r0]> (mem s)) s) new r0 nofail m pgid msg
              Hidx0 Hbound0 Hnum Hmx (lookup_insert_eq _ _ _) Hro Href Hab
              Hgot Hni Hlt Hom Hlay0 Hkm Hnonempty Hnin c Hc Hwf Htid)
    as (s3 & r3 & Hrun & Hmem3 & Hrest).
  exists s3, r3. split.
  - etransitivity; [|exact Hrun].
    unfold ceph_osdc_writepages, osdc_new_request.
    rewrite Hsnap, Z.eqb_refl. cbn [negb].
    rewrite bind_assoc, bind_gets.
    change (default 0 (Some mtime)) with mtime.
    rewrite Hbuild, andb_false_r.
    rewrite bind_assoc, bind_modify, bind_ret. unfold place.
    erewrite bind_update by apply lookup_insert_eq.
    proj_simpl. rewrite insert_insert_eq.
    erewrite bind_update by apply lookup_insert_eq.
    proj_simpl. rewrite insert_insert_eq. reflexivity.
  - cbn [mem set_mem] in Hmem3. rewrite insert_insert_eq in Hmem3.
    split; [exact Hmem3|].
    unfold reply_signals in Hrest. subst r0.
    cbn [r_callback r_safe_callback set_r_num_pages set_r_pages] in Hrest.
    rewrite Hcb, Hscb in Hrest. exact Hrest.
Qed.

(** X23: [ceph_osdc_readpages] when a signal ends the wait before any
    reply.  The request has been sent by then (one [ceph_con_send]); the
    call aborts it and returns the value of the wait.  The request is
    left registered, routed and on the list of its session, marked
    aborted, the pages taken away from its message, with the one
    reference of the registry; no completion is signalled. *)
Theorem X23_readpages_interrupted a kz me new rc vino layout off plen tseq
    tsize pages num_pages s r plen' m pgid :
  index_ok s ->
  (forall p, p ∈ inorder (requests s) -> tid_of s p <= last_tid s) ->
  request_mutex s = false ->
  mem s !! new = None ->
  0 <= last_tid s < 2 ^ 64 - 1 ->
  osdmap s = Some m ->
  flag_set (CEPH_OSD_FLAG_READ K) (CEPH_OSD_FLAG_WRITE K) = false ->
  ceph_osdc_new_request K (signed_ticket_len s) kz me layout vino off plen
    (CEPH_OSD_OP_READ K) (CEPH_OSD_FLAG_READ K) None 0 tseq tsize 0 false
  = Built r plen' ->
  ceph_calc_object_layout K (r_oid r) layout (Some m) = (0, pgid) ->
  let o := ceph_calc_pg_primary K (Some m) pgid in
  let osd := session_for a s o in
  (osds s !! o = None -> kmalloc_osd a = true) ->
  forall c, o_con osd = Some c ->
  s32 rc < 0 ->
  exists s' r',
    ceph_osdc_readpages K a kz me new (interrupted rc) vino layout off plen
      tseq tsize pages num_pages s
    = Ok (s32 rc, plen') s'
    /\ mem s' = <[new := r']> (mem s)
    /\ r_aborted r' = true
    /\ m_pages (r_request r') = None
    /\ r_reply r' = None
    /\ r_ref r' = 1
    /\ r_osd r' = Some o
    /\ r_tid r' = last_tid s + 1
    /\ inorder (requests s') = inorder (requests s) ++ [new]
    /\ osds s' = <[o := {| o_osd := o_osd osd;
                           o_requests := new :: o_requests osd;
                           o_con := o_con osd |}]> (osds s)
    /\ request_mutex s' = false
    /\ List.filter any_signal (drop (length (trace s)) (trace s'))
       = [ev_con_send c new].
Proof.
  intros Hidx Hbound Hmx Hfree Hlt Hom Hrw Hbuild Hlay o osd Hkm c Hc Hrc.
  destruct (built_fresh _ _ _ _ _ _ _ _ _ _ _ _ _ _ _ _ _ Hbuild)
    as (Ht0 & Hro & Href & Hab & Hgot & Hcb & Hscb & Hfl & _).
  set (r0 := set_r_num_pages (calc_pages_for K off plen')
               (set_r_pages pages r)).
  destruct (alloc_index_ok s new r0 Hidx Hbound Hfree Ht0)
    as (Hidx0 & Hbound0 & Hni).
  assert (Hlay0 : ceph_calc_object_layout K (r_oid r0) (r_file_layout r0)
                    (Some m) = (0, pgid)).
  { subst r0. cbn [r_oid r_file_layout set_r_num_pages set_r_pages].
    rewrite Hfl. exact Hlay. }
  destruct (start_request_ok K HK HA a (set_mem (<[new := r0]> (mem s)) s)
              new r0 false m pgid Hmx (lookup_insert_eq _ _ _) Hro Hbound0
              Hni Hlt Hom Hlay0 Hkm c Hc)
    as (s1 & r1 & Hrun1 & Hmem1 & Ht1 & Ho1 & Hr1 & Hin1 & Hos1 & Hmx1 & Hlt1
        & Hnum1 & Hom1 & Htr1 & _).
  cbn [mem set_mem requests osds last_tid trace num_requests jiffies
       osd_timeout] in Hmem1, Ht1, Hin1, Hos1, Hlt1, Htr1.
  rewrite insert_insert_eq in Hmem1.
  assert (Hm1 : mem s1 !! new = Some r1)
    by (rewrite Hmem1; apply lookup_insert_eq).
  eexists _, _. split.
  - unfold ceph_osdc_readpages, osdc_new_request.
    rewrite bind_assoc, bind_gets. change (default 0 (@None Z)) with 0.
    rewrite Hbuild, Hrw. cbn [andb].
    rewrite bind_assoc, bind_modify, bind_ret. unfold place.
    erewrite bind_update by apply lookup_insert_eq. cbv zeta.
    proj_simpl. rewrite insert_insert_eq.
    erewrite bind_update by apply lookup_insert_eq.
    proj_simpl. rewrite insert_insert_eq. fold r0.
    erewrite bind_ok by exact Hrun1. cbn [Z.eqb].
    unfold ceph_osdc_wait_request, interrupted.
    rewrite bind_assoc, bind_ret.
    assert ((s32 rc <? 0) = true) as -> by (apply Z.ltb_lt; exact Hrc).
    rewrite bind_assoc.
    erewrite bind_ok by (apply abort_request_ok; exact Hm1).
    rewrite bind_ret. unfold ceph_osdc_put_request.
    rewrite bind_assoc. erewrite bind_deref by map_lookup.
    cbn [r_ref set_r_reply set_r_request set_r_aborted]. rewrite Hr1.
    subst r0. cbn [r_ref set_r_num_pages set_r_pages]. rewrite Href.
    change (1 + 1 <=? 0) with false. change (1 + 1 - 1) with 1.
    change (1 =? 0) with false. cbv iota.
    rewrite bind_assoc. erewrite bind_update by map_lookup.
    rewrite !bind_ret. proj_simpl. rewrite insert_insert_eq, Hmem1.
    rewrite insert_insert_eq. reflexivity.
  - proj_simpl. split; [reflexivity|].
    cbn [r_aborted r_request m_pages r_reply r_ref r_osd r_tid set_r_ref
         set_r_reply set_r_request set_m_pages set_r_aborted].
    split_and!; try reflexivity; try assumption.
    rewrite Htr1, <- !app_assoc, drop_app_length.
    destruct (s32 (num_requests s + 1) =? 1), (r_reply r1); reflexivity.
Qed.

End SyncIO.

(** ** The values a start returns *)

Section StartReturns.
Context (K : externs).

Lemma returned_ret {A} (a v : A) s :
  returned ((mret a : M A) s) = Some v -> a = v.
Proof. intros [= ->]. reflexivity. Qed.

Lemma returned_oops {A} f s (v : A) :
  returned ((oops f : M A) s) = Some v -> False.
Proof. discriminate. Qed.

(** [send_request] gives 0 or [-ENOMEM]: an error of the layout
    computation is not passed on. *)
Lemma send_request_returns a req s rc :
  returned (send_request K a req s) = Some rc -> rc = 0 \/ rc = - ENOMEM K.
Proof.
  unfold send_request. intros H.
  apply returned_bind in H as (err & s1 & _ & H).
  destruct (Z.eqb_spec err (- ENOMEM K)) as [->|Hne].
  { apply returned_ret in H. auto. }
  apply returned_bind in H as (r & s2 & _ & H).
  apply returned_bind in H as (om & s3 & _ & H).
  left. destruct (r_osd r) as [o|], om as [m|];
    try (apply returned_oops in H; contradiction).
  - apply returned_bind in H as (? & s4 & _ & H).
    apply returned_bind in H as (? & s5 & _ & H).
    apply returned_bind in H as (? & s6 & _ & H).
    apply returned_bind in H as (osd & s7 & _ & H).
    destruct (o_con osd); [|apply returned_oops in H; contradiction].
    apply returned_bind in H as (? & s8 & _ & H).
    apply returned_ret in H. auto.
  - apply returned_bind in H as (? & s4 & _ & H).
    apply returned_ret in H. auto.
Qed.

(** X24: whenever [ceph_osdc_start_request] returns, with or without
    [nofail], the value is 0 or [-ENOMEM]: an error of the layout
    computation in [map_osds] is never the value returned. *)
Theorem X24_start_request_returns a s req nofail rc :
  returned (ceph_osdc_start_request K a req nofail s) = Some rc ->
  rc = 0 \/ rc = - ENOMEM K.
Proof.
  unfold ceph_osdc_start_request. intros H.
  apply returned_bind in H as (? & s1 & _ & H).
  apply returned_bind in H as (? & s2 & _ & H).
  apply returned_bind in H as (? & s3 & _ & H).
  apply returned_bind in H as (rc1 & s4 & Hsend & H).
  apply returned_bind in H as (rc2 & s5 & Hrc & H).
  apply returned_bind in H as (? & s6 & _ & H).
  apply returned_ret in H as <-.
  assert (Hs : returned (send_request K a req s3) = Some rc1)
    by (rewrite Hsend; reflexivity).
  apply send_request_returns in Hs.
  destruct (Z.eqb_spec rc1 0) as [->|Hne]; cbn [negb] in Hrc.
  - injection Hrc as <- _. auto.
  - destruct nofail.
    + assert (Hr : returned ((update req (set_r_resend true)
                              ≫= fun _ => mret 0) s4) = Some rc2)
        by (rewrite Hrc; reflexivity).
      apply returned_bind in Hr as (? & s7 & _ & Hr).
      apply returned_ret in Hr as <-. auto.
    + assert (Hr : returned ((__unregister_request K req
                              ≫= fun _ => mret rc1) s4) = Some rc2)
        by (rewrite Hrc; reflexivity).
      apply returned_bind in Hr as (? & s7 & _ & Hr).
      apply returned_ret in Hr as <-. exact Hs.
Qed.

End StartReturns.

(** ** Instances *)

Lemma scenario_three_started_inorder :
  inorder (requests scenario_three_started) = [1%nat; 2%nat; 3%nat].
Proof. vm_compute. reflexivity. Qed.

Lemma scenario_three_started_ascending :
  ascending (tid_of scenario_three_started)
    (inorder (requests scenario_three_started)).
Proof.
  rewrite scenario_three_started_inorder.
  repeat constructor; vm_compute; reflexivity.
Qed.

Lemma X1_witness :
  (forall p,
     __lookup_request (tid_of scenario_three_started)
       (requests scenario_three_started) 2 = Some p
     <-> p ∈ inorder (requests scenario_three_started)
         /\ tid_of scenario_three_started p = 2)
  /\ (__lookup_request (tid_of scenario_three_started)
        (requests scenario_three_started) 2 = None
      <-> forall p, p ∈ inorder (requests scenario_three_started) ->
                    tid_of scenario_three_started p <> 2).
Proof.
  exact (X1_lookup_request_finds_the_tid (tid_of scenario_three_started)
           (requests scenario_three_started) 2
           scenario_three_started_ascending).
Defined.

Lemma X2_witness :
  __insert_request sample 2%nat scenario_three_started
  = Oops bug scenario_three_started
  <-> exists p, p ∈ inorder (requests scenario_three_started)
                /\ tid_of scenario_three_started p
                   = tid_of scenario_three_started 2%nat.
Proof.
  exact (proj1 (X2_insert_request_then_lookup sample scenario_three_started
                  2%nat sample_rbtree_ok scenario_three_started_ascending)).
Defined.


Lemma X4_witness :
  exists s',
    register_request sample 1%nat scenario_fresh_read = Ok tt s'
    /\ last_tid s' = 1
    /\ __lookup_request (tid_of s') (requests s') 1 = Some 1%nat.
Proof.
  assert (Hmx : request_mutex scenario_fresh_read = false) by reflexivity.
  assert (Hm : mem scenario_fresh_read !! 1%nat = Some (sample_read 0))
    by (vm_compute; reflexivity).
  assert (Hin : inorder (requests scenario_fresh_read) = []) by reflexivity.
  assert (Hasc : ascending (tid_of scenario_fresh_read)
                   (inorder (requests scenario_fresh_read)))
    by (rewrite Hin; constructor).
  assert (Hbound : forall p, p ∈ inorder (requests scenario_fresh_read) ->
                     tid_of scenario_fresh_read p
                     <= last_tid scenario_fresh_read)
    by (rewrite Hin; intros p Hp; inversion Hp).
  assert (Hni : 1%nat ∉ inorder (requests scenario_fresh_read))
    by (rewrite Hin; intros Hp; inversion Hp).
  assert (Hlt : 0 <= last_tid scenario_fresh_read < 2 ^ 64 - 1)
    by (vm_compute; split; [discriminate|reflexivity]).
  destruct (X4_register_request sample scenario_fresh_read 1%nat
              (sample_read 0) sample_rbtree_ok Hmx Hm Hasc Hbound Hni Hlt)
    as (s' & r' & Hrun & Hlast & _ & _ & _ & _ & Hl & _).
  exists s'. split; [exact Hrun|]. split; [exact Hlast|exact Hl].
Defined.


Lemma X6_witness :
  exists s',
    __unregister_request sample 1%nat scenario_write_started = Ok tt s'
    /\ __lookup_request (tid_of s') (requests s') 1 = None
    /\ num_requests s' = 0.
Proof.
  pose (r := default zero_request (mem scenario_write_started !! 1%nat)).
  pose (osd := default {| o_osd := 0; o_requests := []; o_con := None |}
                 (osds scenario_write_started !! 3)).
  assert (Hin : 1%nat ∈ inorder (requests scenario_write_started))
    by (vm_compute; left).
  assert (Hm : mem scenario_write_started !! 1%nat = Some r)
    by (vm_compute; reflexivity).
  assert (Href : 2 <= r_ref r) by (vm_compute; discriminate).
  assert (Ho : r_osd r = Some 3) by (vm_compute; reflexivity).
  assert (Hosd : osds scenario_write_started !! 3 = Some osd)
    by (vm_compute; reflexivity).
  assert (Hcon : filter (fun q => q <> 1%nat) (o_requests osd) = [] ->
                 is_Some (o_con osd))
    by (intros _; vm_compute; eauto).
  destruct (X6_unregister_request sample sample_rbtree_ok
              scenario_write_started 1%nat r 3 osd
              scenario_write_started_index_ok Hin Hm Href Ho Hosd Hcon)
    as (s' & Hrun & Hl & _ & Hnum & _).
  exists s'. split; [exact Hrun|]. split; [exact Hl|exact Hnum].
Defined.

Lemma X8_witness :
  exists s' r',
    ceph_osdc_handle_reply sample write_ack scenario_write_started = Ok tt s'
    /\ mem s' !! 1%nat = Some r'
    /\ r_got_reply r' = true
    /\ r_reply r' = None
    /\ request_mutex s' = false.
Proof.
  pose (r := default zero_request (mem scenario_write_started !! 1%nat)).
  pose (osd := default {| o_osd := 0; o_requests := []; o_con := None |}
                 (osds scenario_write_started !! 3)).
  assert (Hwf : reply_well_formed sample write_ack = true) by reflexivity.
  assert (Hmx : request_mutex scenario_write_started = false)
    by (vm_compute; reflexivity).
  assert (Hl : __lookup_request (tid_of scenario_write_started)
                 (requests scenario_write_started) (u64 (rm_tid write_ack))
               = Some 1%nat) by (vm_compute; reflexivity).
  assert (Hm : mem scenario_write_started !! 1%nat = Some r)
    by (vm_compute; reflexivity).
  assert (Href : 1 <= r_ref r) by (vm_compute; discriminate).
  assert (Hab : r_aborted r = false) by (vm_compute; reflexivity).
  assert (Hfirst : r_got_reply r = false
                   \/ flag_set (s32 (rm_flags write_ack))
                        (CEPH_OSD_FLAG_ONDISK sample) = true)
    by (left; vm_compute; reflexivity).
  assert (Ho : r_osd r = Some 3) by (vm_compute; reflexivity).
  assert (Hosd : osds scenario_write_started !! 3 = Some osd)
    by (vm_compute; reflexivity).
  assert (Hcon : filter (fun q => q <> 1%nat) (o_requests osd) = [] ->
                 is_Some (o_con osd))
    by (intros _; vm_compute; eauto).
  destruct (X8_reply_records_and_signals sample write_ack
              scenario_write_started 1%nat r 3 osd sample_rbtree_ok
              scenario_write_started_index_ok Hwf Hmx Hl Hm Href Hab Hfirst
              Ho Hosd Hcon)
    as (s' & r' & Hrun & Hm' & Hgot & _ & _ & Hrep & Hmx' & _).
  exists s', r'. auto.
Defined.

Lemma X10_witness :
  ceph_osdc_handle_map sample full_map_osd3
    (ceph_osdc_init 0 30 (replicate 16 0))
  = match osdmap_decode sample (le32 5 ++ [3]) with
    | inl _ =>
        Ok tt (set_trace
                 (trace (ceph_osdc_init 0 30 (replicate 16 0))
                  ++ [ev_pr_err "corrupt msg"])
                 (ceph_osdc_init 0 30 (replicate 16 0)))
    | inr new =>
        Ok tt (set_trace
                 (trace (ceph_osdc_init 0 30 (replicate 16 0))
                  ++ [ev_monc_got_osdmap (epoch new)])
                 (set_osdmap (Some new)
                    (ceph_osdc_init 0 30 (replicate 16 0))))
    end.
Proof.
  assert (Hb : Forall blob_ok [{| mb_epoch := 5; mb_bytes := le32 5 ++ [3] |}]).
  { constructor; [|constructor]. split; vm_compute; [split|];
      first [discriminate | reflexivity]. }
  exact (X10_first_map sample (replicate 16 0) []
           [{| mb_epoch := 5; mb_bytes := le32 5 ++ [3] |}] []
           (ceph_osdc_init 0 30 (replicate 16 0))
           eq_refl eq_refl (List.Forall_nil _) Hb eq_refl eq_refl eq_refl).
Defined.


Lemma X13_witness :
  r_ref (sample_write 0) = 1 /\ r_tid (sample_write 0) = 0
  /\ r_osd (sample_write 0) = None.
Proof.
  assert (Hsync : 0 = 0 \/ 0 = 1) by (left; reflexivity).
  assert (Hb : ceph_osdc_new_request sample 0 true None layout_4M vino_1234 0
                 4096 (CEPH_OSD_OP_WRITE sample)
                 (Z.lor (CEPH_OSD_FLAG_ONDISK sample)
                    (CEPH_OSD_FLAG_WRITE sample))
                 None 0 0 0 0 false
               = Built (sample_write 0) 4096) by (vm_compute; reflexivity).
  pose proof (X13_built_request sample 0 true None layout_4M vino_1234 0
                4096 (CEPH_OSD_OP_WRITE sample)
                (Z.lor (CEPH_OSD_FLAG_ONDISK sample)
                   (CEPH_OSD_FLAG_WRITE sample))
                None 0 0 0 0 false (sample_write 0) 4096 Hsync Hb) as H.
  change (ceph_calc_file_object_mapping sample layout_4M 0 4096)
    with (4096, 0, 0, 4096) in H.
  cbv beta iota zeta in H.
  destruct H as (_ & _ & _ & _ & _ & _ & _ & _ & Href & Htid & Hosd & _).
  split; [exact Href|]. split; [exact Htid|exact Hosd].
Defined.

Lemma scenario_fresh_read_bound p :
  p ∈ inorder (requests scenario_fresh_read) ->
  tid_of scenario_fresh_read p <= last_tid scenario_fresh_read.
Proof. intros Hp. inversion Hp. Qed.

Lemma scenario_fresh_read_not_indexed :
  1%nat ∉ inorder (requests scenario_fresh_read).
Proof. intros Hp. inversion Hp. Qed.

Lemma scenario_fresh_read_last_tid :
  0 <= last_tid scenario_fresh_read < 2 ^ 64 - 1.
Proof. vm_compute. split; [discriminate|reflexivity]. Qed.

Lemma X14_witness :
  exists s' r',
    ceph_osdc_start_request sample all_ok 1%nat false scenario_fresh_read
    = Ok 0 s'
    /\ mem s' = <[1%nat := r']> (mem scenario_fresh_read)
    /\ r_tid r' = 1
    /\ r_osd r' = Some 3.
Proof.
  assert (Hm : mem scenario_fresh_read !! 1%nat = Some (sample_read 0))
    by (vm_compute; reflexivity).
  assert (Hkm : osds scenario_fresh_read
                !! ceph_calc_pg_primary sample (Some osdmap_osd3) 0 = None ->
                kmalloc_osd all_ok = true) by reflexivity.
  destruct (X14_start_request_sends sample sample_rbtree_ok sample_abi_ok
              all_ok scenario_fresh_read 1%nat (sample_read 0) false
              osdmap_osd3 0 eq_refl Hm eq_refl scenario_fresh_read_bound
              scenario_fresh_read_not_indexed scenario_fresh_read_last_tid
              eq_refl eq_refl Hkm 3 eq_refl)
    as (s' & r' & Hrun & Hmem & Htid & Hosd & _).
  exists s', r'. auto.
Defined.

Lemma X15_witness :
  exists rc,
    returned (ceph_osdc_start_request sample no_memory 1%nat true
                scenario_fresh_read) = Some rc
    /\ rc = 0.
Proof.
  assert (H : returned (ceph_osdc_start_request sample no_memory 1%nat true
                          scenario_fresh_read) = Some 0)
    by (vm_compute; reflexivity).
  exists 0. split; [exact H|].
  exact (X15_start_request_nofail sample no_memory scenario_fresh_read 1%nat
           0 H).
Defined.

Lemma X16_witness :
  exists s' r',
    ceph_osdc_start_request sample no_memory 1%nat true scenario_fresh_read
    = Ok 0 s'
    /\ mem s' = <[1%nat := r']> (mem scenario_fresh_read)
    /\ r_osd r' = None
    /\ r_resend r' = true
    /\ osds s' = osds scenario_fresh_read.
Proof.
  assert (Hm : mem scenario_fresh_read !! 1%nat = Some (sample_read 0))
    by (vm_compute; reflexivity).
  destruct (X16_start_request_nofail_no_memory sample sample_rbtree_ok
              sample_abi_ok no_memory scenario_fresh_read 1%nat
              (sample_read 0) osdmap_osd3 0 eq_refl Hm eq_refl
              scenario_fresh_read_bound scenario_fresh_read_not_indexed
              scenario_fresh_read_last_tid eq_refl eq_refl eq_refl eq_refl)
    as (s' & r' & Hrun & Hmem & _ & Hosd & Hre & _ & Hos & _).
  exists s', r'. auto.
Defined.

Lemma scenario_fresh_read_index_ok : index_ok scenario_fresh_read.
Proof.
  split.
  - constructor.
  - intros p Hp. inversion Hp.
  - reflexivity.
  - reflexivity.
Qed.

Lemma X17_witness :
  exists s1 s2,
    ceph_osdc_start_request sample all_ok 1%nat false scenario_fresh_read
    = Ok 0 s1
    /\ ceph_osdc_handle_reply sample
         (sample_reply 1 (CEPH_OSD_FLAG_ONDISK sample) 0) s1 = Ok tt s2
    /\ inorder (requests s2) = inorder (requests scenario_fresh_read)
    /\ osds s2 = osds scenario_fresh_read
    /\ num_requests s2 = num_requests scenario_fresh_read.
Proof.
  assert (Hm : mem scenario_fresh_read !! 1%nat = Some (sample_read 0))
    by (vm_compute; reflexivity).
  assert (Hkm : osds scenario_fresh_read
                !! ceph_calc_pg_primary sample (Some osdmap_osd3) 0 = None ->
                kmalloc_osd all_ok = true) by reflexivity.
  assert (Hne : osds scenario_fresh_read
                !! ceph_calc_pg_primary sample (Some osdmap_osd3) 0 <> None ->
                o_requests
                  (session_for all_ok scenario_fresh_read
                     (ceph_calc_pg_primary sample (Some osdmap_osd3) 0))
                <> [])
    by (intros H; exfalso; apply H; reflexivity).
  assert (Hnin : 1%nat ∉ o_requests
                   (session_for all_ok scenario_fresh_read
                      (ceph_calc_pg_primary sample (Some osdmap_osd3) 0)))
    by (intros Hp; inversion Hp).
  assert (Href : 1 <= r_ref (sample_read 0)) by (vm_compute; discriminate).
  assert (Hnum : num_requests scenario_fresh_read < 2 ^ 31 - 1)
    by reflexivity.
  destruct (X17_start_then_commit sample sample_rbtree_ok sample_abi_ok
              all_ok scenario_fresh_read 1%nat (sample_read 0) false
              osdmap_osd3 0 (sample_reply 1 (CEPH_OSD_FLAG_ONDISK sample) 0)
              scenario_fresh_read_index_ok scenario_fresh_read_bound Hnum
              eq_refl Hm eq_refl Href eq_refl eq_refl
              scenario_fresh_read_not_indexed scenario_fresh_read_last_tid
              eq_refl eq_refl Hkm Hne Hnin 3 eq_refl eq_refl eq_refl eq_refl)
    as (s1 & s2 & r2 & Hrun1 & Hrun2 & Hin & Hos & Hn & _).
  exists s1, s2. auto.
Defined.

Lemma X18_witness :
  exists rc m' s',
    ceph_osdc_prepare_pages 43 sample_incoming 1 scenario_write_started
    = Ok (rc, m') s'
    /\ request_mutex s' = false.
Proof.
  assert (Hmx : request_mutex scenario_write_started = false)
    by (vm_compute; reflexivity).
  destruct (X18_prepare_pages 43 sample_incoming 1 scenario_write_started Hmx
              (index_alloc _ scenario_write_started_index_ok))
    as (rc & m' & s' & Hrun & Hmx' & _).
  exists rc, m', s'. auto.
Defined.

Lemma X19_witness :
  ceph_osdc_prepare_pages 43 sample_incoming 1
    (after (ceph_osdc_prepare_pages 43 sample_incoming 1)
       scenario_write_started)
  = Ok (-1, sample_incoming)
      (after (ceph_osdc_prepare_pages 43 sample_incoming 1)
         scenario_write_started).
Proof.
  pose (s1 := after (ceph_osdc_prepare_pages 43 sample_incoming 1)
                scenario_write_started).
  assert (Hrun : ceph_osdc_prepare_pages 43 sample_incoming 1
                   scenario_write_started
                 = Ok (0, {| im_obj := 7; im_type := 43; im_tid := 1;
                             im_pages := None; im_nr_pages := 1;
                             im_ref := 2 |}) s1)
    by (vm_compute; reflexivity).
  assert (Hl0 : __lookup_request (tid_of scenario_write_started)
                  (requests scenario_write_started)
                  (u64 (im_tid sample_incoming)) = Some 1%nat)
    by (vm_compute; reflexivity).
  assert (Hmx : request_mutex s1 = false) by (vm_compute; reflexivity).
  assert (Hl : __lookup_request (tid_of s1) (requests s1)
                 (u64 (im_tid sample_incoming)) = Some 1%nat)
    by (vm_compute; reflexivity).
  exact (X19_pages_handed_out_once sample 43 1%nat scenario_write_started
           sample_incoming 1 _ s1 s1 sample_incoming 1 Hrun Hl0
           (reach_pages_refl sample 43 s1) Hmx Hl).
Defined.

Lemma X20_witness :
  ceph_osdc_prepare_pages 43 sample_incoming 1 scenario_aborted
  = Ok (-1, sample_incoming) scenario_aborted.
Proof.
  pose (r0 := default zero_request (mem scenario_started !! 1%nat)).
  assert (Hm : mem scenario_started !! 1%nat = Some r0)
    by (vm_compute; reflexivity).
  assert (Hmx : request_mutex scenario_aborted = false)
    by (vm_compute; reflexivity).
  assert (Hl : __lookup_request (tid_of scenario_aborted)
                 (requests scenario_aborted)
                 (u64 (im_tid sample_incoming)) = Some 1%nat)
    by (vm_compute; reflexivity).
  exact (X20_no_pages_after_abort sample 43 1%nat scenario_started r0
           scenario_aborted sample_incoming 1 Hm
           (reach_pages_refl sample 43 scenario_aborted) Hmx Hl).
Defined.

Lemma sample_client_index_ok : index_ok (sample_client osdmap_osd3).
Proof.
  split.
  - constructor.
  - intros p Hp. inversion Hp.
  - reflexivity.
  - reflexivity.
Qed.

Lemma sample_client_bound p :
  p ∈ inorder (requests (sample_client osdmap_osd3)) ->
  tid_of (sample_client osdmap_osd3) p
  <= last_tid (sample_client osdmap_osd3).
Proof. intros Hp. inversion Hp. Qed.

Lemma sample_client_last_tid :
  0 <= last_tid (sample_client osdmap_osd3) < 2 ^ 64 - 1.
Proof. vm_compute. split; [discriminate|reflexivity]. Qed.

Lemma sample_client_no_session :
  osds (sample_client osdmap_osd3)
  !! ceph_calc_pg_primary sample (Some osdmap_osd3) 0 = None.
Proof. reflexivity. Qed.

Lemma X21_witness :
  exists s',
    ceph_osdc_readpages sample all_ok true None 1%nat
      (reply_arrives sample (sample_reply 1 (CEPH_OSD_FLAG_READ sample) 0))
      vino_1234 layout_4M 0 4096 0 0 (Some 9%nat) 1
      (sample_client osdmap_osd3)
    = Ok (0, 4096) s'
    /\ inorder (requests s') = []
    /\ last_tid s' = 1
    /\ last (trace s') = Some (ev_free_request 1%nat).
Proof.
  assert (Hnum : num_requests (sample_client osdmap_osd3) < 2 ^ 31 - 1)
    by reflexivity.
  assert (Hb : ceph_osdc_new_request sample
                 (signed_ticket_len (sample_client osdmap_osd3)) true None
                 layout_4M vino_1234 0 4096 (CEPH_OSD_OP_READ sample)
                 (CEPH_OSD_FLAG_READ sample) None 0 0 0 0 false
               = Built (sample_read 0) 4096) by (vm_compute; reflexivity).
  assert (Hkm : osds (sample_client osdmap_osd3)
                !! ceph_calc_pg_primary sample (Some osdmap_osd3) 0 = None ->
                kmalloc_osd all_ok = true) by reflexivity.
  assert (Hne : osds (sample_client osdmap_osd3)
                !! ceph_calc_pg_primary sample (Some osdmap_osd3) 0 <> None ->
                o_requests
                  (session_for all_ok (sample_client osdmap_osd3)
                     (ceph_calc_pg_primary sample (Some osdmap_osd3) 0))
                <> [])
    by (intros H; destruct (H sample_client_no_session)).
  assert (Hnin : 1%nat ∉ o_requests
                   (session_for all_ok (sample_client osdmap_osd3)
                      (ceph_calc_pg_primary sample (Some osdmap_osd3) 0)))
    by (intros Hp; inversion Hp).
  destruct (X21_readpages_reply sample sample_rbtree_ok sample_abi_ok all_ok
              true None 1%nat
              (sample_reply 1 (CEPH_OSD_FLAG_READ sample) 0) vino_1234
              layout_4M 0 4096 0 0 (Some 9%nat) 1 (sample_client osdmap_osd3)
              (sample_read 0) 4096 osdmap_osd3 0 sample_client_index_ok
              sample_client_bound Hnum eq_refl eq_refl sample_client_last_tid
              eq_refl eq_refl Hb eq_refl Hkm Hne Hnin 3 eq_refl eq_refl
              eq_refl)
    as (s' & r' & Hrun & _ & _ & _ & _ & _ & Hin & _ & _ & Hlt & _ & _
        & Hfree).
  exists s'. split; [exact Hrun|]. split; [exact Hin|].
  split; [exact Hlt|]. apply Hfree. reflexivity.
Defined.

Lemma X22_witness :
  exists s',
    ceph_osdc_writepages sample 0 all_ok true None 1%nat
      (reply_arrives sample
         (sample_reply 1
            (Z.lor (CEPH_OSD_FLAG_ONDISK sample) (CEPH_OSD_FLAG_WRITE sample))
            0))
      vino_1234 layout_4M None 0 4096 0 0 (Some 0) (Some 9%nat) 1 0 0 false
      (sample_client osdmap_osd3)
    = Ok 4096 s'
    /\ inorder (requests s') = []
    /\ last_tid s' = 1
    /\ last (trace s') = Some (ev_free_request 1%nat).
Proof.
  assert (Hnum : num_requests (sample_client osdmap_osd3) < 2 ^ 31 - 1)
    by reflexivity.
  assert (Hb : ceph_osdc_new_request sample
                 (signed_ticket_len (sample_client osdmap_osd3)) true None
                 layout_4M vino_1234 0 4096 (CEPH_OSD_OP_WRITE sample)
                 (Z.lor (Z.lor 0 (CEPH_OSD_FLAG_ONDISK sample))
                    (CEPH_OSD_FLAG_WRITE sample))
                 None 0 0 0 0 false
               = Built (sample_write 0) 4096) by (vm_compute; reflexivity).
  assert (Hkm : osds (sample_client osdmap_osd3)
                !! ceph_calc_pg_primary sample (Some osdmap_osd3) 0 = None ->
                kmalloc_osd all_ok = true) by reflexivity.
  assert (Hne : osds (sample_client osdmap_osd3)
                !! ceph_calc_pg_primary sample (Some osdmap_osd3) 0 <> None ->
                o_requests
                  (session_for all_ok (sample_client osdmap_osd3)
                     (ceph_calc_pg_primary sample (Some osdmap_osd3) 0))
                <> [])
    by (intros H; destruct (H sample_client_no_session)).
  assert (Hnin : 1%nat ∉ o_requests
                   (session_for all_ok (sample_client osdmap_osd3)
                      (ceph_calc_pg_primary sample (Some osdmap_osd3) 0)))
    by (intros Hp; inversion Hp).
  destruct (X22_writepages_reply sample sample_rbtree_ok sample_abi_ok 0
              all_ok true None 1%nat
              (sample_reply 1
                 (Z.lor (CEPH_OSD_FLAG_ONDISK sample)
                    (CEPH_OSD_FLAG_WRITE sample)) 0)
              vino_1234 layout_4M None 0 4096 0 0 0 (Some 9%nat) 1 0 0 false
              (sample_client osdmap_osd3) (sample_write 0) 4096 osdmap_osd3 0
              sample_client_index_ok sample_client_bound Hnum eq_refl eq_refl
              sample_client_last_tid eq_refl eq_refl Hb eq_refl Hkm Hne Hnin
              3 eq_refl eq_refl eq_refl)
    as (s' & r' & Hrun & _ & _ & _ & _ & _ & Hin & _ & _ & Hlt & _ & _
        & Hfree).
  exists s'. split; [exact Hrun|]. split; [exact Hin|].
  split; [exact Hlt|]. apply Hfree. reflexivity.
Defined.

Lemma X23_witness :
  exists s' r',
    ceph_osdc_readpages sample all_ok true None 1%nat (interrupted (-4))
      vino_1234 layout_4M 0 4096 0 0 (Some 9%nat) 1
      (sample_client osdmap_osd3)
    = Ok (-4, 4096) s'
    /\ mem s' !! 1%nat = Some r'
    /\ r_aborted r' = true
    /\ r_ref r' = 1
    /\ inorder (requests s') = [1%nat].
Proof.
  assert (Hb : ceph_osdc_new_request sample
                 (signed_ticket_len (sample_client osdmap_osd3)) true None
                 layout_4M vino_1234 0 4096 (CEPH_OSD_OP_READ sample)
                 (CEPH_OSD_FLAG_READ sample) None 0 0 0 0 false
               = Built (sample_read 0) 4096) by (vm_compute; reflexivity).
  assert (Hkm : osds (sample_client osdmap_osd3)
                !! ceph_calc_pg_primary sample (Some osdmap_osd3) 0 = None ->
                kmalloc_osd all_ok = true) by reflexivity.
  assert (Hrc : s32 (-4) < 0) by reflexivity.
  destruct (X23_readpages_interrupted sample sample_rbtree_ok sample_abi_ok
              all_ok true None 1%nat (-4) vino_1234 layout_4M 0 4096 0 0
              (Some 9%nat) 1 (sample_client osdmap_osd3) (sample_read 0) 4096
              osdmap_osd3 0 sample_client_index_ok sample_client_bound
              eq_refl eq_refl sample_client_last_tid eq_refl eq_refl Hb
              eq_refl Hkm 3 eq_refl Hrc)
    as (s' & r' & Hrun & Hmem & Hab & _ & _ & Href & _ & _ & Hin & _).
  exists s', r'. split; [exact Hrun|].
  split; [rewrite Hmem; apply lookup_insert_eq|]. auto.
Defined.

Lemma X24_witness :
  exists rc,
    returned (ceph_osdc_start_request sample all_ok 1%nat false
                scenario_fresh_read) = Some rc
    /\ (rc = 0 \/ rc = - ENOMEM sample).
Proof.
  assert (H : returned (ceph_osdc_start_request sample all_ok 1%nat false
                          scenario_fresh_read) = Some 0)
    by (vm_compute; reflexivity).
  exists 0. split; [exact H|].
  exact (X24_start_request_returns sample all_ok scenario_fresh_read 1%nat
           false 0 H).
Defined.

Lemma X7_witness :
  ceph_osdc_handle_reply sample (sample_reply 5 0 0) scenario_write_started
  = Ok tt scenario_write_started.
Proof.
  assert (Hin : inorder (requests scenario_write_started) = [1%nat])
    by (vm_compute; reflexivity).
  assert (Hno : forall p, p ∈ inorder (requests scenario_write_started) ->
                  tid_of scenario_write_started p
                  <> u64 (rm_tid (sample_reply 5 0 0))).
  { rewrite Hin. intros p ->%list_elem_of_singleton. vm_compute.
    discriminate. }
  exact (proj2 (X7_reply_for_no_request sample (sample_reply 5 0 0)
                  scenario_write_started)
           eq_refl eq_refl
           (index_sorted _ scenario_write_started_index_ok) Hno).
Defined.
